(** * The endorser's proposal pipeline (core/endorser/endorser.go)

    A shallow embedding of [Endorser.ProcessProposal] and the functions it
    is built from ([callChaincode], [disableJavaCCInst], [simulateProposal],
    [endorseProposal], [getTxSimulator], ...), followed by theorems about
    them.

    The Go code is an orchestrator: almost every line is a call into a
    collaborator (validation, ledger, ACL provider, chaincode engine,
    protobuf helpers).  The collaborators are gathered in a record [World];
    every call to one that has an effect is written to an event log together
    with the value it returned, and receives the log so far, so that its
    answer may depend on everything that happened before.  Go panics (the
    explicit [panic] of [endorseProposal] and nil dereferences) are a second
    kind of outcome, and [defer] runs on both. *)

From stdpp Require Import base option list gmap strings.
From Stdlib Require Import ZArith Lia Strings.Byte DecimalString.

Local Open Scope Z_scope.
Local Open Scope string_scope.
Local Open Scope list_scope.

(** ** Data *)

(** Go's [[]byte]. *)
Definition bytes := list byte.

(** [string(b)] for a byte slice [b]. *)
Definition string_of_bytes (b : bytes) : string := String.string_of_list_byte b.

Definition hex_digit (n : N) : string :=
  String.substring (N.to_nat n) 1 "0123456789abcdef".

(** [fmt]'s verb [%x] on a byte slice. *)
Definition hex_of_bytes (b : bytes) : string :=
  String.concat ""
    (List.map (fun x => hex_digit (N.div (Byte.to_N x) 16) +:+ hex_digit (N.modulo (Byte.to_N x) 16)) b).

(** [fmt]'s verb [%d]. *)
Definition decimal (z : Z) : string := NilZero.string_of_int (Z.to_int z).

(** Go's [error] values, as this file builds them: [errors.New] and
    [errors.Errorf] (and whatever a collaborator returns) carry a message,
    [errors.WithMessage] and [errors.Wrap] put a message in front of a
    cause, and [chaincodeError] is the struct of lines 37-40. *)
Inductive error : Type :=
| errorString (msg : string)
| withMessage (cause : error) (msg : string)
| chaincodeError (status : Z) (msg : string).

(** The [Error()] method; line 43 for [chaincodeError]. *)
Fixpoint Error (e : error) : string :=
  match e with
  | errorString msg => msg
  | withMessage cause msg => msg +:+ ": " +:+ Error cause
  | chaincodeError status msg =>
      "chaincode error (status: " +:+ decimal status +:+ ", message: " +:+ msg +:+ ")"
  end.

(** A Go result pair [(v, err)] of a collaborator: [err == nil] and a
    value, or an error. *)
Inductive result (A : Type) : Type :=
| Ok (a : A)
| Err (err : error).
Arguments Ok {A} a.
Arguments Err {A} err.

(** [shim.OK], [shim.ERRORTHRESHOLD] and [shim.ERROR]: the comment of lines
    124-126 gives the threshold (anything below 400 can be sent as a
    transaction), 500 is the status this file writes for its own errors. *)
Definition OK : Z := 200.
Definition ERRORTHRESHOLD : Z := 400.
Definition ERROR : Z := 500.

(** [pb.Response] *)
Record Response := {
  Status : Z;
  Message : string;
  Payload : bytes }.

(** [pb.ChaincodeID] *)
Record ChaincodeID := {
  Path : string;
  Name : string;
  Version : string }.

(** [pb.ChaincodeEvent] *)
Record ChaincodeEvent := {
  ev_ChaincodeId : string;
  ev_TxId : string;
  ev_EventName : string;
  ev_Payload : bytes }.

(** [pb.Endorsement] *)
Record Endorsement := {
  Endorser_ : bytes;
  Signature : bytes }.

(** [pb.ProposalResponse]; [Response] and [Endorsement] are pointers. *)
Record ProposalResponse := {
  pr_Version : Z;
  pr_Timestamp : option Z;
  pr_Response : option Response;
  pr_Payload : bytes;
  pr_Endorsement : option Endorsement }.

(** [pb.SignedProposal] *)
Record SignedProposal := {
  ProposalBytes : bytes;
  sp_Signature : bytes }.

(** [pb.Proposal] *)
Record Proposal := {
  Header : bytes;
  prop_Payload : bytes;
  Extension : bytes }.

(** [common.Header] *)
Record HeaderT := {
  ChannelHeader : bytes;
  SignatureHeader : bytes }.

(** [common.ChannelHeader], the two fields the endorser reads. *)
Record ChannelHeaderT := {
  ChannelId : string;
  TxId : string }.

(** [common.SignatureHeader] *)
Record SignatureHeaderT := {
  Creator : bytes;
  Nonce : bytes }.

(** [pb.ChaincodeHeaderExtension] as the validator hands it over: the
    validator has checked that [ChaincodeId] is there. *)
Record ChaincodeHeaderExtension := {
  PayloadVisibility : bytes;
  hx_ChaincodeId : ChaincodeID }.

(** [pb.ChaincodeInput] *)
Record ChaincodeInput := {
  Args : list bytes;
  Decorations : list (string * bytes) }.

(** [pb.ChaincodeSpec_Type] *)
Inductive ChaincodeSpec_Type := UNDEFINED | GOLANG | NODE | CAR | JAVA.

(** [pb.ChaincodeSpec]; [ChaincodeId] and [Input] are pointers and the
    source tests them for nil. *)
Record ChaincodeSpecT := {
  Type_ : ChaincodeSpec_Type;
  cs_ChaincodeId : option ChaincodeID;
  Input : option ChaincodeInput }.

(** [pb.ChaincodeInvocationSpec] *)
Record ChaincodeInvocationSpec := {
  ChaincodeSpec : option ChaincodeSpecT }.

(** [pb.ChaincodeDeploymentSpec] *)
Record ChaincodeDeploymentSpec := {
  cds_ChaincodeSpec : option ChaincodeSpecT;
  CodePackage : bytes }.

(** [resourcesconfig.ChaincodeDefinition], which line 250 asserts to be a
    [*ccprovider.ChaincodeData]. *)
Record ChaincodeData := {
  CCName : string;
  CCVersion : string;
  cd_Endorsement : string;
  cd_Validation : string }.

(** Handles of the ledger package. *)
Definition Ledger := nat.
Definition TxSimulator := nat.
Definition HistoryQueryExecutor := nat.

(** [ledger.TxSimulationResults] *)
Record TxSimulationResults := {
  PubSimulationResults : bytes;
  PvtSimulationResults : option bytes }.

(** The two values the endorser puts into the [context.Context]. *)
Record Context := {
  TXSimulatorKey : option TxSimulator;
  HistoryQueryExecutorKey : option HistoryQueryExecutor }.

(** [ccprovider.CCContext], the arguments of [NewCCContext] and the
    decorations set at line 116. *)
Record CCContext := {
  ChainID : string;
  cc_Name : string;
  cc_Version : string;
  TxID : string;
  Syscc : bool;
  cc_SignedProp : SignedProposal;
  cc_Proposal : Proposal;
  ProposalDecorations : list (string * bytes) }.

Definition NewCCContext (cid name version txid : string) (syscc : bool)
    (signedProp : SignedProposal) (prop : Proposal) : CCContext :=
  {| ChainID := cid; cc_Name := name; cc_Version := version; TxID := txid;
     Syscc := syscc; cc_SignedProp := signedProp; cc_Proposal := prop;
     ProposalDecorations := [] |}.

(** ** The event log *)

(** One constructor per effectful collaborator call, with the arguments
    the endorser passed and the value that came back. *)
Inductive Event : Type :=
| EvValidateProposalMessage (signedProp : SignedProposal)
    (r : result (Proposal * HeaderT * ChaincodeHeaderExtension))
| EvGetLedger (chainID : string) (r : option Ledger)
| EvGetTransactionByID (lgr : Ledger) (txid : string) (err : option error)
| EvCheckACL (chainID : string) (signedProp : SignedProposal) (err : option error)
| EvNewTxSimulator (lgr : Ledger) (txid : string) (r : result TxSimulator)
| EvNewHistoryQueryExecutor (lgr : Ledger) (r : result HistoryQueryExecutor)
| EvDone (txsim : TxSimulator)
| EvGetChaincodeDefinition (ctxt : Context) (txid chainID chaincodeID : string)
    (r : result ChaincodeData)
| EvCheckInsantiationPolicy (name version : string) (cd : ChaincodeData)
    (err : option error)
| EvExecuteChaincode (ctxt : Context) (cccid : CCContext) (args : list bytes)
    (r : result (option Response * option ChaincodeEvent))
| EvExecute (ctxt : Context) (cccid : CCContext) (cds : ChaincodeDeploymentSpec)
    (err : option error)
| EvGetTxSimulationResults (txsim : TxSimulator) (r : result TxSimulationResults)
| EvDistributePrivateData (channel txID : string) (privateData : bytes)
    (err : option error)
| EvGetPubSimulationBytes (simResult : TxSimulationResults) (r : result bytes).

Definition Log := list Event.

(** ** Collaborators *)

(** Everything the endorser calls and this file does not define.  A field
    that takes a [Log] is an effectful call and is logged; the others are
    pure helpers (protobuf marshalling, registries, configuration). *)
Record World := {
  (* core/common/validation *)
  ValidateProposalMessage :
    Log -> SignedProposal -> result (Proposal * HeaderT * ChaincodeHeaderExtension);
  (* protos/utils *)
  UnmarshalChannelHeader : bytes -> result ChannelHeaderT;
  GetSignatureHeader : bytes -> result SignatureHeaderT;
  GetChaincodeInvocationSpec : Proposal -> result ChaincodeInvocationSpec;
  GetChaincodeDeploymentSpec : bytes -> result ChaincodeDeploymentSpec;
  GetBytesChaincodeEvent : ChaincodeEvent -> result bytes;
  GetBytesResponse : option Response -> result bytes;
  Marshal : ChaincodeID -> result bytes;
  GetProposalResponse : bytes -> result ProposalResponse;
  CreateProposalResponseFailure :
    bytes -> bytes -> Response -> bytes -> bytes -> ChaincodeID -> bytes ->
    result ProposalResponse;
  (* core/scc *)
  IsSysCC : string -> bool;
  IsSysCCAndNotInvokableExternal : string -> bool;
  (* common/util *)
  GetSysCCVersion : string;
  (* core/peer and core/ledger *)
  GetLedger : Log -> string -> option Ledger;
  GetTransactionByID : Log -> Ledger -> string -> option error;
  NewTxSimulator : Log -> Ledger -> string -> result TxSimulator;
  NewHistoryQueryExecutor : Log -> Ledger -> result HistoryQueryExecutor;
  GetTxSimulationResults : Log -> TxSimulator -> result TxSimulationResults;
  GetPubSimulationBytes : TxSimulationResults -> result bytes;
  (* core/aclmgmt *)
  CheckACL : Log -> string -> SignedProposal -> option error;
  (* core/common/ccprovider *)
  GetCCPackage : bytes -> result ChaincodeDeploymentSpec;
  CheckInsantiationPolicy : Log -> string -> string -> ChaincodeData -> option error;
  (* core/chaincode *)
  GetChaincodeDefinition :
    Log -> Context -> string -> SignedProposal -> Proposal -> string -> string ->
    result ChaincodeData;
  ExecuteChaincode :
    Log -> Context -> CCContext -> list bytes ->
    result (option Response * option ChaincodeEvent);
  Execute : Log -> Context -> CCContext -> ChaincodeDeploymentSpec -> option error;
  (* core/handlers/decoration, with the registry's decorators *)
  Apply : Proposal -> ChaincodeInput -> ChaincodeInput;
  (* the build flag behind javaEnabled() *)
  javaEnabled : bool }.

(** [privateDataDistributor], line 53. *)
Definition privateDataDistributor := Log -> string -> string -> bytes -> option error.

(** [Endorser], lines 56-58. *)
Record Endorser := {
  distributePrivateData : privateDataDistributor }.

(** ** The monad *)

(** A function body either returns or panics. *)
Inductive Outcome (A : Type) : Type :=
| Ret (a : A)
| Panic (msg : string).
Arguments Ret {A} a.
Arguments Panic {A} msg.

(** Pointers to [pb.ChaincodeID] objects: the header extension's
    [ChaincodeId] is written through a pointer by [endorseProposal], so
    these objects live in a store. *)
Definition ptr := nat.
Abbreviation Store := (gmap ptr ChaincodeID).

(** A computation reads the log so far and the store, and gives an
    outcome, the events it added and the new store. *)
Definition M (A : Type) : Type := Log -> Store -> Outcome A * Log * Store.

Definition ret {A} (a : A) : M A := fun _ σ => (Ret a, [], σ).

Definition bind {A B} (m : M A) (f : A -> M B) : M B := fun h σ =>
  match m h σ with
  | (Ret a, e1, σ1) =>
      match f a (h ++ e1) σ1 with
      | (o, e2, σ2) => (o, e1 ++ e2, σ2)
      end
  | (Panic msg, e1, σ1) => (Panic msg, e1, σ1)
  end.

Notation "x <- m ; k" := (bind m (fun x => k))
  (at level 20, m at level 100, k at level 200, only parsing).
Notation "' pat <- m ; k" := (bind m (fun x => match x with pat => k end))
  (at level 20, pat pattern, m at level 100, k at level 200, only parsing).

Definition panic {A} (msg : string) : M A := fun _ σ => (Panic msg, [], σ).

(** A logged collaborator call. *)
Definition call {R} (f : Log -> R) (ev : R -> Event) : M R := fun h σ =>
  let r := f h in (Ret r, [ev r], σ).

(** An event with no result. *)
Definition emit (ev : Event) : M unit := fun _ σ => (Ret tt, [ev], σ).

Definition nil_dereference : string :=
  "runtime error: invalid memory address or nil pointer dereference".

(** [*p] for a pointer that may be nil. *)
Definition deref {A} (p : option A) : M A :=
  match p with
  | Some a => ret a
  | None => panic nil_dereference
  end.

(** [&pb.ChaincodeID{...}] *)
Definition alloc (c : ChaincodeID) : M ptr := fun _ σ =>
  let p := fresh (dom σ) in (Ret p, [], <[p := c]> σ).

Definition load (p : ptr) : M ChaincodeID := fun _ σ =>
  match σ !! p with
  | Some c => (Ret c, [], σ)
  | None => (Panic nil_dereference, [], σ)
  end.

Definition store (p : ptr) (c : ChaincodeID) : M unit := fun _ σ =>
  match σ !! p with
  | Some _ => (Ret tt, [], <[p := c]> σ)
  | None => (Panic nil_dereference, [], σ)
  end.

(** [defer d] registered in front of [body]: [d] runs when [body] is left,
    by a return or by a panic. *)
Definition defer {A} (d : M unit) (body : M A) : M A := fun h σ =>
  match body h σ with
  | (o, e1, σ1) =>
      match d (h ++ e1) σ1 with
      | (_, e2, σ2) => (o, e1 ++ e2, σ2)
      end
  end.

(** ** The code *)

(** [errors.Errorf] and [errors.New] with the message already formatted;
    [errors.Wrap(err, msg)] and [errors.WithMessage(err, msg)]. *)
Definition Errorf (msg : string) : error := errorString msg.
Definition Wrap (err : error) (msg : string) : error := withMessage err msg.
Definition WithMessage (err : error) (msg : string) : error := withMessage err msg.

(** [&pb.ProposalResponse{Response: r}] *)
Definition ProposalResponse_of (r : option Response) : ProposalResponse :=
  {| pr_Version := 0; pr_Timestamp := None; pr_Response := r;
     pr_Payload := []; pr_Endorsement := None |}.

(** [&pb.ProposalResponse{Response: &pb.Response{Status: 500, Message: err.Error()}}, err] *)
Definition failure500 (err : error) : option ProposalResponse * option error :=
  (Some (ProposalResponse_of
           (Some {| Status := 500; Message := Error err; Payload := [] |})),
   Some err).

(** Field assignments. *)
Definition set_Version (c : ChaincodeID) (v : string) : ChaincodeID :=
  {| Path := Path c; Name := Name c; Version := v |}.

Definition set_Decorations (i : ChaincodeInput) (d : list (string * bytes)) : ChaincodeInput :=
  {| Args := Args i; Decorations := d |}.

Definition set_ProposalDecorations (c : CCContext) (d : list (string * bytes)) : CCContext :=
  {| ChainID := ChainID c; cc_Name := cc_Name c; cc_Version := cc_Version c;
     TxID := TxID c; Syscc := Syscc c; cc_SignedProp := cc_SignedProp c;
     cc_Proposal := cc_Proposal c; ProposalDecorations := d |}.

Definition set_Payload (r : Response) (p : bytes) : Response :=
  {| Status := Status r; Message := Message r; Payload := p |}.

Definition set_Response (pr : ProposalResponse) (r : option Response) : ProposalResponse :=
  {| pr_Version := pr_Version pr; pr_Timestamp := pr_Timestamp pr; pr_Response := r;
     pr_Payload := pr_Payload pr; pr_Endorsement := pr_Endorsement pr |}.

(** [context.WithValue(ctx, chaincode.TXSimulatorKey, txsim)] and
    [context.WithValue(ctx, chaincode.HistoryQueryExecutorKey, h)]. *)
Definition with_TXSimulator (ctx : Context) (txsim : TxSimulator) : Context :=
  {| TXSimulatorKey := Some txsim;
     HistoryQueryExecutorKey := HistoryQueryExecutorKey ctx |}.

Definition with_HistoryQueryExecutor (ctx : Context) (q : HistoryQueryExecutor) : Context :=
  {| TXSimulatorKey := TXSimulatorKey ctx; HistoryQueryExecutorKey := Some q |}.

(** The lifecycle test of line 139 on the argument list. *)
Definition is_deploy_or_upgrade (args : list bytes) : bool :=
  (3 <=? length args)%nat &&
  (String.eqb (string_of_bytes (nth 0 args [])) "deploy"
   || String.eqb (string_of_bytes (nth 0 args [])) "upgrade").

Section Code.

Variable w : World.
Variable e : Endorser.

(** Lines 70-72.  The resource is the constant [aclmgmt.PROPOSE]. *)
Definition checkACL (signedProp : SignedProposal) (chdr : ChannelHeaderT)
    (shdr : SignatureHeaderT) (hdrext : ptr) : M (option error) :=
  call (fun h => CheckACL w h (ChannelId chdr) signedProp)
       (EvCheckACL (ChannelId chdr) signedProp).

(** Lines 75-77. *)
Definition checkEsccAndVscc (prop : Proposal) : option error := None.

(** Lines 79-85. *)
Definition getTxSimulator (ledgername txid : string) : M (result TxSimulator) :=
  lgr <- call (fun h => GetLedger w h ledgername) (EvGetLedger ledgername) ;
  match lgr with
  | None => ret (Err (Errorf ("channel does not exist: " +:+ ledgername)))
  | Some lgr => call (fun h => NewTxSimulator w h lgr txid) (EvNewTxSimulator lgr txid)
  end.

(** Lines 87-93. *)
Definition getHistoryQueryExecutor (ledgername : string) : M (result HistoryQueryExecutor) :=
  lgr <- call (fun h => GetLedger w h ledgername) (EvGetLedger ledgername) ;
  match lgr with
  | None => ret (Err (Errorf ("channel does not exist: " +:+ ledgername)))
  | Some lgr => call (fun h => NewHistoryQueryExecutor w h lgr) (EvNewHistoryQueryExecutor lgr)
  end.

(** Lines 96-161.  [cid] is read at lines 108 and 139 and nothing writes
    to it in between, so it is loaded once.  The assignments of lines
    114-115 replace [cis.ChaincodeSpec.Input]; the function reads it back
    at lines 116, 118, 139 and 141.  [cis] is a pointer in the source and
    a value here: the two assignments change the caller's object, and
    that change is not part of the [Store], which holds [pb.ChaincodeID]
    objects only.  No function of the file reads [cis] after the call
    (line 263 is its last use in [simulateProposal], line 359 in
    [endorseProposal]), so results and events do not depend on it; an
    unchanged [Store] says nothing about the caller's [cis]. *)
Definition callChaincode (ctxt : Context) (chainID version txid : string)
    (signedProp : SignedProposal) (prop : Proposal) (cis : ChaincodeInvocationSpec)
    (cid : ptr) (txsim : option TxSimulator)
  : M (option Response * option ChaincodeEvent * option error) :=
  let ctxt := match txsim with
              | Some s => with_TXSimulator ctxt s
              | None => ctxt
              end in
  c <- load cid ;
  let scc := IsSysCC w (Name c) in
  let cccid := NewCCContext chainID (Name c) version txid scc signedProp prop in
  spec <- deref (ChaincodeSpec cis) ;
  input <- deref (Input spec) ;
  let input := Apply w prop (set_Decorations input []) in
  let cccid := set_ProposalDecorations cccid (Decorations input) in
  r <- call (fun h => ExecuteChaincode w h ctxt cccid (Args input))
            (EvExecuteChaincode ctxt cccid (Args input)) ;
  match r with
  | Err err => ret (None, None, Some err)
  | Ok (res, ccevent) =>
      res' <- deref res ;
      if Status res' >=? ERRORTHRESHOLD then ret (res, None, None)
      else if String.eqb (Name c) "lscc" && is_deploy_or_upgrade (Args input) then
        match GetChaincodeDeploymentSpec w (nth 2 (Args input) []) with
        | Err err => ret (None, None, Some err)
        | Ok cds =>
            dspec <- deref (cds_ChaincodeSpec cds) ;
            dcid <- deref (cs_ChaincodeId dspec) ;
            if IsSysCC w (Name dcid) then
              ret (None, None,
                   Some (Errorf ("attempting to deploy a system chaincode "
                                 +:+ Name dcid +:+ "/" +:+ chainID)))
            else
              let cccid := NewCCContext chainID (Name dcid) (Version dcid) txid false
                             signedProp prop in
              x <- call (fun h => Execute w h ctxt cccid cds) (EvExecute ctxt cccid cds) ;
              match x with
              | Some err => ret (None, None, Some err)
              | None => ret (res, ccevent, None)
              end
        end
      else ret (res, ccevent, None)
  end.

(** Lines 165-216. *)
Definition disableJavaCCInst (cid : ptr) (cis : ChaincodeInvocationSpec) : M (option error) :=
  c <- load cid ;
  if negb (String.eqb (Name c) "lscc") then ret None
  else
    match ChaincodeSpec cis with
    | None => ret None
    | Some spec =>
        match Input spec with
        | None => ret None
        | Some input =>
            if (length (Args input) <? 1)%nat then ret None
            else
              let cmd := string_of_bytes (nth 0 (Args input) []) in
              let argNo := if String.eqb cmd "install" then Some 1%nat
                           else if String.eqb cmd "deploy" || String.eqb cmd "upgrade"
                                then Some 2%nat
                                else None in
              match argNo with
              | None => ret None
              | Some argNo =>
                  if (length (Args input) <=? argNo)%nat then
                    ret (Some (Errorf ("too few arguments passed. expected "
                                       +:+ decimal (Z.of_nat argNo))))
                  else
                    match GetCCPackage w (nth argNo (Args input) []) with
                    | Err err => ret (Some err)
                    | Ok cds =>
                        if javaEnabled w then ret None
                        else
                          dspec <- deref (cds_ChaincodeSpec cds) ;
                          match Type_ dspec with
                          | JAVA => ret (Some (Errorf
                              "Java chaincode is work-in-progress and disabled"))
                          | _ => ret None
                          end
                    end
              end
        end
    end.

(** Lines 286-293. *)
Definition getCDSFromLSCC (ctx : Context) (chainID txid : string)
    (signedProp : SignedProposal) (prop : Proposal) (chaincodeID : string)
    (txsim : option TxSimulator) : M (result ChaincodeData) :=
  let ctxt := match txsim with
              | Some s => with_TXSimulator ctx s
              | None => ctx
              end in
  call (fun h => GetChaincodeDefinition w h ctxt txid signedProp prop chainID chaincodeID)
       (EvGetChaincodeDefinition ctxt txid chainID chaincodeID).

(** The five results of [simulateProposal]. *)
Definition SimulateResult : Type :=
  option ChaincodeData * option Response * bytes * option ChaincodeEvent * option error.

Definition simulate_failed (err : error) : SimulateResult :=
  (None, None, [], None, Some err).

(** Lines 219-284. *)
Definition simulateProposal (ctx : Context) (chainID txid : string)
    (signedProp : SignedProposal) (prop : Proposal) (cid : ptr)
    (txsim : option TxSimulator) : M SimulateResult :=
  match GetChaincodeInvocationSpec w prop with
  | Err err => ret (simulate_failed err)
  | Ok cis =>
  j <- disableJavaCCInst cid cis ;
  match j with
  | Some err => ret (simulate_failed err)
  | None =>
  match checkEsccAndVscc prop with
  | Some err => ret (simulate_failed err)
  | None =>
  c <- load cid ;
  resolved <-
    (if negb (IsSysCC w (Name c)) then
       d <- getCDSFromLSCC ctx chainID txid signedProp prop (Name c) txsim ;
       match d with
       | Err err =>
           ret (Err (WithMessage err
                  ("make sure the chaincode " +:+ Name c
                   +:+ " has been successfully instantiated and try again")))
       | Ok cdLedger =>
           let version := CCVersion cdLedger in
           p <- call (fun h => CheckInsantiationPolicy w h (Name c) version cdLedger)
                     (EvCheckInsantiationPolicy (Name c) version cdLedger) ;
           match p with
           | Some err => ret (Err err)
           | None => ret (Ok (Some cdLedger, version))
           end
       end
     else ret (Ok (None, GetSysCCVersion w))) ;
  match resolved with
  | Err err => ret (simulate_failed err)
  | Ok (cdLedger, version) =>
  '(res, ccevent, err) <-
     callChaincode ctx chainID version txid signedProp prop cis cid txsim ;
  match err with
  | Some err => ret (simulate_failed err)
  | None =>
  match txsim with
  | Some sim =>
      s <- call (fun h => GetTxSimulationResults w h sim) (EvGetTxSimulationResults sim) ;
      match s with
      | Err err => ret (simulate_failed err)
      | Ok simResult =>
          d <- match PvtSimulationResults simResult with
               | Some pvt =>
                   call (fun h => distributePrivateData e h chainID txid pvt)
                        (EvDistributePrivateData chainID txid pvt)
               | None => ret None
               end ;
          match d with
          | Some err => ret (simulate_failed err)
          | None =>
              b <- call (fun _ => GetPubSimulationBytes w simResult)
                        (EvGetPubSimulationBytes simResult) ;
              match b with
              | Err err => ret (simulate_failed err)
              | Ok pubSimResBytes => ret (cdLedger, res, pubSimResBytes, ccevent, None)
              end
          end
      end
  | None => ret (cdLedger, res, [], ccevent, None)
  end end end end end end.

(** Lines 296-385.  [ccid] is the caller's pointer: lines 336 and 338
    write through it. *)
Definition endorseProposal (ctx : Context) (chainID txid : string)
    (signedProp : SignedProposal) (proposal : Proposal) (response : option Response)
    (simRes : bytes) (event : option ChaincodeEvent) (visibility : bytes)
    (ccid : ptr) (txsim : option TxSimulator) (cd : option ChaincodeData)
  : M (option ProposalResponse * option error) :=
  escc <- match cd with
          | None => ret "escc"
          | Some d =>
              if String.eqb (cd_Endorsement d) ""
              then panic "No ESCC specified in ChaincodeData"
              else ret (cd_Endorsement d)
          end ;
  match (match event with
         | Some ev => GetBytesChaincodeEvent w ev
         | None => Ok []
         end) with
  | Err err => ret (None, Some (Wrap err "failed to marshal event bytes"))
  | Ok eventBytes =>
  match GetBytesResponse w response with
  | Err err => ret (None, Some (Wrap err "failed to marshal response bytes"))
  | Ok resBytes =>
  c <- load ccid ;
  _ <- store ccid (set_Version c (match cd with
                                  | None => GetSysCCVersion w
                                  | Some d => CCVersion d
                                  end)) ;
  c <- load ccid ;
  match Marshal w c with
  | Err err => ret (None, Some (Wrap err "failed to marshal ChaincodeID"))
  | Ok ccidBytes =>
  let args := [[]; Header proposal; prop_Payload proposal; ccidBytes; resBytes;
               simRes; eventBytes; visibility] in
  let version := GetSysCCVersion w in
  let escc_id := {| Path := ""; Name := escc; Version := "" |} in
  let ecccis :=
    {| ChaincodeSpec :=
         Some {| Type_ := GOLANG; cs_ChaincodeId := Some escc_id;
                 Input := Some {| Args := args; Decorations := [] |} |} |} in
  cidp <- alloc escc_id ;
  '(res, _, err) <-
     callChaincode ctx chainID version txid signedProp proposal ecccis cidp txsim ;
  match err with
  | Some err => ret (None, Some err)
  | None =>
  res' <- deref res ;
  if Status res' >=? ERRORTHRESHOLD then ret (Some (ProposalResponse_of res), None)
  else
    match GetProposalResponse w (Payload res') with
    | Err err => ret (None, Some err)
    | Ok pResp => ret (Some pResp, None)
    end
  end end end end.

(** Lines 477-526 of [ProcessProposal]: simulation, endorsement and the
    final response.  [ProcessProposal] runs them under the deferred
    [txsim.Done()] when a simulator was acquired and directly for a
    chainless proposal. *)
Definition ProcessProposal_simulate_and_endorse (ctx : Context) (chainID txid : string)
    (signedProp : SignedProposal) (prop : Proposal) (hdrExt_ChaincodeId : ptr)
    (hdrExt_PayloadVisibility : bytes) (txsim : option TxSimulator)
  : M (option ProposalResponse * option error) :=
  '(cd, res, simulationResult, ccevent, err) <-
     simulateProposal ctx chainID txid signedProp prop hdrExt_ChaincodeId txsim ;
  match err with
  | Some err => ret (failure500 err)
  | None =>
  failed <-
    match res with
    | Some r =>
        if Status r >=? ERROR then
          match (match ccevent with
                 | Some ev => GetBytesChaincodeEvent w ev
                 | None => Ok []
                 end) with
          | Err err => ret (Some (None, Some (Wrap err "failed to marshal event bytes")))
          | Ok cceventBytes =>
              c <- load hdrExt_ChaincodeId ;
              match CreateProposalResponseFailure w (Header prop) (prop_Payload prop) r
                      simulationResult cceventBytes c hdrExt_PayloadVisibility with
              | Err err => ret (Some (failure500 err))
              | Ok pResp =>
                  ret (Some (Some pResp, Some (chaincodeError (Status r) (Message r))))
              end
          end
        else ret None
    | None => ret None
    end ;
  match failed with
  | Some returned => ret returned
  | None =>
  endorsed <-
    (if String.eqb chainID "" then ret (inl (Some (ProposalResponse_of res)))
     else
       '(pResp, err) <-
          endorseProposal ctx chainID txid signedProp prop res simulationResult ccevent
            hdrExt_PayloadVisibility hdrExt_ChaincodeId txsim cd ;
       match err with
       | Some err => ret (inr (failure500 err))
       | None =>
           match pResp with
           | Some _ =>
               r <- deref res ;
               if Status r >=? ERRORTHRESHOLD
               then ret (inr (pResp, Some (chaincodeError (Status r) (Message r))))
               else ret (inl pResp)
           | None => ret (inl pResp)
           end
       end) ;
  match endorsed with
  | inr returned => ret returned
  | inl pResp =>
      pResp' <- deref pResp ;
      r <- deref res ;
      resp <- deref (pr_Response pResp') ;
      ret (Some (set_Response pResp' (Some (set_Payload resp (Payload r)))), None)
  end end end.

(** Lines 388-527.  The header extension comes out of the validator and
    its [ChaincodeId] is put into the store, since [endorseProposal] writes
    to it; its [Name] is read at lines 408 and 438 with no write in
    between and is loaded once.  Logging is left out throughout. *)
Definition ProcessProposal (ctx : Context) (signedProp : SignedProposal)
  : M (option ProposalResponse * option error) :=
  v <- call (fun h => ValidateProposalMessage w h signedProp)
            (EvValidateProposalMessage signedProp) ;
  match v with
  | Err err => ret (failure500 err)
  | Ok (prop, hdr, hdrExt) =>
  hdrExt_ChaincodeId <- alloc (hx_ChaincodeId hdrExt) ;
  match UnmarshalChannelHeader w (ChannelHeader hdr) with
  | Err err => ret (failure500 err)
  | Ok chdr =>
  match GetSignatureHeader w (SignatureHeader hdr) with
  | Err err => ret (failure500 err)
  | Ok shdr =>
  c <- load hdrExt_ChaincodeId ;
  if IsSysCCAndNotInvokableExternal w (Name c) then
    ret (failure500 (Errorf ("chaincode " +:+ Name c
                             +:+ " cannot be invoked through a proposal")))
  else
  let chainID := ChannelId chdr in
  let txid := TxId chdr in
  if String.eqb txid "" then
    ret (failure500 (Errorf "invalid txID. It must be different from the empty string"))
  else
  admission <-
    (if negb (String.eqb chainID "") then
       lgr <- call (fun h => GetLedger w h chainID) (EvGetLedger chainID) ;
       match lgr with
       | None =>
           ret (Some (None, Some (Errorf ("failed to look up the ledger for channel "
                                          +:+ chainID))))
       | Some lgr =>
           found <- call (fun h => GetTransactionByID w h lgr txid)
                         (EvGetTransactionByID lgr txid) ;
           match found with
           | None =>
               ret (Some (None, Some (Errorf ("duplicate transaction found [" +:+ txid
                                              +:+ "]. Creator ["
                                              +:+ hex_of_bytes (Creator shdr) +:+ "]"))))
           | Some _ =>
               if negb (IsSysCC w (Name c)) then
                 a <- checkACL signedProp chdr shdr hdrExt_ChaincodeId ;
                 match a with
                 | Some err => ret (Some (failure500 err))
                 | None => ret None
                 end
               else ret None
           end
       end
     else ret None) ;
  match admission with
  | Some returned => ret returned
  | None =>
  if negb (String.eqb chainID "") then
    s <- getTxSimulator chainID txid ;
    match s with
    | Err err => ret (failure500 err)
    | Ok txsim =>
        q <- getHistoryQueryExecutor chainID ;
        match q with
        | Err err => ret (failure500 err)
        | Ok historyQueryExecutor =>
            let ctx := with_HistoryQueryExecutor ctx historyQueryExecutor in
            defer (emit (EvDone txsim))
              (ProcessProposal_simulate_and_endorse ctx chainID txid signedProp prop
                 hdrExt_ChaincodeId (PayloadVisibility hdrExt) (Some txsim))
        end
    end
  else
    ProcessProposal_simulate_and_endorse ctx chainID txid signedProp prop
      hdrExt_ChaincodeId (PayloadVisibility hdrExt) None
  end end end end.

End Code.

(** ** Logs and results *)

(** Kinds of events. *)
Definition is_ExecuteChaincode (ev : Event) : bool :=
  match ev with EvExecuteChaincode _ _ _ _ => true | _ => false end.

Definition is_Execute (ev : Event) : bool :=
  match ev with EvExecute _ _ _ _ => true | _ => false end.

(** The duplicate check, the ACL check and everything that touches a
    ledger or a simulator. *)
Definition is_admission_or_simulator (ev : Event) : bool :=
  match ev with
  | EvGetLedger _ _ | EvGetTransactionByID _ _ _ | EvCheckACL _ _ _
  | EvNewTxSimulator _ _ _ | EvNewHistoryQueryExecutor _ _ | EvDone _
  | EvGetTxSimulationResults _ _ | EvDistributePrivateData _ _ _ _
  | EvGetPubSimulationBytes _ _ => true
  | _ => false
  end.


(** A simulator is acquired by a successful [NewTxSimulator] and released
    by [Done]. *)
Definition is_acquisition (ev : Event) : bool :=
  match ev with EvNewTxSimulator _ _ (Ok _) => true | _ => false end.

Definition is_release (ev : Event) : bool :=
  match ev with EvDone _ => true | _ => false end.

Fixpoint count (p : Event -> bool) (evs : Log) : nat :=
  match evs with
  | [] => 0
  | ev :: evs => (if p ev then 1 else 0) + count p evs
  end.

Definition is_engine (ev : Event) : bool := is_ExecuteChaincode ev || is_Execute ev.

(** The kinds of events [simulateProposal] produces: definition lookup,
    instantiation policy, engine calls and, with a simulator, the
    simulation results, the distributor and the public bytes. *)
Definition is_simulate_event (txsim : option TxSimulator) (ev : Event) : bool :=
  match ev with
  | EvGetChaincodeDefinition _ _ _ _ _ | EvCheckInsantiationPolicy _ _ _ _
  | EvExecuteChaincode _ _ _ _ | EvExecute _ _ _ _ => true
  | EvGetTxSimulationResults _ _ | EvDistributePrivateData _ _ _ _
  | EvGetPubSimulationBytes _ _ => match txsim with Some _ => true | None => false end
  | _ => false
  end.

(** The endorsement authority [endorseProposal] selects. *)
Definition selected_escc (cd : option ChaincodeData) : string :=
  match cd with
  | None => "escc"
  | Some d => cd_Endorsement d
  end.

(** The version [endorseProposal] writes into [ccid]. *)
Definition executing_version (w : World) (cd : option ChaincodeData) : string :=
  match cd with
  | None => GetSysCCVersion w
  | Some d => CCVersion d
  end.

(** A response of status 500 that carries the message of [err]. *)
Definition is_500 (pResp : ProposalResponse) (err : error) : Prop :=
  pr_Response pResp = Some {| Status := 500; Message := Error err; Payload := [] |}.

(** The errors of lines 430 and 433. *)
Definition duplicate_transaction (txid : string) (creator : bytes) : error :=
  Errorf ("duplicate transaction found [" +:+ txid +:+ "]. Creator ["
          +:+ hex_of_bytes creator +:+ "]").

Definition ledger_lookup_failed (chainID : string) : error :=
  Errorf ("failed to look up the ledger for channel " +:+ chainID).

(** The collaborators keep to the conventions of protobuf and Go: an
    invocation specification has a chaincode specification with an input,
    a deployment specification has a chaincode specification with an id,
    and the engine gives a response when it gives no error.  Without them
    the nil dereferences of lines 114, 127, 147 and 209 panic. *)
Definition no_nil_results (w : World) : Prop :=
  (forall prop cis,
      GetChaincodeInvocationSpec w prop = Ok cis ->
      exists spec input, ChaincodeSpec cis = Some spec /\ Input spec = Some input)
  /\ (forall h ctxt cccid args res ev,
        ExecuteChaincode w h ctxt cccid args = Ok (res, ev) -> exists r, res = Some r)
  /\ (forall raw cds,
        GetChaincodeDeploymentSpec w raw = Ok cds ->
        exists spec id, cds_ChaincodeSpec cds = Some spec /\ cs_ChaincodeId spec = Some id)
  /\ (forall raw cds,
        GetCCPackage w raw = Ok cds -> exists spec, cds_ChaincodeSpec cds = Some spec).

(** The context an engine call gets: the caller's, with the simulator
    bound when there is one (lines 103-105 and 288-290). *)
Definition bound_context (ctx : Context) (txsim : option TxSimulator) : Context :=
  match txsim with
  | Some s => with_TXSimulator ctx s
  | None => ctx
  end.

(** The context recorded in an event of the chaincode package. *)
Definition event_context (ev : Event) : option Context :=
  match ev with
  | EvGetChaincodeDefinition ctxt _ _ _ _ => Some ctxt
  | EvExecuteChaincode ctxt _ _ _ => Some ctxt
  | EvExecute ctxt _ _ _ => Some ctxt
  | _ => None
  end.

Definition is_CheckACL (ev : Event) : bool :=
  match ev with EvCheckACL _ _ _ => true | _ => false end.

Definition is_resolution (ev : Event) : bool :=
  match ev with
  | EvGetChaincodeDefinition _ _ _ _ _ | EvCheckInsantiationPolicy _ _ _ _ => true
  | _ => false
  end.

(** [cis] with other decorations in its input. *)
Definition with_Decorations (cis : ChaincodeInvocationSpec) (d : list (string * bytes))
  : ChaincodeInvocationSpec :=
  {| ChaincodeSpec :=
       match ChaincodeSpec cis with
       | Some spec =>
           Some {| Type_ := Type_ spec; cs_ChaincodeId := cs_ChaincodeId spec;
                   Input := match Input spec with
                            | Some input => Some (set_Decorations input d)
                            | None => None
                            end |}
       | None => None
       end |}.

(** The message of line 246. *)
Definition not_instantiated (name : string) : string :=
  "make sure the chaincode " +:+ name
  +:+ " has been successfully instantiated and try again".

(** The errors of lines 193 and 210. *)
Definition too_few_arguments (argNo : nat) : error :=
  Errorf ("too few arguments passed. expected " +:+ decimal (Z.of_nat argNo)).

Definition java_disabled : error :=
  Errorf "Java chaincode is work-in-progress and disabled".

(** The argument of an "lscc" command that holds the package, as the
    switch of lines 182-190 has it. *)
Definition package_argument (cmd : string) (argNo : nat) : Prop :=
  (cmd = "install" /\ argNo = 1%nat)
  \/ ((cmd = "deploy" \/ cmd = "upgrade") /\ argNo = 2%nat).

(** The input [endorseProposal] builds for the endorsement system
    chaincode, lines 356-358. *)
Definition escc_input (proposal : Proposal) (ccidBytes resBytes simRes eventBytes
    visibility : bytes) : ChaincodeInput :=
  {| Args := [[]; Header proposal; prop_Payload proposal; ccidBytes; resBytes; simRes;
              eventBytes; visibility];
     Decorations := [] |}.

(** What [ProcessProposal] finds wrong before it looks at the channel:
    the validation, the channel header, the signature header or an empty
    transaction id (lines 392-424), with the error it reports. *)
Definition header_fault (w : World) (h : Log) (signedProp : SignedProposal)
    (err : error) : Prop :=
  ValidateProposalMessage w h signedProp = Err err
  \/ exists prop hdr hdrExt,
      ValidateProposalMessage w h signedProp = Ok (prop, hdr, hdrExt)
      /\ (UnmarshalChannelHeader w (ChannelHeader hdr) = Err err
          \/ exists chdr,
              UnmarshalChannelHeader w (ChannelHeader hdr) = Ok chdr
              /\ (GetSignatureHeader w (SignatureHeader hdr) = Err err
                  \/ exists shdr,
                      GetSignatureHeader w (SignatureHeader hdr) = Ok shdr
                      /\ IsSysCCAndNotInvokableExternal w (Name (hx_ChaincodeId hdrExt))
                         = false
                      /\ TxId chdr = ""
                      /\ err = Errorf
                           "invalid txID. It must be different from the empty string")).

(** ** Concrete collaborators *)

Definition b (s : string) : bytes := String.list_byte_of_string s.

Module Sample.

(** What varies between the examples. *)
Record Scenario := {
  sc_name : string;            (* the chaincode named by the header extension *)
  sc_channel : string;         (* the channel id of the channel header *)
  sc_args : list bytes;        (* the arguments of the invocation *)
  sc_duplicate : bool;         (* the transaction id is on the ledger already *)
  sc_history : bool;           (* a history query executor can be had *)
  sc_status : Z;               (* the status the invoked chaincode answers *)
  sc_escc_status : Z;          (* the status "escc" answers *)
  sc_distribute : option error (* what the private data distributor answers *) }.

Definition id_of (name : string) : ChaincodeID :=
  {| Path := ""; Name := name; Version := "" |}.
Definition hdr : HeaderT := {| ChannelHeader := b "ch"; SignatureHeader := b "sh" |}.
Definition prop : Proposal :=
  {| Header := b "hdr"; prop_Payload := b "payload"; Extension := [] |}.
Definition signedProp : SignedProposal :=
  {| ProposalBytes := b "prop"; sp_Signature := b "sig" |}.
Definition ctx : Context := {| TXSimulatorKey := None; HistoryQueryExecutorKey := None |}.
Definition cd : ChaincodeData :=
  {| CCName := "mycc"; CCVersion := "1.0"; cd_Endorsement := "escc";
     cd_Validation := "vscc" |}.
Definition cis (s : Scenario) : ChaincodeInvocationSpec :=
  {| ChaincodeSpec :=
       Some {| Type_ := GOLANG; cs_ChaincodeId := Some (id_of (sc_name s));
               Input := Some {| Args := sc_args s; Decorations := [] |} |} |}.
Definition deployed : ChaincodeDeploymentSpec :=
  {| cds_ChaincodeSpec :=
       Some {| Type_ := GOLANG;
               cs_ChaincodeId := Some {| Path := "p"; Name := "newcc"; Version := "1.0" |};
               Input := Some {| Args := [b "init"]; Decorations := [] |} |};
     CodePackage := b "code" |}.
Definition res (s : Scenario) : Response :=
  {| Status := sc_status s; Message := "done"; Payload := b "result" |}.
Definition event : ChaincodeEvent :=
  {| ev_ChaincodeId := "mycc"; ev_TxId := "tx1"; ev_EventName := "evt";
     ev_Payload := [] |}.
Definition escc_res (s : Scenario) : Response :=
  {| Status := sc_escc_status s; Message := ""; Payload := b "signed" |}.
Definition endorsed : ProposalResponse :=
  {| pr_Version := 1; pr_Timestamp := None;
     pr_Response := Some {| Status := 200; Message := "OK"; Payload := [] |};
     pr_Payload := b "prp";
     pr_Endorsement := Some {| Endorser_ := b "peer0"; Signature := b "sig0" |} |}.
Definition simResult : TxSimulationResults :=
  {| PubSimulationResults := b "pub"; PvtSimulationResults := Some (b "pvt") |}.

(** A peer with one channel "ch1" (ledger 1), the chaincode "mycc"
    instantiated on it, the usual system chaincodes, of which "escc" and
    "vscc" cannot be invoked from outside, and an "escc" that signs. *)
Definition world (s : Scenario) : World :=
  {| ValidateProposalMessage := fun _ _ =>
       Ok (prop, hdr, {| PayloadVisibility := []; hx_ChaincodeId := id_of (sc_name s) |});
     UnmarshalChannelHeader := fun _ =>
       Ok {| ChannelId := sc_channel s; TxId := "tx1" |};
     GetSignatureHeader := fun _ => Ok {| Creator := b "alice"; Nonce := [] |};
     GetChaincodeInvocationSpec := fun _ => Ok (cis s);
     GetChaincodeDeploymentSpec := fun _ => Ok deployed;
     GetBytesChaincodeEvent := fun _ => Ok (b "event");
     GetBytesResponse := fun _ => Ok (b "response");
     Marshal := fun c => Ok (b (Name c +:+ ":" +:+ Version c));
     GetProposalResponse := fun _ => Ok endorsed;
     CreateProposalResponseFailure := fun _ _ _ _ _ _ _ =>
       Ok (ProposalResponse_of
             (Some {| Status := 500; Message := "Chaincode Error"; Payload := [] |}));
     IsSysCC := fun n =>
       String.eqb n "lscc" || String.eqb n "escc" || String.eqb n "vscc"
       || String.eqb n "cscc" || String.eqb n "qscc";
     IsSysCCAndNotInvokableExternal := fun n => String.eqb n "escc" || String.eqb n "vscc";
     GetSysCCVersion := "1.1.0";
     GetLedger := fun _ n => if String.eqb n "ch1" then Some 1%nat else None;
     GetTransactionByID := fun _ _ _ =>
       if sc_duplicate s then None else Some (errorString "no such transaction ID");
     NewTxSimulator := fun _ _ _ => Ok 7%nat;
     NewHistoryQueryExecutor := fun _ _ =>
       if sc_history s then Ok 8%nat else Err (errorString "history database is down");
     GetTxSimulationResults := fun _ _ => Ok simResult;
     GetPubSimulationBytes := fun r => Ok (PubSimulationResults r);
     CheckACL := fun _ _ _ => None;
     GetCCPackage := fun _ => Ok deployed;
     CheckInsantiationPolicy := fun _ _ _ _ => None;
     GetChaincodeDefinition := fun _ _ _ _ _ _ _ => Ok cd;
     ExecuteChaincode := fun _ _ cccid _ =>
       if String.eqb (cc_Name cccid) "escc" then Ok (Some (escc_res s), None)
       else Ok (Some (res s), Some event);
     Execute := fun _ _ _ _ => None;
     Apply := fun _ i => i;
     javaEnabled := false |}.

Definition endorser (s : Scenario) : Endorser :=
  {| distributePrivateData := fun _ _ _ _ => sc_distribute s |}.

(** An invocation of "mycc" on "ch1" where everything works. *)
Definition invoke : Scenario :=
  {| sc_name := "mycc"; sc_channel := "ch1"; sc_args := [b "invoke"; b "a"];
     sc_duplicate := false; sc_history := true; sc_status := 200;
     sc_escc_status := 200; sc_distribute := None |}.

(** The same, answered with status 500 by the chaincode. *)
Definition invoke_fails : Scenario :=
  {| sc_name := "mycc"; sc_channel := "ch1"; sc_args := [b "invoke"; b "a"];
     sc_duplicate := false; sc_history := true; sc_status := 500;
     sc_escc_status := 200; sc_distribute := None |}.

(** The same, with a transaction id that is on the ledger. *)
Definition replayed : Scenario :=
  {| sc_name := "mycc"; sc_channel := "ch1"; sc_args := [b "invoke"; b "a"];
     sc_duplicate := true; sc_history := true; sc_status := 200;
     sc_escc_status := 200; sc_distribute := None |}.

(** The same, on a peer whose history database does not answer. *)
Definition no_history : Scenario :=
  {| sc_name := "mycc"; sc_channel := "ch1"; sc_args := [b "invoke"; b "a"];
     sc_duplicate := false; sc_history := false; sc_status := 200;
     sc_escc_status := 200; sc_distribute := None |}.


(** The same, with an "escc" that answers 500. *)
Definition escc_fails : Scenario :=
  {| sc_name := "mycc"; sc_channel := "ch1"; sc_args := [b "invoke"; b "a"];
     sc_duplicate := false; sc_history := true; sc_status := 200;
     sc_escc_status := 500; sc_distribute := None |}.

(** A proposal for "escc" itself. *)
Definition direct_escc : Scenario :=
  {| sc_name := "escc"; sc_channel := "ch1"; sc_args := [b "sign"];
     sc_duplicate := false; sc_history := true; sc_status := 200;
     sc_escc_status := 200; sc_distribute := None |}.

(** A chainless query of "cscc". *)
Definition chainless : Scenario :=
  {| sc_name := "cscc"; sc_channel := ""; sc_args := [b "GetChannels"];
     sc_duplicate := false; sc_history := true; sc_status := 200;
     sc_escc_status := 200; sc_distribute := None |}.

(** "lscc" operations with three arguments. *)
Definition lscc (op : string) : Scenario :=
  {| sc_name := "lscc"; sc_channel := "ch1"; sc_args := [b op; b "ch1"; b "cds"];
     sc_duplicate := false; sc_history := true; sc_status := 200;
     sc_escc_status := 200; sc_distribute := None |}.

(** A store with the invoked chaincode's id at address 0. *)
Definition store_of (s : Scenario) : Store := {[ 0%nat := id_of (sc_name s) ]}.

End Sample.

(** The answer of the first [ExecuteChaincode] of a log: in a request,
    the answer of the chaincode the proposal invokes. *)
Fixpoint first_execution (evs : Log)
  : option (result (option Response * option ChaincodeEvent)) :=
  match evs with
  | [] => None
  | EvExecuteChaincode _ _ _ r :: _ => Some r
  | _ :: evs => first_execution evs
  end.

(** ** Collaborators that fail *)

Module Faulty.

(** What goes wrong on the peer of [Sample.world]. *)
Inductive Fault : Type :=
| InvalidProposal    (* the validation rejects the proposal *)
| EmptyTxId          (* the channel header carries no transaction id *)
| AccessDenied       (* the access check refuses the creator *)
| NotInstantiated    (* the ledger has no definition of the chaincode *)
| PolicyViolation    (* the instantiation policy is violated *)
| EngineFailure      (* the engine cannot execute the chaincode *)
| JavaPackage        (* the packages on the peer hold Java chaincodes *)
| NoESCC             (* the definition names no endorsement system chaincode *)
| NilChaincodeSpec   (* the invocation specification has no chaincode specification *)
| EndorsedError.     (* the payload of "escc" unpacks to a response of status 500 *)

Definition occurs (f g : Fault) : bool :=
  match f, g with
  | InvalidProposal, InvalidProposal | EmptyTxId, EmptyTxId
  | AccessDenied, AccessDenied | NotInstantiated, NotInstantiated
  | PolicyViolation, PolicyViolation | EngineFailure, EngineFailure
  | JavaPackage, JavaPackage | NoESCC, NoESCC
  | NilChaincodeSpec, NilChaincodeSpec | EndorsedError, EndorsedError => true
  | _, _ => false
  end.

Definition invalid_signature : error := errorString "invalid signature".
Definition access_denied : error := errorString "access denied: channel writers".
Definition no_definition : error := errorString "could not find chaincode with name mycc".
Definition policy_violated : error := errorString "instantiation policy violation".
Definition engine_down : error := errorString "timeout expired while executing transaction".

Definition java_package : ChaincodeDeploymentSpec :=
  {| cds_ChaincodeSpec :=
       Some {| Type_ := JAVA;
               cs_ChaincodeId := Some {| Path := "p"; Name := "javacc"; Version := "1.0" |};
               Input := Some {| Args := [b "init"]; Decorations := [] |} |};
     CodePackage := b "jar" |}.

Definition cd_without_escc : ChaincodeData :=
  {| CCName := "mycc"; CCVersion := "1.0"; cd_Endorsement := ""; cd_Validation := "vscc" |}.

(** An endorsed proposal response whose response has status 500. *)
Definition endorsed_error : ProposalResponse :=
  {| pr_Version := 1; pr_Timestamp := None;
     pr_Response := Some {| Status := 500; Message := "rejected"; Payload := [] |};
     pr_Payload := b "prp";
     pr_Endorsement := Some {| Endorser_ := b "peer0"; Signature := b "sig0" |} |}.

(** The peer of [Sample.world s] with the fault [f]. *)
Definition world (f : Fault) (s : Sample.Scenario) : World :=
  let w := Sample.world s in
  {| ValidateProposalMessage := fun h sp =>
       if occurs f InvalidProposal then Err invalid_signature
       else ValidateProposalMessage w h sp;
     UnmarshalChannelHeader := fun raw =>
       if occurs f EmptyTxId then Ok {| ChannelId := Sample.sc_channel s; TxId := "" |}
       else UnmarshalChannelHeader w raw;
     GetSignatureHeader := GetSignatureHeader w;
     GetChaincodeInvocationSpec := fun prop =>
       if occurs f NilChaincodeSpec then Ok {| ChaincodeSpec := None |}
       else GetChaincodeInvocationSpec w prop;
     GetChaincodeDeploymentSpec := GetChaincodeDeploymentSpec w;
     GetBytesChaincodeEvent := GetBytesChaincodeEvent w;
     GetBytesResponse := GetBytesResponse w;
     Marshal := Marshal w;
     GetProposalResponse := fun raw =>
       if occurs f EndorsedError then Ok endorsed_error else GetProposalResponse w raw;
     CreateProposalResponseFailure := CreateProposalResponseFailure w;
     IsSysCC := IsSysCC w;
     IsSysCCAndNotInvokableExternal := IsSysCCAndNotInvokableExternal w;
     GetSysCCVersion := GetSysCCVersion w;
     GetLedger := GetLedger w;
     GetTransactionByID := GetTransactionByID w;
     NewTxSimulator := NewTxSimulator w;
     NewHistoryQueryExecutor := NewHistoryQueryExecutor w;
     GetTxSimulationResults := GetTxSimulationResults w;
     GetPubSimulationBytes := GetPubSimulationBytes w;
     CheckACL := fun h chainID sp =>
       if occurs f AccessDenied then Some access_denied else CheckACL w h chainID sp;
     GetCCPackage := fun raw =>
       if occurs f JavaPackage then Ok java_package else GetCCPackage w raw;
     CheckInsantiationPolicy := fun h name version cd =>
       if occurs f PolicyViolation then Some policy_violated
       else CheckInsantiationPolicy w h name version cd;
     GetChaincodeDefinition := fun h ctxt txid sp prop chainID chaincodeID =>
       if occurs f NotInstantiated then Err no_definition
       else if occurs f NoESCC then Ok cd_without_escc
       else GetChaincodeDefinition w h ctxt txid sp prop chainID chaincodeID;
     ExecuteChaincode := fun h ctxt cccid args =>
       if occurs f EngineFailure then Err engine_down
       else ExecuteChaincode w h ctxt cccid args;
     Execute := Execute w;
     Apply := Apply w;
     javaEnabled := javaEnabled w |}.


(** A deployment through "lscc" that lacks the package. *)
Definition deploy_without_package : Sample.Scenario :=
  {| Sample.sc_name := "lscc"; Sample.sc_channel := "ch1";
     Sample.sc_args := [b "deploy"; b "ch1"];
     Sample.sc_duplicate := false; Sample.sc_history := true; Sample.sc_status := 200;
     Sample.sc_escc_status := 200; Sample.sc_distribute := None |}.

End Faulty.

(** * orderer/consensus/honeybadgerbft/consensus.go *)

(** The consenter hands envelopes to a HoneyBadgerBFT proxy over one
    connection and receives blocks over another, each message prefixed by
    its length.  The functions of the file that run in the calling
    goroutine are embedded: the state of a [chain] and of the package
    variables is passed explicitly, a call returns, panics or blocks.
    [Start], [connLoop] and [appendToChain] start or are goroutines that
    meet on a channel and are left out; of the exit channel only whether
    it is closed matters here, and of the mutex whether it is held. *)
Module HoneyBadgerBFT.

(** ** Integers and bytes *)

(** [byte(x)] and [uint64(b)]. *)
Definition byte_of (x : Z) : byte :=
  match Byte.of_N (Z.to_N (x mod 256)) with
  | Some c => c
  | None => "000"%byte
  end.

Definition of_byte (c : byte) : Z := Z.of_N (Byte.to_N c).

(** [uint64(x)] and [int64(x)] of a 64-bit integer. *)
Definition uint64 (x : Z) : Z := x mod 2 ^ 64.

Definition int64 (x : Z) : Z :=
  let m := x mod 2 ^ 64 in if (m <? 2 ^ 63)%Z then m else m - 2 ^ 64.

(** [binary.BigEndian.PutUint64] into a buffer of eight bytes, and
    [binary.BigEndian.Uint64], which reads the first eight bytes and
    panics on a shorter slice. *)
Definition PutUint64 (v : Z) : bytes :=
  [byte_of (Z.shiftr v 56); byte_of (Z.shiftr v 48); byte_of (Z.shiftr v 40);
   byte_of (Z.shiftr v 32); byte_of (Z.shiftr v 24); byte_of (Z.shiftr v 16);
   byte_of (Z.shiftr v 8); byte_of v].

Definition Uint64 (bs : bytes) : option Z :=
  match bs with
  | b0 :: b1 :: b2 :: b3 :: b4 :: b5 :: b6 :: b7 :: _ =>
      Some (Z.lor (of_byte b7)
           (Z.lor (Z.shiftl (of_byte b6) 8)
           (Z.lor (Z.shiftl (of_byte b5) 16)
           (Z.lor (Z.shiftl (of_byte b4) 24)
           (Z.lor (Z.shiftl (of_byte b3) 32)
           (Z.lor (Z.shiftl (of_byte b2) 40)
           (Z.lor (Z.shiftl (of_byte b1) 48)
                  (Z.shiftl (of_byte b0) 56))))))))
  | _ => None
  end.

(** ** Connections *)

(** A [net.Conn]: what has been written to it, what is still to be read
    from it, and the error a read meets once that is used up ([io.EOF]
    when the other side has closed). *)
Record Conn := {
  written : bytes;
  pending : bytes;
  failure : error }.

Definition EOF : error := errorString "EOF".
Definition ErrUnexpectedEOF : error := errorString "unexpected EOF".

(** [cb.Envelope]. *)
Record Envelope := {
  env_Payload : bytes;
  env_Signature : bytes }.

(** What the file calls and does not define. *)
Record Peers := {
  (* protos/utils *)
  Marshal : Envelope -> result bytes;
  UnmarshalEnvelope : bytes -> result Envelope;
  (* net.Conn.Write: the connection and the buffer give the number of
     bytes written and the error *)
  Write : Conn -> bytes -> Z * option error;
  (* time.Now().UnixNano(), by the number of readings made before *)
  UnixNano : nat -> Z;
  (* the largest allocation of the platform, above which make panics *)
  maxAlloc : Z }.

(** ** State *)

(** [chain], lines 44-51, without [support] and [sendChan], which only
    the goroutines use. *)
Record chain := {
  exitChan : bool;                       (* closed *)
  sendConnection : option Conn;
  receiveConnection : option Conn;
  sendLock : bool                        (* held *) }.

(** The package variables of lines 38-40, the readings of the clock made
    so far and the throughputs printed: the two integers whose quotient as
    [float64] line 228 prints. *)
Record State := {
  ch : chain;
  envelopeMeasurementStartTime : Z;
  countEnvelopes : Z;
  readings : nat;
  printed : list (Z * Z) }.

Definition interval : Z := 10000.

Inductive Run (A : Type) : Type :=
| Returns (a : A) (s : State)
| Panics (msg : string) (s : State)
| Blocks (s : State).
Arguments Returns {A} a s.
Arguments Panics {A} msg s.
Arguments Blocks {A} s.

Definition Op (A : Type) : Type := State -> Run A.

Definition unit_ {A} (a : A) : Op A := fun s => Returns a s.

Definition then_ {A B} (m : Op A) (f : A -> Op B) : Op B := fun s =>
  match m s with
  | Returns a s1 => f a s1
  | Panics msg s1 => Panics msg s1
  | Blocks s1 => Blocks s1
  end.

Notation "x <~ m ; k" := (then_ m (fun x => k))
  (at level 20, m at level 100, k at level 200, only parsing).
Notation "' pat <~ m ; k" := (then_ m (fun x => match x with pat => k end))
  (at level 20, pat pattern, m at level 100, k at level 200, only parsing).

Definition set_ch (s : State) (c : chain) : State :=
  {| ch := c; envelopeMeasurementStartTime := envelopeMeasurementStartTime s;
     countEnvelopes := countEnvelopes s; readings := readings s;
     printed := printed s |}.

Definition set_sendLock (c : chain) (held : bool) : chain :=
  {| exitChan := exitChan c; sendConnection := sendConnection c;
     receiveConnection := receiveConnection c; sendLock := held |}.

Definition set_sendConnection (c : chain) (conn : option Conn) : chain :=
  {| exitChan := exitChan c; sendConnection := conn;
     receiveConnection := receiveConnection c; sendLock := sendLock c |}.

Definition set_receiveConnection (c : chain) (conn : option Conn) : chain :=
  {| exitChan := exitChan c; sendConnection := sendConnection c;
     receiveConnection := conn; sendLock := sendLock c |}.

(** [sync.Mutex]: [Lock] waits while the mutex is held, and nothing here
    releases it for the caller; [Unlock] of a mutex that is not held is a
    fatal error. *)
Definition Lock : Op unit := fun s =>
  if sendLock (ch s) then Blocks s
  else Returns tt (set_ch s (set_sendLock (ch s) true)).

Definition Unlock : Op unit := fun s =>
  if sendLock (ch s) then Returns tt (set_ch s (set_sendLock (ch s) false))
  else Panics "fatal error: sync: unlock of unlocked mutex" s.

(** [ch.sendConnection.Write(b)]: a call on a nil connection panics;
    else the bytes the connection took are on the wire. *)
Definition Write_sendConnection (p : Peers) (buf : bytes) : Op (Z * option error) := fun s =>
  match sendConnection (ch s) with
  | None => Panics nil_dereference s
  | Some conn =>
      let '(n, err) := Write p conn buf in
      let conn' := {| written := written conn ++ take (Z.to_nat n) buf;
                      pending := pending conn; failure := failure conn |} in
      Returns (n, err) (set_ch s (set_sendConnection (ch s) (Some conn')))
  end.

(** [io.ReadFull(ch.receiveConnection, buf)] for a buffer of [n] bytes:
    nothing is read for an empty buffer; else the bytes when there are
    enough; else everything left is used up and the error is the
    connection's, or [ErrUnexpectedEOF] when some bytes came and then
    [EOF]. *)
Definition ReadFull_receiveConnection (n : nat) : Op (result bytes) := fun s =>
  match n with
  | O => Returns (Ok []) s
  | _ =>
      match receiveConnection (ch s) with
      | None => Panics nil_dereference s
      | Some conn =>
          if (n <=? length (pending conn))%nat then
            let conn' := {| written := written conn; pending := drop n (pending conn);
                            failure := failure conn |} in
            Returns (Ok (take n (pending conn)))
                    (set_ch s (set_receiveConnection (ch s) (Some conn')))
          else
            let conn' := {| written := written conn; pending := [];
                            failure := failure conn |} in
            let err := match pending conn, failure conn with
                       | [], err => err
                       | _ :: _, errorString "EOF" => ErrUnexpectedEOF
                       | _ :: _, err => err
                       end in
            Returns (Err err) (set_ch s (set_receiveConnection (ch s) (Some conn')))
      end
  end.

(** [make([]byte, size)]: the length of the buffer, or the panic of the
    runtime for a length that is negative or too large. *)
Definition make (p : Peers) (size : Z) : Op nat := fun s =>
  if (size <? 0)%Z || (maxAlloc p <? size)%Z
  then Panics "runtime error: makeslice: len out of range" s
  else Returns (Z.to_nat size) s.

(** ** The code *)

Section Code.

Variable p : Peers.

(** [newChain], lines 66-73. *)
Definition newChain : chain :=
  {| exitChan := false; sendConnection := None; receiveConnection := None;
     sendLock := false |}.

(** Lines 103-111. *)
Definition Halt : Op unit := fun s =>
  if exitChan (ch s) then Returns tt s
  else Returns tt (set_ch s {| exitChan := true;
                               sendConnection := sendConnection (ch s);
                               receiveConnection := receiveConnection (ch s);
                               sendLock := sendLock (ch s) |}).

(** Lines 115-127. *)
Definition Configure (config : Envelope) (configSeq : Z) : Op (option error) :=
  unit_ None.

(** Lines 134-140, with [ch.sendConnection] for [conn], as line 150 calls
    it. *)
Definition sendLength (length : Z) : Op (Z * option error) :=
  Write_sendConnection p (PutUint64 (uint64 length)).

(** Lines 142-161. *)
Definition sendEnvToBFTProxy (env : Envelope) : Op (Z * option error) :=
  _ <~ Lock ;
  match Marshal p env with
  | Err err => unit_ (-1, Some err)
  | Ok bytes =>
      '(status, err) <~ sendLength (Z.of_nat (length bytes)) ;
      match err with
      | Some err => unit_ (status, Some err)
      | None =>
          r <~ Write_sendConnection p bytes ;
          _ <~ Unlock ;
          unit_ r
      end
  end.

(** Lines 163-167: [binary.Read] fills eight bytes with [io.ReadFull] and
    decodes them; on an error [size] stays 0. *)
Definition recvLength : Op (Z * option error) :=
  r <~ ReadFull_receiveConnection 8 ;
  match r with
  | Err err => unit_ (0, Some err)
  | Ok bs =>
      match Uint64 bs with
      | Some v => unit_ (int64 v, None)
      | None => fun s => Panics "runtime error: index out of range" s
      end
  end.

(** Lines 169-185. *)
Definition recvBytes : Op (result bytes) :=
  '(size, err) <~ recvLength ;
  match err with
  | Some err => unit_ (Err err)
  | None =>
      n <~ make p size ;
      r <~ ReadFull_receiveConnection n ;
      match r with
      | Err err => unit_ (Err err)
      | Ok buf => unit_ (Ok buf)
      end
  end.

(** Lines 187-209. *)
Definition recvEnvFromBFTProxy : Op (result Envelope) :=
  '(size, err) <~ recvLength ;
  match err with
  | Some err => unit_ (Err err)
  | None =>
      n <~ make p size ;
      r <~ ReadFull_receiveConnection n ;
      match r with
      | Err err => unit_ (Err err)
      | Ok buf =>
          match UnmarshalEnvelope p buf with
          | Err err => unit_ (Err err)
          | Ok env => unit_ (Ok env)
          end
      end
  end.

(** [time.Now().UnixNano()]. *)
Definition now : Op Z := fun s =>
  Returns (UnixNano p (readings s))
          {| ch := ch s; envelopeMeasurementStartTime := envelopeMeasurementStartTime s;
             countEnvelopes := countEnvelopes s; readings := S (readings s);
             printed := printed s |}.

Definition set_envelopeMeasurementStartTime (t : Z) : Op unit := fun s =>
  Returns tt {| ch := ch s; envelopeMeasurementStartTime := t;
                countEnvelopes := countEnvelopes s; readings := readings s;
                printed := printed s |}.

Definition set_countEnvelopes (c : Z) : Op unit := fun s =>
  Returns tt {| ch := ch s; envelopeMeasurementStartTime := envelopeMeasurementStartTime s;
                countEnvelopes := c; readings := readings s; printed := printed s |}.

Definition print_throughput (num den : Z) : Op unit := fun s =>
  Returns tt {| ch := ch s; envelopeMeasurementStartTime := envelopeMeasurementStartTime s;
                countEnvelopes := countEnvelopes s; readings := readings s;
                printed := printed s ++ [(num, den)] |}.

Definition get {A} (f : State -> A) : Op A := fun s => Returns (f s) s.

(** Lines 212-239.  [%] is the remainder of the truncated division. *)
Definition Order (env : Envelope) (configSeq : Z) : Op (option error) :=
  '(_, err) <~ sendEnvToBFTProxy env ;
  match err with
  | Some err => unit_ (Some err)
  | None =>
      start <~ get envelopeMeasurementStartTime ;
      _ <~ (if (start =? -1)%Z
            then t <~ now ; set_envelopeMeasurementStartTime t
            else unit_ tt) ;
      count <~ get countEnvelopes ;
      _ <~ set_countEnvelopes (int64 (count + 1)) ;
      count <~ get countEnvelopes ;
      _ <~ (if (Z.rem count interval =? 0)%Z
            then
              t <~ now ;
              start <~ get envelopeMeasurementStartTime ;
              _ <~ print_throughput (int64 (interval * 1000000000)) (int64 (t - start)) ;
              t <~ now ;
              set_envelopeMeasurementStartTime t
            else unit_ tt) ;
      closed <~ get (fun s => exitChan (ch s)) ;
      if closed then unit_ (Some (Errorf "exiting")) else unit_ None
  end.

End Code.

(** A connection after a read that left [rest], and after [buf] was
    written to it; a state with another receive or send connection. *)
Definition read_to (conn : Conn) (rest : bytes) : Conn :=
  {| written := written conn; pending := rest; failure := failure conn |}.

Definition wrote (conn : Conn) (buf : bytes) : Conn :=
  {| written := written conn ++ buf; pending := pending conn; failure := failure conn |}.

Definition receiving (s : State) (conn : Conn) : State :=
  set_ch s (set_receiveConnection (ch s) (Some conn)).

Definition sending (s : State) (conn : Conn) : State :=
  set_ch s (set_sendConnection (ch s) (Some conn)).

(** A connection that takes every buffer whole. *)
Definition reliable (p : Peers) : Prop :=
  forall conn buf, Write p conn buf = (Z.of_nat (length buf), None).

(** Calls of [Order] one after the other, with their results. *)
Fixpoint Orders (p : Peers) (envs : list Envelope) : Op (list (option error)) :=
  match envs with
  | [] => unit_ []
  | env :: envs =>
      r <~ Order p env 0 ;
      rs <~ Orders p envs ;
      unit_ (r :: rs)
  end.

(** The message [sendEnvToBFTProxy] puts on the wire for the bytes [m]. *)
Definition frame (m : bytes) : bytes := PutUint64 (Z.of_nat (length m)) ++ m.

(** A chain with connections, as [Start] leaves it when both dials
    succeed: line 85 and line 96. *)
Definition connected (send receive : Conn) : chain :=
  {| exitChan := false; sendConnection := Some send; receiveConnection := Some receive;
     sendLock := false |}.

(** The package variables as lines 38-40 initialise them. *)
Definition initial (c : chain) : State :=
  {| ch := c; envelopeMeasurementStartTime := -1; countEnvelopes := 0;
     readings := 0; printed := [] |}.

(** ** Concrete peers *)

(** A marshalling of envelopes that can be undone: the length of the
    payload in one byte, the payload and the signature.  An envelope
    without payload is refused. *)
Definition marshal (env : Envelope) : result bytes :=
  match env_Payload env with
  | [] => Err (errorString "proto: Marshal called with nil")
  | payload => Ok (byte_of (Z.of_nat (length payload)) :: payload ++ env_Signature env)
  end.

Definition unmarshal (buf : bytes) : result Envelope :=
  match buf with
  | [] => Err (errorString "unexpected EOF")
  | n :: rest =>
      Ok {| env_Payload := take (Z.to_nat (of_byte n)) rest;
            env_Signature := drop (Z.to_nat (of_byte n)) rest |}
  end.

(** A proxy that takes everything, and one whose socket is closed. *)
Definition loopback : Peers :=
  {| Marshal := marshal; UnmarshalEnvelope := unmarshal;
     Write := fun _ buf => (Z.of_nat (length buf), None);
     UnixNano := fun n => 1000 * Z.of_nat n;
     maxAlloc := 2 ^ 48 |}.

Definition broken_pipe : Peers :=
  {| Marshal := marshal; UnmarshalEnvelope := unmarshal;
     Write := fun _ _ => (0, Some (errorString "write: broken pipe"));
     UnixNano := fun n => 1000 * Z.of_nat n;
     maxAlloc := 2 ^ 48 |}.

Definition idle : Conn := {| written := []; pending := []; failure := EOF |}.

Definition incoming (buf : bytes) : Conn :=
  {| written := []; pending := buf; failure := EOF |}.

Definition hello : Envelope := {| env_Payload := b "hello"; env_Signature := b "sig" |}.
Definition again : Envelope := {| env_Payload := b "again"; env_Signature := [] |}.
Definition unsigned_nothing : Envelope := {| env_Payload := []; env_Signature := [] |}.

End HoneyBadgerBFT.

(** ** Reasoning about computations *)

Arguments bind : simpl never.
Arguments ret : simpl never.
Arguments call : simpl never.

Lemma bind_inv {A B} (m : M A) (f : A -> M B) h σ out evs σ' :
  bind m f h σ = (out, evs, σ') ->
  (exists a e1 σ1 e2,
      m h σ = (Ret a, e1, σ1) /\ f a (h ++ e1) σ1 = (out, e2, σ') /\ evs = e1 ++ e2)
  \/ (exists msg, m h σ = (Panic msg, evs, σ') /\ out = Panic msg).
Proof.
  unfold bind. destruct (m h σ) as [[[a | msg] e1] σ1].
  - destruct (f a (h ++ e1) σ1) as [[o e2] σ2] eqn:Hk. intros [= <- <- <-].
    left. exists a, e1, σ1, e2. auto.
  - intros [= <- <- <-]. right. exists msg. auto.
Qed.

Lemma defer_inv {A} (d : M unit) (body : M A) h σ out evs σ' :
  defer d body h σ = (out, evs, σ') ->
  exists e1 σ1 o2 e2,
    body h σ = (out, e1, σ1) /\ d (h ++ e1) σ1 = (o2, e2, σ') /\ evs = e1 ++ e2.
Proof.
  unfold defer. destruct (body h σ) as [[o e1] σ1].
  destruct (d (h ++ e1) σ1) as [[o2 e2] σ2] eqn:Hd. intros [= <- <- <-].
  exists e1, σ1, o2, e2. auto.
Qed.

(** [mprim H] inverts a primitive step [H : m h σ = (o, e, σ')]; [mrun H]
    walks through a body, one bind at a time, and stops at the calls of
    other functions of the file. *)
Ltac mprim H :=
  cbv beta zeta in H;
  lazymatch type of H with
  | ret _ _ _ = _ => unfold ret in H; simplify_eq
  | panic _ _ _ = _ => unfold panic in H; simplify_eq
  | call _ _ _ _ = _ => unfold call in H; simplify_eq
  | emit _ _ _ = _ => unfold emit in H; simplify_eq
  | alloc _ _ _ = _ => unfold alloc in H; simplify_eq
  | deref ?p _ _ = _ => unfold deref in H; destruct p eqn:?; mprim H
  | load ?p _ ?s = _ =>
      unfold load in H; rewrite ?lookup_insert_eq in H;
      lazymatch type of H with
      | (match ?x with _ => _ end) = _ => destruct x eqn:?; simplify_eq
      | _ => simplify_eq
      end
  | store ?p _ _ ?s = _ =>
      unfold store in H; rewrite ?lookup_insert_eq in H;
      lazymatch type of H with
      | (match ?x with _ => _ end) = _ => destruct x eqn:?; simplify_eq
      | _ => simplify_eq
      end
  | bind _ _ _ _ = _ => mrun H
  | defer _ _ _ _ = _ =>
      let e1 := fresh "e" in
      let s1 := fresh "σ" in
      let o2 := fresh "o" in
      let e2 := fresh "e" in
      let Hbody := fresh "Hbody" in
      let Hd := fresh "Hd" in
      apply defer_inv in H;
      destruct H as (e1 & s1 & o2 & e2 & Hbody & Hd & ?);
      mprim Hd; mprim Hbody
  | (match ?x with _ => _ end) _ _ = _ => destruct x eqn:?; mprim H
  | _ => idtac
  end
with mrun H :=
  cbv beta zeta in H;
  lazymatch type of H with
  | bind _ _ _ _ = _ =>
      let a := fresh "a" in
      let e1 := fresh "e" in
      let s1 := fresh "σ" in
      let e2 := fresh "e" in
      let Hm := fresh "Hm" in
      let Hk := fresh "Hk" in
      let msg := fresh "msg" in
      apply bind_inv in H;
      destruct H as [(a & e1 & s1 & e2 & Hm & Hk & ?) | (msg & Hm & ?)];
      [ mprim Hm; mrun Hk | mprim Hm ]
  | (match ?x with _ => _ end) _ _ = _ => destruct x eqn:?; mrun H
  | _ => mprim H
  end.

Lemma count_app p (l1 l2 : Log) : count p (l1 ++ l2) = (count p l1 + count p l2)%nat.
Proof. induction l1 as [| ev l1 IH]; simpl; [reflexivity | rewrite IH; lia]. Qed.

Lemma count_zero_not_in p (l : Log) ev :
  count p l = 0%nat -> In ev l -> p ev = false.
Proof.
  induction l as [| ev' l IH]; simpl; [contradiction |].
  intros Hcount [-> | Hin].
  - destruct (p ev); [discriminate | reflexivity].
  - apply IH; [lia | exact Hin].
Qed.

Lemma geb_true (a b : Z) : (a >=? b) = true -> a >= b.
Proof. rewrite Z.geb_leb. intros H%Z.leb_le. lia. Qed.

Lemma geb_false (a b : Z) : (a >=? b) = false -> a < b.
Proof. rewrite Z.geb_leb. intros H%Z.leb_gt. lia. Qed.

(** For a goal [exists pre, ...] about a log that is written out: tries
    the prefixes of up to nine events. *)
Ltac with_prefix tac :=
  first [ exists []; tac
        | eexists [_]; tac
        | eexists [_; _]; tac
        | eexists [_; _; _]; tac
        | eexists [_; _; _; _]; tac
        | eexists [_; _; _; _; _]; tac
        | eexists [_; _; _; _; _; _]; tac
        | eexists [_; _; _; _; _; _; _]; tac
        | eexists [_; _; _; _; _; _; _; _]; tac
        | eexists [_; _; _; _; _; _; _; _; _]; tac ].

(** Turns the tests on strings into equations. *)
Ltac string_tests :=
  repeat match goal with
         | H : negb _ = true |- _ => apply negb_true_iff in H
         | H : negb _ = false |- _ => apply negb_false_iff in H
         | H : String.eqb _ _ = true |- _ => apply String.eqb_eq in H
         | H : String.eqb _ _ = false |- _ => apply String.eqb_neq in H
         end.

(** Turns the tests on statuses into inequalities and closes the goal when
    they contradict each other. *)
Ltac status_lia :=
  repeat match goal with
         | H : (_ >=? _) = true |- _ => apply geb_true in H
         | H : (_ >=? _) = false |- _ => apply geb_false in H
         end;
  unfold ERRORTHRESHOLD, ERROR, OK in *; lia.

(** Two equations with the same left-hand side: rewrite one in the other
    and simplify. *)
Ltac same_lhs :=
  repeat match goal with
         | H1 : ?x = _, H2 : ?x = _ |- _ => rewrite H1 in H2; simplify_eq
         end.

(** ** callChaincode *)

Section CallChaincode.

Variables (w : World) (ctxt : Context) (chainID version txid : string)
  (signedProp : SignedProposal) (prop : Proposal) (cis : ChaincodeInvocationSpec)
  (cid : ptr) (txsim : option TxSimulator).

Let run := callChaincode w ctxt chainID version txid signedProp prop cis cid txsim.

(** C7. When the execution engine returns no error and a response whose
    status is at or above [ERRORTHRESHOLD], [callChaincode] returns that
    response with a nil event and a nil error, and the engine call is the
    only thing it did: no deployment specification is read and there is no
    second execution. *)
Theorem callChaincode_error_status_stops h σ out evs σ' ctxt' cccid args res ccevent :
  run h σ = (out, evs, σ') ->
  In (EvExecuteChaincode ctxt' cccid args (Ok (Some res, ccevent))) evs ->
  Status res >= ERRORTHRESHOLD ->
  out = Ret (Some res, None, None)
  /\ evs = [EvExecuteChaincode ctxt' cccid args (Ok (Some res, ccevent))]
  /\ count is_Execute evs = 0%nat
  /\ σ' = σ.
Proof.
  intros H Hin Hst. unfold run, callChaincode in H.
  mrun H; subst; simpl in Hin; destruct_or?; simplify_eq; try contradiction;
    try (exfalso; status_lia).
  simpl. auto.
Qed.

(** What [callChaincode] touches: it leaves the store alone and talks to
    the execution engine only. *)
Lemma callChaincode_footprint h σ out evs σ' :
  run h σ = (out, evs, σ') ->
  σ' = σ /\ Forall (fun ev => is_ExecuteChaincode ev || is_Execute ev = true) evs
  /\ (count is_ExecuteChaincode evs <= 1)%nat.
Proof.
  intros H. unfold run, callChaincode in H.
  mrun H; subst; simpl; repeat split; auto; repeat constructor.
Qed.

(** The shape of what [callChaincode] returns: with a nil error there is a
    response, it is the one the engine gave for the invoked chaincode, and
    an error status comes without an event; with an error there is nothing
    else. *)
Lemma callChaincode_returns h σ out evs σ' res ccevent err :
  run h σ = (out, evs, σ') ->
  out = Ret (res, ccevent, err) ->
  match err with
  | Some _ => res = None /\ ccevent = None
  | None =>
      exists r c ctxt' cccid args ev,
        res = Some r /\ σ !! cid = Some c /\ cc_Name cccid = Name c
        /\ In (EvExecuteChaincode ctxt' cccid args (Ok (Some r, ev))) evs
        /\ count is_ExecuteChaincode evs = 1%nat
        /\ (Status r >= ERRORTHRESHOLD -> ccevent = None)
  end.
Proof.
  intros H ->. unfold run, callChaincode in H.
  mrun H; subst; simplify_eq; auto; do 6 eexists; repeat split.
  all: try (simpl; left; reflexivity).
  all: try reflexivity.
  all: intros; try reflexivity; exfalso; status_lia.
Qed.

(** C3, for the operations the code singles out.  The invoked contract is
    "lscc", the first argument is "deploy" or "upgrade", there are at
    least three arguments and the first execution gave a status below
    [ERRORTHRESHOLD].  Then the deployment specification is read from the
    third argument: if that fails, [callChaincode] returns
    [(nil, nil, err)]; if the specification names a system chaincode,
    [callChaincode] returns [(nil, nil, err)] without a second execution;
    otherwise the deployed chaincode is executed once, in the context
    [ctxt'] of the first execution, and an error of that execution is
    returned as [(nil, nil, err)], while success returns the first
    response and its event. *)
Theorem callChaincode_lifecycle h σ out evs σ' c ctxt' cccid args res ccevent :
  run h σ = (out, evs, σ') ->
  σ !! cid = Some c -> Name c = "lscc" ->
  In (EvExecuteChaincode ctxt' cccid args (Ok (Some res, ccevent))) evs ->
  Status res < ERRORTHRESHOLD ->
  is_deploy_or_upgrade args = true ->
  let first := EvExecuteChaincode ctxt' cccid args (Ok (Some res, ccevent)) in
  (forall err,
      GetChaincodeDeploymentSpec w (nth 2 args []) = Err err ->
      out = Ret (None, None, Some err) /\ evs = [first])
  /\ (forall cds dspec dcid,
        GetChaincodeDeploymentSpec w (nth 2 args []) = Ok cds ->
        cds_ChaincodeSpec cds = Some dspec ->
        cs_ChaincodeId dspec = Some dcid ->
        (IsSysCC w (Name dcid) = true ->
           (exists err, out = Ret (None, None, Some err)) /\ evs = [first])
        /\ (IsSysCC w (Name dcid) = false ->
           exists x,
             evs = [first;
                    EvExecute ctxt'
                      (NewCCContext chainID (Name dcid) (Version dcid) txid false
                         signedProp prop) cds x]
             /\ out = match x with
                      | Some err => Ret (None, None, Some err)
                      | None => Ret (Some res, ccevent, None)
                      end)).
Proof.
  intros H Hc Hname Hin Hst Hop first. unfold run, callChaincode in H.
  mrun H; subst; simpl in Hin; destruct_or?; simplify_eq; try contradiction;
    try (exfalso; status_lia);
    try (exfalso; match goal with
                  | Hb : _ && _ = false |- _ =>
                      rewrite Hname, Hop in Hb; discriminate Hb
                  end);
    (split; [intros err' ? | intros cds' dspec' dcid' ? ? ?; split; intros ?]);
    same_lhs; simpl; eauto.
Qed.

End CallChaincode.

Lemma callChaincode_lifecycle_witness :
  let s := Sample.lscc "deploy" in
  let ctxt := with_TXSimulator Sample.ctx 7%nat in
  let first :=
    EvExecuteChaincode ctxt
      (NewCCContext "ch1" "lscc" "1.1.0" "tx1" true Sample.signedProp Sample.prop)
      (Sample.sc_args s) (Ok (Some (Sample.res s), Some Sample.event)) in
  exists out evs σ',
    callChaincode (Sample.world s) Sample.ctx "ch1" "1.1.0" "tx1" Sample.signedProp
      Sample.prop (Sample.cis s) 0%nat (Some 7%nat) [] (Sample.store_of s)
    = (out, evs, σ')
    /\ exists x,
         evs = [first;
                EvExecute ctxt
                  (NewCCContext "ch1" "newcc" "1.0" "tx1" false Sample.signedProp
                     Sample.prop) Sample.deployed x]
         /\ out = match x with
                  | Some err => Ret (None, None, Some err)
                  | None => Ret (Some (Sample.res s), Some Sample.event, None)
                  end.
Proof.
  intros s ctxt first. do 3 eexists. split; [vm_compute; reflexivity |].
  edestruct (callChaincode_lifecycle (Sample.world s) Sample.ctx "ch1" "1.1.0" "tx1"
               Sample.signedProp Sample.prop (Sample.cis s) 0%nat (Some 7%nat) []
               (Sample.store_of s)) as [_ Hok];
    [vm_compute; reflexivity | reflexivity | reflexivity | left; reflexivity
    | vm_compute; reflexivity | reflexivity |].
  edestruct (Hok Sample.deployed) as [_ Hsecond]; [reflexivity .. |].
  exact (Hsecond eq_refl).
Defined.

(** The claim C3 also names "install".  Here "lscc" is invoked with
    "install" and three arguments, the third one holds a deployment
    specification for "newcc", which is no system chaincode, and the
    execution answers 200: [callChaincode] returns the response and there
    is no second execution. *)
Lemma callChaincode_install_no_second_execution :
  let s := Sample.lscc "install" in
  let w := Sample.world s in
  (3 <= length (Sample.sc_args s))%nat
  /\ string_of_bytes (nth 0 (Sample.sc_args s) []) = "install"
  /\ Status (Sample.res s) < ERRORTHRESHOLD
  /\ GetChaincodeDeploymentSpec w (nth 2 (Sample.sc_args s) []) = Ok Sample.deployed
  /\ IsSysCC w "newcc" = false
  /\ exists evs σ',
       callChaincode w Sample.ctx "ch1" "1.1.0" "tx1" Sample.signedProp Sample.prop
         (Sample.cis s) 0%nat (Some 7%nat) [] (Sample.store_of s)
       = (Ret (Some (Sample.res s), Some Sample.event, None), evs, σ')
       /\ length evs = 1%nat
       /\ count is_Execute evs = 0%nat.
Proof.
  intros s w. repeat split; try (vm_compute; reflexivity).
  do 2 eexists. split; [vm_compute; reflexivity |]. split; reflexivity.
Defined.

Lemma callChaincode_error_status_stops_witness :
  exists out evs σ',
    callChaincode (Sample.world Sample.invoke_fails) Sample.ctx "ch1" "1.0" "tx1"
      Sample.signedProp Sample.prop (Sample.cis Sample.invoke_fails) 0%nat (Some 7%nat)
      [] (Sample.store_of Sample.invoke_fails) = (out, evs, σ')
    /\ out = Ret (Some (Sample.res Sample.invoke_fails), None, None)
    /\ count is_Execute evs = 0%nat.
Proof.
  do 3 eexists. split; [vm_compute; reflexivity |].
  edestruct (callChaincode_error_status_stops (Sample.world Sample.invoke_fails)
               Sample.ctx "ch1" "1.0" "tx1" Sample.signedProp Sample.prop
               (Sample.cis Sample.invoke_fails) 0%nat (Some 7%nat) []
               (Sample.store_of Sample.invoke_fails))
    as (Hout & _ & Hcount & _);
    [vm_compute; reflexivity | left; reflexivity | vm_compute; discriminate |].
  split; [exact Hout | exact Hcount].
Defined.

(** ** endorseProposal *)

(** An allocation does not move the objects that are there. *)
Lemma lookup_alloc_other (σ : gmap ptr ChaincodeID) (q : ptr) (c c0 : ChaincodeID) :
  σ !! q = Some c0 -> <[fresh (dom σ) := c]> σ !! q = Some c0.
Proof.
  intros Hq. rewrite lookup_insert_ne; [exact Hq |].
  intros Heq. pose proof (is_fresh (dom σ)) as Hfresh. rewrite Heq in Hfresh.
  apply Hfresh, elem_of_dom. eauto.
Qed.

Section EndorseProposal.

Variables (w : World) (ctx : Context) (chainID txid : string)
  (signedProp : SignedProposal) (proposal : Proposal) (response : option Response)
  (simRes : bytes) (event : option ChaincodeEvent) (visibility : bytes)
  (ccid : ptr) (txsim : option TxSimulator) (cd : option ChaincodeData).

Let run := endorseProposal w ctx chainID txid signedProp proposal response simRes
             event visibility ccid txsim cd.

(** C5. When the execution of the endorsement authority returns a
    response whose status is at or above [ERRORTHRESHOLD],
    [endorseProposal] returns a [ProposalResponse] that holds this
    response and nothing else (no payload, no endorsement), and a nil
    error. *)
Theorem endorseProposal_authority_error h σ out evs σ' ctxt' cccid args res ccevent :
  run h σ = (out, evs, σ') ->
  In (EvExecuteChaincode ctxt' cccid args (Ok (Some res, ccevent))) evs ->
  Status res >= ERRORTHRESHOLD ->
  cc_Name cccid = selected_escc cd
  /\ exists pResp,
       out = Ret (Some pResp, None)
       /\ pr_Response pResp = Some res
       /\ pr_Payload pResp = []
       /\ pr_Endorsement pResp = None.
Proof.
  intros H Hin Hst. unfold run, endorseProposal, callChaincode in H.
  mrun H; subst; simpl in Hin; destruct_or?; simplify_eq; try contradiction;
    try (exfalso; status_lia);
    unfold selected_escc;
    try match goal with Hcd : cd = _ |- _ => rewrite Hcd end;
    (split; [reflexivity | eexists; repeat split; reflexivity]).
Qed.

(** The stores [endorseProposal] can leave behind: the one it was given
    (it stopped before line 333), that store with the version written, or
    the latter with the [ChaincodeID] allocated for the call of the
    endorsement authority at line 359.  Only the last one comes with a call
    of the execution engine. *)
Lemma endorseProposal_store h σ out evs σ' c :
  run h σ = (out, evs, σ') ->
  σ !! ccid = Some c ->
  let written := <[ccid := set_Version c (executing_version w cd)]> σ in
  (σ' = σ /\ count is_ExecuteChaincode evs = 0%nat)
  \/ (σ' = written /\ count is_ExecuteChaincode evs = 0%nat)
  \/ (exists escc_id, σ' = <[fresh (dom written) := escc_id]> written).
Proof.
  intros H Hc written. unfold run, endorseProposal, callChaincode in H.
  mrun H; subst; same_lhs; subst written; unfold executing_version;
    try match goal with Hcd : cd = _ |- _ => rewrite Hcd end;
    first [ left; split; reflexivity
          | right; left; split; reflexivity
          | right; right; eexists; reflexivity ].
Qed.

(** C10. [endorseProposal] writes through its argument [ccid].  Whatever
    the run does, the object [ccid] points to keeps its [Path] and [Name]
    and either is untouched or has its [Version] replaced by
    [executing_version]: the version of the chaincode definition for an
    ordinary chaincode, the system chaincode version when there is no
    definition.  The write comes before the endorsement authority is
    invoked: in every run that invokes it, also one in which it fails, the
    new version is in the store.  No other object of the store changes. *)
Theorem endorseProposal_writes_version h σ out evs σ' c :
  run h σ = (out, evs, σ') ->
  σ !! ccid = Some c ->
  (exists c',
      σ' !! ccid = Some c' /\ Path c' = Path c /\ Name c' = Name c
      /\ (c' = c \/ Version c' = (executing_version w cd)))
  /\ (forall ev, In ev evs -> is_ExecuteChaincode ev = true ->
        σ' !! ccid = Some (set_Version c (executing_version w cd)))
  /\ (forall p c0, p <> ccid -> σ !! p = Some c0 -> σ' !! p = Some c0).
Proof.
  intros H Hc.
  assert (Hw : <[ccid := set_Version c (executing_version w cd)]> σ !! ccid
               = Some (set_Version c (executing_version w cd)))
    by apply lookup_insert_eq.
  destruct (endorseProposal_store _ _ _ _ _ _ H Hc)
    as [[-> Hcount] | [[-> Hcount] | [escc_id ->]]].
  - split; [exists c; auto |]. split.
    + intros ev Hin Hev. rewrite (count_zero_not_in _ _ _ Hcount Hin) in Hev.
      discriminate.
    + auto.
  - split; [eexists; split; [exact Hw | auto] |]. split.
    + intros; exact Hw.
    + intros p c0 Hp Hp0. rewrite lookup_insert_ne; auto.
  - split; [eexists; split; [apply lookup_alloc_other; exact Hw | auto] |]. split.
    + intros. apply lookup_alloc_other. exact Hw.
    + intros p c0 Hp Hp0. apply lookup_alloc_other. rewrite lookup_insert_ne; auto.
Qed.

End EndorseProposal.

Lemma endorseProposal_authority_error_witness :
  let s := Sample.escc_fails in
  exists out evs σ',
    endorseProposal (Sample.world s) Sample.ctx "ch1" "tx1" Sample.signedProp
      Sample.prop (Some (Sample.res s)) (b "pub") (Some Sample.event) [] 0%nat
      (Some 7%nat) (Some Sample.cd) [] (Sample.store_of s) = (out, evs, σ')
    /\ exists pResp,
         out = Ret (Some pResp, None)
         /\ pr_Response pResp = Some (Sample.escc_res s)
         /\ pr_Payload pResp = []
         /\ pr_Endorsement pResp = None.
Proof.
  intros s. do 3 eexists. split; [vm_compute; reflexivity |].
  eapply (endorseProposal_authority_error (Sample.world s) Sample.ctx "ch1" "tx1"
            Sample.signedProp Sample.prop (Some (Sample.res s)) (b "pub")
            (Some Sample.event) [] 0%nat (Some 7%nat) (Some Sample.cd) []
            (Sample.store_of s));
    [vm_compute; reflexivity | left; reflexivity | vm_compute; discriminate].
Defined.

Lemma endorseProposal_writes_version_witness :
  let s := Sample.invoke in
  exists out evs σ',
    endorseProposal (Sample.world s) Sample.ctx "ch1" "tx1" Sample.signedProp
      Sample.prop (Some (Sample.res s)) (b "pub") (Some Sample.event) [] 0%nat
      (Some 7%nat) (Some Sample.cd) [] (Sample.store_of s) = (out, evs, σ')
    /\ σ' !! 0%nat = Some {| Path := ""; Name := "mycc"; Version := "1.0" |}.
Proof.
  intros s. do 3 eexists. split; [vm_compute; reflexivity |].
  edestruct (endorseProposal_writes_version (Sample.world s) Sample.ctx "ch1" "tx1"
               Sample.signedProp Sample.prop (Some (Sample.res s)) (b "pub")
               (Some Sample.event) [] 0%nat (Some 7%nat) (Some Sample.cd) []
               (Sample.store_of s)) as (_ & Hwritten & _);
    [vm_compute; reflexivity | reflexivity |].
  eapply Hwritten; [left; reflexivity | reflexivity].
Defined.

(** ** simulateProposal *)

(** [disableJavaCCInst] only looks. *)
Lemma disableJavaCCInst_footprint w cid cis h σ out evs σ' :
  disableJavaCCInst w cid cis h σ = (out, evs, σ') -> evs = [] /\ σ' = σ.
Proof.
  intros H. unfold disableJavaCCInst in H. mrun H; subst; auto.
Qed.

Lemma callChaincode_engine_only w ctxt chainID version txid signedProp prop cis cid
    txsim h σ out evs σ' :
  callChaincode w ctxt chainID version txid signedProp prop cis cid txsim h σ
  = (out, evs, σ') ->
  forall ev, In ev evs -> is_engine ev = true.
Proof.
  intros H ev Hin.
  destruct (callChaincode_footprint _ _ _ _ _ _ _ _ _ _ _ _ _ _ _ H) as (_ & Hall & _).
  rewrite Forall_forall in Hall. apply Hall, list_elem_of_In, Hin.
Qed.


Section SimulateProposal.

Variables (w : World) (e : Endorser) (ctx : Context) (chainID txid : string)
  (signedProp : SignedProposal) (prop : Proposal) (cid : ptr).


Lemma simulateProposal_footprint txsim h σ out evs σ' :
  simulateProposal w e ctx chainID txid signedProp prop cid txsim h σ = (out, evs, σ') ->
  σ' = σ /\ forall ev, In ev evs -> is_simulate_event txsim ev = true.
Proof.
  intros H. unfold simulateProposal, getCDSFromLSCC, checkEsccAndVscc in H.
  mrun H; subst;
    repeat match goal with
           | Hm : disableJavaCCInst _ _ _ _ _ = _ |- _ =>
               apply disableJavaCCInst_footprint in Hm; destruct Hm as [-> ->]
           | Hm : callChaincode _ _ _ _ _ _ _ _ _ _ _ _ = _ |- _ =>
               pose proof (callChaincode_engine_only _ _ _ _ _ _ _ _ _ _ _ _ _ _ _ Hm);
               apply callChaincode_footprint in Hm; destruct Hm as (-> & _ & _)
           end;
    (split; [reflexivity |]);
    intros ev Hin; simpl in Hin; rewrite ?in_app_iff in Hin; simpl in Hin;
    destruct_or?; subst; try contradiction; try reflexivity;
    match goal with
    | Hengine : forall ev, In ev _ -> is_engine ev = true, Hi : In ?ev _ |- _ =>
        apply Hengine in Hi; destruct ev; try discriminate Hi; reflexivity
    end.
Qed.

(** What [simulateProposal] returns.  With an error, nothing else.  With a
    nil error, the response of the one engine call made for the chaincode
    [cid] names, and an event only if the status is below
    [ERRORTHRESHOLD]. *)
Lemma simulateProposal_returns txsim h σ out evs σ' cdLedger res simRes ccevent err :
  simulateProposal w e ctx chainID txid signedProp prop cid txsim h σ = (out, evs, σ') ->
  out = Ret (cdLedger, res, simRes, ccevent, err) ->
  match err with
  | Some _ => cdLedger = None /\ res = None /\ simRes = [] /\ ccevent = None
  | None =>
      exists r c ctxt' cccid args ev,
        res = Some r /\ σ !! cid = Some c /\ cc_Name cccid = Name c
        /\ In (EvExecuteChaincode ctxt' cccid args (Ok (Some r, ev))) evs
        /\ count is_ExecuteChaincode evs = 1%nat
        /\ (Status r >= ERRORTHRESHOLD -> ccevent = None)
  end.
Proof.
  intros H ->. unfold simulateProposal, getCDSFromLSCC, checkEsccAndVscc in H.
  mrun H; subst; simplify_eq; auto;
    repeat match goal with
           | Hm : disableJavaCCInst _ _ _ _ _ = _ |- _ =>
               apply disableJavaCCInst_footprint in Hm; destruct Hm as [-> ->]
           | Hm : callChaincode _ _ _ _ _ _ _ _ _ _ _ _ = _ |- _ =>
               apply (fun H => callChaincode_returns _ _ _ _ _ _ _ _ _ _ _ _ _ _ _ _ _ _ H
                                 eq_refl) in Hm;
               destruct Hm as (r & c & ctxt' & cccid & args & ev
                               & -> & Hc & Hname & Hin & Hcount & Hev)
           end;
    exists r, c, ctxt', cccid, args, ev;
    repeat split; try assumption;
    first [ rewrite ?in_app_iff; simpl; rewrite ?in_app_iff; solve [auto 10]
          | rewrite ?count_app; simpl; rewrite ?count_app; simpl; lia ].
Qed.

(** A failed distribution is the last thing [simulateProposal] does. *)
Lemma simulateProposal_failed_distribution txsim h σ out evs σ' channel txID pvt err :
  simulateProposal w e ctx chainID txid signedProp prop cid txsim h σ = (out, evs, σ') ->
  In (EvDistributePrivateData channel txID pvt (Some err)) evs ->
  out = Ret (simulate_failed err)
  /\ exists pre, evs = pre ++ [EvDistributePrivateData channel txID pvt (Some err)].
Proof.
  intros H Hin. unfold simulateProposal, getCDSFromLSCC, checkEsccAndVscc in H.
  mrun H; subst;
    repeat match goal with
           | Hm : disableJavaCCInst _ _ _ _ _ = _ |- _ =>
               apply disableJavaCCInst_footprint in Hm; destruct Hm as [-> ->]
           end;
    simpl in Hin; rewrite ?in_app_iff in Hin; simpl in Hin;
    destruct_or?; simplify_eq; try contradiction;
    try (match goal with
         | Hm : callChaincode _ _ _ _ _ _ _ _ _ _ _ _ = (_, ?l, _), Hi : In _ ?l |- _ =>
             apply (callChaincode_engine_only _ _ _ _ _ _ _ _ _ _ _ _ _ _ _ Hm) in Hi;
             discriminate Hi
         end);
    (split; [reflexivity |]);
    match goal with
    | Hm : callChaincode _ _ _ _ _ _ _ _ _ _ _ _ = (_, ?l, _) |- _ =>
        first [ eexists (l ++ [_]); simpl; rewrite <- ?app_assoc; reflexivity
              | eexists (_ :: _ :: l ++ [_]); simpl; rewrite <- ?app_assoc; reflexivity ]
    end.
Qed.

End SimulateProposal.


(** ** The pipeline after admission *)

Lemma endorseProposal_engine_only w ctx chainID txid signedProp proposal response simRes
    event visibility ccid txsim cd h σ out evs σ' :
  endorseProposal w ctx chainID txid signedProp proposal response simRes event
    visibility ccid txsim cd h σ = (out, evs, σ') ->
  forall ev, In ev evs -> is_engine ev = true.
Proof.
  intros H. unfold endorseProposal in H.
  mrun H; subst;
    repeat match goal with
           | Hm : callChaincode _ _ _ _ _ _ _ _ _ _ _ _ = _ |- _ =>
               pose proof (callChaincode_engine_only _ _ _ _ _ _ _ _ _ _ _ _ _ _ _ Hm);
               clear Hm
           end;
    intros ev Hin; simpl in Hin; rewrite ?in_app_iff in Hin; simpl in Hin;
    destruct_or?; subst; try contradiction; auto.
Qed.

(** [endorseProposal] returns an error or a response, never both and
    never neither. *)
Lemma endorseProposal_returns w ctx chainID txid signedProp proposal response simRes
    event visibility ccid txsim cd h σ out evs σ' pResp err :
  endorseProposal w ctx chainID txid signedProp proposal response simRes event
    visibility ccid txsim cd h σ = (out, evs, σ') ->
  out = Ret (pResp, err) ->
  match err with
  | Some _ => pResp = None
  | None => exists p, pResp = Some p
  end.
Proof.
  intros H ->. unfold endorseProposal in H.
  mrun H; subst; simplify_eq; eauto.
Qed.

Lemma is_engine_simulate_event txsim ev : is_engine ev = true -> is_simulate_event txsim ev = true.
Proof. destruct ev; simpl; auto; discriminate. Qed.

Section Pipeline.

Variables (w : World) (e : Endorser) (ctx : Context) (chainID txid : string)
  (signedProp : SignedProposal) (prop : Proposal) (hdrExt_ChaincodeId : ptr)
  (hdrExt_PayloadVisibility : bytes) (txsim : option TxSimulator).

Let run := ProcessProposal_simulate_and_endorse w e ctx chainID txid signedProp prop
             hdrExt_ChaincodeId hdrExt_PayloadVisibility txsim.

(** Simulation and endorsement produce the events of [simulateProposal]
    and engine calls: nothing of admission, no acquisition, no release. *)
Lemma simulate_and_endorse_footprint h σ out evs σ' :
  run h σ = (out, evs, σ') ->
  forall ev, In ev evs -> is_simulate_event txsim ev = true.
Proof.
  intros H. unfold run, ProcessProposal_simulate_and_endorse in H.
  mrun H; subst;
    repeat match goal with
           | Hm : simulateProposal _ _ _ _ _ _ _ _ _ _ _ = _ |- _ =>
               apply simulateProposal_footprint in Hm; destruct Hm as [-> Hm]
           | Hm : endorseProposal _ _ _ _ _ _ _ _ _ _ _ _ _ _ _ = _ |- _ =>
               pose proof (endorseProposal_engine_only
                             _ _ _ _ _ _ _ _ _ _ _ _ _ _ _ _ _ _ Hm);
               clear Hm
           end;
    intros ev Hin; simpl in Hin; rewrite ?in_app_iff in Hin; simpl in Hin;
    destruct_or?; subst; try contradiction; auto using is_engine_simulate_event.
Qed.

(** Simulation and endorsement never return without a response: the
    return of line 489 cannot be reached, since a status of 500 or more
    comes without an event. *)
Lemma simulate_and_endorse_returns h σ out evs σ' pResp err :
  run h σ = (out, evs, σ') ->
  out = Ret (pResp, err) ->
  exists p, pResp = Some p.
Proof.
  intros H ->. unfold run, ProcessProposal_simulate_and_endorse in H.
  mrun H; subst; simplify_eq; unfold failure500 in *; simplify_eq; eauto.
  match goal with
  | Hm : simulateProposal _ _ _ _ _ _ _ _ _ _ _ = _ |- _ =>
      apply (fun H => simulateProposal_returns _ _ _ _ _ _ _ _ _ _ _ _ _ _ _ _ _ _ _ H
                        eq_refl) in Hm;
      destruct Hm as (r0 & _ & _ & _ & _ & _ & [= <-] & _ & _ & _ & _ & Hev)
  end.
  rewrite Hev in * by status_lia. discriminate.
Qed.

(** After a failed distribution of private data nothing is endorsed: the
    distributor call is the last event of the request before the release,
    and the response is the 500 of line 480. *)
Lemma failed_distribution_is_not_endorsed h σ out evs σ' channel txID pvt err :
  run h σ = (out, evs, σ') ->
  In (EvDistributePrivateData channel txID pvt (Some err)) evs ->
  out = Ret (failure500 err)
  /\ exists pre, evs = pre ++ [EvDistributePrivateData channel txID pvt (Some err)].
Proof.
  intros H Hin. unfold run, ProcessProposal_simulate_and_endorse in H.
  mrun H; subst;
    repeat match goal with
           | Hm : endorseProposal _ _ _ _ _ _ _ _ _ _ _ _ _ _ _ = _ |- _ =>
               pose proof (endorseProposal_engine_only
                             _ _ _ _ _ _ _ _ _ _ _ _ _ _ _ _ _ _ Hm);
               clear Hm
           end;
    simpl in Hin; rewrite ?in_app_iff in Hin; simpl in Hin;
    destruct_or?; simplify_eq; try contradiction;
    try (match goal with
         | Hengine : forall ev, In ev _ -> is_engine ev = true, Hi : In _ _ |- _ =>
             apply Hengine in Hi; discriminate Hi
         end);
    match goal with
    | Hm : simulateProposal _ _ _ _ _ _ _ _ _ _ _ = _, Hi : In _ _ |- _ =>
        destruct (simulateProposal_failed_distribution _ _ _ _ _ _ _ _ _ _ _ _ _ _ _ _ _ _
                    Hm Hi) as [Hout [pre ->]]
    end;
    simplify_eq.
  split; [reflexivity |]. exists pre. rewrite !app_nil_r. reflexivity.
Qed.

End Pipeline.

(** ** ProcessProposal *)

(** C6. A signed proposal that validation accepts and that names a system
    chaincode which is not invokable from outside is answered with a
    [ProposalResponse] of status 500 and an error.  The log of the request
    holds the validation and nothing else: no ledger lookup, no duplicate
    check, no ACL check, no simulator.  The channel id plays no part. *)
Theorem ProcessProposal_blocks_non_invokable w e ctx signedProp h σ prop hdr hdrExt :
  ValidateProposalMessage w h signedProp = Ok (prop, hdr, hdrExt) ->
  IsSysCCAndNotInvokableExternal w (Name (hx_ChaincodeId hdrExt)) = true ->
  exists pResp err σ',
    ProcessProposal w e ctx signedProp h σ
    = (Ret (Some pResp, Some err),
       [EvValidateProposalMessage signedProp (Ok (prop, hdr, hdrExt))], σ')
    /\ is_500 pResp err.
Proof.
  intros Hvalid Hblocked.
  destruct (ProcessProposal w e ctx signedProp h σ) as [[out evs] σ'] eqn:H.
  unfold ProcessProposal in H.
  mrun H; subst; same_lhs; simplify_eq; do 3 eexists; split; reflexivity.
Qed.

Lemma ProcessProposal_blocks_non_invokable_witness :
  let s := Sample.direct_escc in
  exists pResp err σ',
    ProcessProposal (Sample.world s) (Sample.endorser s) Sample.ctx Sample.signedProp [] ∅
    = (Ret (Some pResp, Some err),
       [EvValidateProposalMessage Sample.signedProp
          (Ok (Sample.prop, Sample.hdr,
               {| PayloadVisibility := []; hx_ChaincodeId := Sample.id_of "escc" |}))],
       σ')
    /\ is_500 pResp err.
Proof.
  intros s.
  apply (ProcessProposal_blocks_non_invokable (Sample.world s) (Sample.endorser s)
           Sample.ctx Sample.signedProp [] ∅); reflexivity.
Defined.

(** C1, as the code has it.  First part: a proposal that validation
    accepts, with a non-empty transaction id, for an invokable chaincode,
    on a channel that has a ledger on which the transaction id is found.
    [ProcessProposal] returns no response and the duplicate-transaction
    error, after the validation, the ledger lookup and the transaction
    lookup: nothing is executed.  Second part: whenever [ProcessProposal]
    returns no response, the last thing it did was a ledger lookup of the
    admission that failed, or a transaction lookup that found the id, and
    the error says which. *)
Theorem ProcessProposal_duplicate_transaction :
  (forall w e ctx signedProp h σ prop hdr hdrExt chdr shdr lgr,
      ValidateProposalMessage w h signedProp = Ok (prop, hdr, hdrExt) ->
      UnmarshalChannelHeader w (ChannelHeader hdr) = Ok chdr ->
      GetSignatureHeader w (SignatureHeader hdr) = Ok shdr ->
      IsSysCCAndNotInvokableExternal w (Name (hx_ChaincodeId hdrExt)) = false ->
      TxId chdr <> "" ->
      ChannelId chdr <> "" ->
      (forall h', GetLedger w h' (ChannelId chdr) = Some lgr) ->
      (forall h', GetTransactionByID w h' lgr (TxId chdr) = None) ->
      exists σ',
        ProcessProposal w e ctx signedProp h σ
        = (Ret (None, Some (duplicate_transaction (TxId chdr) (Creator shdr))),
           [EvValidateProposalMessage signedProp (Ok (prop, hdr, hdrExt));
            EvGetLedger (ChannelId chdr) (Some lgr);
            EvGetTransactionByID lgr (TxId chdr) None],
           σ'))
  /\ (forall w e ctx signedProp h σ out evs σ' err,
        ProcessProposal w e ctx signedProp h σ = (out, evs, σ') ->
        out = Ret (None, err) ->
        exists pre,
          (exists chainID,
              evs = pre ++ [EvGetLedger chainID None]
              /\ err = Some (ledger_lookup_failed chainID))
          \/ (exists lgr txid creator,
                evs = pre ++ [EvGetTransactionByID lgr txid None]
                /\ err = Some (duplicate_transaction txid creator))).
Proof.
  split.
  - intros w e ctx signedProp h σ prop hdr hdrExt chdr shdr lgr
      Hvalid Hchdr Hshdr Hinv Htx Hch Hledger Hfound.
    destruct (ProcessProposal w e ctx signedProp h σ) as [[out evs] σ'] eqn:H.
    unfold ProcessProposal in H.
    mrun H; subst; same_lhs; simplify_eq; string_tests; try contradiction;
      repeat match goal with
             | Heq : GetLedger _ _ _ = _ |- _ => rewrite Hledger in Heq; simplify_eq
             | Heq : GetTransactionByID _ _ _ _ = _ |- _ => rewrite Hfound in Heq; simplify_eq
             end.
    eexists; reflexivity.
  - intros w e ctx signedProp h σ out evs σ' err H ->.
    unfold ProcessProposal, getTxSimulator, getHistoryQueryExecutor, checkACL in H.
    mrun H; subst; unfold failure500 in *; simplify_eq.
    all: try (match goal with
              | Hm : ProcessProposal_simulate_and_endorse _ _ _ _ _ _ _ _ _ _ _ _ = _ |- _ =>
                  destruct (simulate_and_endorse_returns _ _ _ _ _ _ _ _ _ _ _ _ _ _ _ _ _
                              Hm eq_refl) as [? ?]; discriminate
              end).
    all: first [ eexists [_]; left; eexists; split; reflexivity
               | eexists [_; _]; right; do 3 eexists; split; reflexivity ].
Qed.

Lemma ProcessProposal_duplicate_transaction_witness :
  let s := Sample.replayed in
  exists σ',
    ProcessProposal (Sample.world s) (Sample.endorser s) Sample.ctx Sample.signedProp [] ∅
    = (Ret (None, Some (duplicate_transaction "tx1" (b "alice"))),
       [EvValidateProposalMessage Sample.signedProp
          (Ok (Sample.prop, Sample.hdr,
               {| PayloadVisibility := []; hx_ChaincodeId := Sample.id_of "mycc" |}));
        EvGetLedger "ch1" (Some 1%nat);
        EvGetTransactionByID 1%nat "tx1" None],
       σ').
Proof.
  intros s.
  apply (proj1 ProcessProposal_duplicate_transaction (Sample.world s) (Sample.endorser s)
           Sample.ctx Sample.signedProp [] ∅ Sample.prop Sample.hdr
           {| PayloadVisibility := []; hx_ChaincodeId := Sample.id_of "mycc" |}
           {| ChannelId := "ch1"; TxId := "tx1" |}
           {| Creator := b "alice"; Nonce := [] |} 1%nat);
    try reflexivity; try discriminate; intros; reflexivity.
Defined.

(** The claim C1 asks for a non-nil [ProposalResponse] of status 500 or
    more, and keeps the bare [(nil, error)] for a failed channel lookup.
    Here the channel "ch1" has a ledger, the transaction id "tx1" is on
    it, and [ProcessProposal] returns a nil response with the error, after
    a ledger lookup that succeeded. *)
Lemma ProcessProposal_duplicate_returns_no_response :
  let s := Sample.replayed in
  let w := Sample.world s in
  GetLedger w [] "ch1" = Some 1%nat
  /\ GetTransactionByID w [] 1%nat "tx1" = None
  /\ exists err evs σ',
       ProcessProposal w (Sample.endorser s) Sample.ctx Sample.signedProp [] ∅
       = (Ret (None, Some err), evs, σ')
       /\ Error err = "duplicate transaction found [tx1]. Creator [616c696365]"
       /\ In (EvGetLedger "ch1" (Some 1%nat)) evs
       /\ count is_engine evs = 0%nat.
Proof.
  intros s w. split; [reflexivity |]. split; [reflexivity |].
  do 3 eexists. split; [vm_compute; reflexivity |].
  split; [vm_compute; reflexivity |]. split; [right; left; reflexivity | reflexivity].
Defined.

(** ** The simulator's release *)

Lemma count_zero (p : Event -> bool) (l : Log) :
  (forall ev, In ev l -> p ev = false) -> count p l = 0%nat.
Proof.
  induction l as [| ev l IH]; simpl; intros Hall; [reflexivity |].
  rewrite (Hall ev) by auto. rewrite IH by auto. reflexivity.
Qed.

Lemma simulate_events_no_acquisition txsim (l : Log) :
  (forall ev, In ev l -> is_simulate_event txsim ev = true) ->
  count is_acquisition l = 0%nat /\ count is_release l = 0%nat.
Proof.
  intros Hall. split; apply count_zero; intros ev Hin; apply Hall in Hin;
    destruct ev; try discriminate Hin; reflexivity.
Qed.

(** Every run of [ProcessProposal] releases the simulators it acquired,
    except the runs that end at lines 460-462: there one simulator has
    been acquired, the acquisition of the history query executor fails
    (no ledger, or an error of [NewHistoryQueryExecutor]), and the function
    returns before [txsim.Done()] is deferred at line 468. *)
Lemma ProcessProposal_release_balance w e ctx signedProp h σ out evs σ' :
  ProcessProposal w e ctx signedProp h σ = (out, evs, σ') ->
  count is_release evs = count is_acquisition evs
  \/ (count is_acquisition evs = 1%nat /\ count is_release evs = 0%nat
      /\ exists pre,
           (exists chainID, evs = pre ++ [EvGetLedger chainID None])
           \/ (exists lgr err, evs = pre ++ [EvNewHistoryQueryExecutor lgr (Err err)])).
Proof.
  intros H.
  unfold ProcessProposal, getTxSimulator, getHistoryQueryExecutor, checkACL in H.
  mrun H; subst;
    try match goal with
        | Hm : ProcessProposal_simulate_and_endorse _ _ _ _ _ _ _ _ _ _ _ _ = _ |- _ =>
            destruct (simulate_events_no_acquisition _ _
                        (simulate_and_endorse_footprint _ _ _ _ _ _ _ _ _ _ _ _ _ _ _ Hm))
              as [Hacq Hrel]
        end;
    rewrite ?count_app; simpl; rewrite ?count_app; simpl;
    try (left; lia);
    (right; split; [reflexivity |]; split; [reflexivity |]);
    with_prefix ltac:(first [ left; eexists; reflexivity
                            | right; do 2 eexists; reflexivity ]).
Qed.

(** C2 fails on the code.  A proposal for "mycc" on the channel "ch1"
    with a new transaction id, on a peer whose history database does not
    answer: the simulator 7 is acquired at line 457, the history query
    executor cannot be had, and [ProcessProposal] returns at line 461 with
    one acquisition and no release in its log. *)
Theorem ProcessProposal_leaks_simulator :
  let s := Sample.no_history in
  exists pResp err evs σ',
    ProcessProposal (Sample.world s) (Sample.endorser s) Sample.ctx Sample.signedProp [] ∅
    = (Ret (Some pResp, Some err), evs, σ')
    /\ Error err = "history database is down"
    /\ In (EvNewTxSimulator 1%nat "tx1" (Ok 7%nat)) evs
    /\ count is_acquisition evs = 1%nat
    /\ count is_release evs = 0%nat.
Proof.
  intros s. do 4 eexists. split; [vm_compute; reflexivity |].
  split; [reflexivity |]. split; [simpl; auto 10 |]. split; reflexivity.
Qed.

(** ** Chainless proposals *)

(** Uses [no_nil_results] on the equations of the context and closes the
    goals in which a nil came back. *)
Ltac no_nil Hwf :=
  destruct Hwf as (Hcis & Hexec & Hcds & Hpkg);
  repeat match goal with
         | H : GetChaincodeInvocationSpec _ _ = Ok _ |- _ =>
             destruct (Hcis _ _ H) as (? & ? & ? & ?); clear H
         | H : ExecuteChaincode _ _ _ _ _ = Ok _ |- _ =>
             destruct (Hexec _ _ _ _ _ _ H) as (? & ?); clear H
         | H : GetChaincodeDeploymentSpec _ _ = Ok _ |- _ =>
             destruct (Hcds _ _ H) as (? & ? & ? & ?); clear H
         | H : GetCCPackage _ _ = Ok _ |- _ =>
             destruct (Hpkg _ _ H) as (? & ?); clear H
         end;
  simplify_eq; same_lhs; try congruence.

Lemma callChaincode_no_panic w ctxt chainID version txid signedProp prop cis cid txsim
    h σ out evs σ' c spec input :
  no_nil_results w ->
  σ !! cid = Some c -> ChaincodeSpec cis = Some spec -> Input spec = Some input ->
  callChaincode w ctxt chainID version txid signedProp prop cis cid txsim h σ
  = (out, evs, σ') ->
  exists a, out = Ret a.
Proof.
  intros Hwf Hc Hspec Hinput H. unfold callChaincode in H.
  mrun H; subst; eauto; exfalso; no_nil Hwf.
Qed.



Lemma set_Payload_same (r : Response) : set_Payload r (Payload r) = r.
Proof. destruct r; reflexivity. Qed.


Lemma simulate_events_no_admission (l : Log) :
  (forall ev, In ev l -> is_simulate_event None ev = true) ->
  count is_admission_or_simulator l = 0%nat.
Proof.
  intros Hall. apply count_zero. intros ev Hin. apply Hall in Hin.
  destruct ev; try discriminate Hin; reflexivity.
Qed.









(** ** A successful invocation *)

(** Brings the logs in the hypotheses to the form [h ++ e1 :: ... ]. *)
Ltac flat_logs :=
  repeat match goal with
         | H : context [(_ ++ _) ++ _] |- _ => rewrite <- app_assoc in H
         | H : context [_ ++ []] |- _ => rewrite app_nil_r in H
         end;
  simpl in *.

Lemma simulate_and_endorse_successful w e ctx chainID txid signedProp prop ptr visibility
    txsim h σ cd res simRes ccevent evs_s σ_s p resp evs_e σ' :
  chainID <> "" ->
  simulateProposal w e ctx chainID txid signedProp prop ptr txsim h σ
  = (Ret (cd, Some res, simRes, ccevent, None), evs_s, σ_s) ->
  Status res < ERRORTHRESHOLD ->
  endorseProposal w ctx chainID txid signedProp prop (Some res) simRes ccevent visibility
    ptr txsim cd (h ++ evs_s) σ_s
  = (Ret (Some p, None), evs_e, σ') ->
  pr_Response p = Some resp ->
  ProcessProposal_simulate_and_endorse w e ctx chainID txid signedProp prop ptr
    visibility txsim h σ
  = (Ret (Some (set_Response p (Some (set_Payload resp (Payload res)))), None),
     evs_s ++ evs_e, σ').
Proof.
  intros Hch Hsim Hstatus Hend Hresp.
  destruct (ProcessProposal_simulate_and_endorse w e ctx chainID txid signedProp prop ptr
              visibility txsim h σ) as [[out evs] σ''] eqn:H.
  unfold ProcessProposal_simulate_and_endorse in H.
  mrun H; subst; same_lhs; simplify_eq; try (exfalso; status_lia);
    string_tests; try contradiction;
    flat_logs; same_lhs; simplify_eq; try (exfalso; status_lia).
  rewrite ?app_nil_r. reflexivity.
Qed.

(** C9. A proposal for an ordinary chaincode on a channel.  Admission
    passes: the channel has a ledger, the transaction id is not on it, the
    creator may propose; a simulator and a history query executor are
    acquired.  Each collaborator is asked with the log as it stands at
    that point.  Then [simulateProposal], run after these events, returns
    a response [res] with a status below [ERRORTHRESHOLD] and a nil error,
    and [endorseProposal], run after the simulation, returns a proposal
    response [p] with a response [resp] and a nil error.  Then
    [ProcessProposal] returns a nil error and [p] with the payload of
    [resp] replaced by the payload of [res], after exactly these events
    followed by the release of the simulator; [res] is the answer of the
    one execution of the chaincode the proposal names.  The status of the
    returned response is the status of [resp]: line 524 assigns the
    payload only. *)
Theorem ProcessProposal_successful_invocation w e ctx signedProp h σ prop hdr hdrExt
    chdr shdr lgr not_found lgr2 txsim lgr3 hqe cd res simRes ccevent evs_s σ_s p resp
    evs_e σ' :
  let name := Name (hx_ChaincodeId hdrExt) in
  let chainID := ChannelId chdr in
  let txid := TxId chdr in
  let acquired :=
    [EvValidateProposalMessage signedProp (Ok (prop, hdr, hdrExt));
     EvGetLedger chainID (Some lgr);
     EvGetTransactionByID lgr txid (Some not_found);
     EvCheckACL chainID signedProp None;
     EvGetLedger chainID (Some lgr2);
     EvNewTxSimulator lgr2 txid (Ok txsim);
     EvGetLedger chainID (Some lgr3);
     EvNewHistoryQueryExecutor lgr3 (Ok hqe)] in
  let ctx' := with_HistoryQueryExecutor ctx hqe in
  let ptr := fresh (dom σ) in
  ValidateProposalMessage w h signedProp = Ok (prop, hdr, hdrExt) ->
  UnmarshalChannelHeader w (ChannelHeader hdr) = Ok chdr ->
  GetSignatureHeader w (SignatureHeader hdr) = Ok shdr ->
  IsSysCCAndNotInvokableExternal w name = false ->
  IsSysCC w name = false ->
  txid <> "" ->
  chainID <> "" ->
  GetLedger w (h ++ take 1 acquired) chainID = Some lgr ->
  GetTransactionByID w (h ++ take 2 acquired) lgr txid = Some not_found ->
  CheckACL w (h ++ take 3 acquired) chainID signedProp = None ->
  GetLedger w (h ++ take 4 acquired) chainID = Some lgr2 ->
  NewTxSimulator w (h ++ take 5 acquired) lgr2 txid = Ok txsim ->
  GetLedger w (h ++ take 6 acquired) chainID = Some lgr3 ->
  NewHistoryQueryExecutor w (h ++ take 7 acquired) lgr3 = Ok hqe ->
  simulateProposal w e ctx' chainID txid signedProp prop ptr (Some txsim)
    (h ++ acquired) (<[ptr := hx_ChaincodeId hdrExt]> σ)
  = (Ret (cd, Some res, simRes, ccevent, None), evs_s, σ_s) ->
  Status res < ERRORTHRESHOLD ->
  endorseProposal w ctx' chainID txid signedProp prop (Some res) simRes ccevent
    (PayloadVisibility hdrExt) ptr (Some txsim) cd (h ++ acquired ++ evs_s) σ_s
  = (Ret (Some p, None), evs_e, σ') ->
  pr_Response p = Some resp ->
  ProcessProposal w e ctx signedProp h σ
  = (Ret (Some (set_Response p (Some (set_Payload resp (Payload res)))), None),
     acquired ++ evs_s ++ evs_e ++ [EvDone txsim], σ')
  /\ exists ctxt' cccid args ev,
      cc_Name cccid = name
      /\ In (EvExecuteChaincode ctxt' cccid args (Ok (Some res, ev))) evs_s
      /\ count is_ExecuteChaincode evs_s = 1%nat.
Proof.
  intros name chainID txid acquired ctx' ptr Hvalid Hchdr Hshdr Hinvokable Hordinary
    Htxid Hchannel Hledger Hnew Hacl Hledger2 Htxsim Hledger3 Hhqe Hsim Hstatus Hend Hresp.
  split; cycle 1.
  { destruct (simulateProposal_returns _ _ _ _ _ _ _ _ _ _ _ _ _ _ _ _ _ _ _ Hsim eq_refl)
      as (r & c & ctxt' & cccid & args & ev & Hr & Hc & Hname & Hin & Hcount & _).
    subst ptr. rewrite lookup_insert_eq in Hc. simplify_eq.
    exists ctxt', cccid, args, ev. auto. }
  rewrite app_assoc in Hend.
  pose proof (simulate_and_endorse_successful _ _ _ _ _ _ _ _ (PayloadVisibility hdrExt)
                _ _ _ _ _ _ _ _ _ _ _ _ _ Hchannel Hsim Hstatus Hend Hresp) as Hrun.
  clear Hsim Hend.
  subst name chainID txid acquired ctx' ptr. simpl in *.
  destruct (ProcessProposal w e ctx signedProp h σ) as [[out evs] σ''] eqn:H.
  unfold ProcessProposal, getTxSimulator, getHistoryQueryExecutor, checkACL in H.
  mrun H; subst; string_tests; try contradiction;
    repeat (progress (flat_logs; same_lhs; simplify_eq)).
  all: try (rewrite Hordinary in *; discriminate).
  rewrite <- app_assoc. reflexivity.
Qed.

Lemma ProcessProposal_successful_invocation_witness :
  let s := Sample.invoke in
  let validated :=
    EvValidateProposalMessage Sample.signedProp
      (Ok (Sample.prop, Sample.hdr,
           {| PayloadVisibility := []; hx_ChaincodeId := Sample.id_of "mycc" |})) in
  let acquired :=
    [validated;
     EvGetLedger "ch1" (Some 1%nat);
     EvGetTransactionByID 1%nat "tx1" (Some (errorString "no such transaction ID"));
     EvCheckACL "ch1" Sample.signedProp None;
     EvGetLedger "ch1" (Some 1%nat);
     EvNewTxSimulator 1%nat "tx1" (Ok 7%nat);
     EvGetLedger "ch1" (Some 1%nat);
     EvNewHistoryQueryExecutor 1%nat (Ok 8%nat)] in
  exists evs_s evs_e σ',
    ProcessProposal (Sample.world s) (Sample.endorser s) Sample.ctx Sample.signedProp [] ∅
    = (Ret (Some (set_Response Sample.endorsed
                    (Some {| Status := 200; Message := "OK";
                             Payload := Payload (Sample.res s) |})), None),
       acquired ++ evs_s ++ evs_e ++ [EvDone 7%nat], σ')
    /\ exists ctxt' cccid args ev,
        cc_Name cccid = "mycc"
        /\ In (EvExecuteChaincode ctxt' cccid args (Ok (Some (Sample.res s), ev))) evs_s
        /\ count is_ExecuteChaincode evs_s = 1%nat.
Proof.
  intros s validated acquired. do 3 eexists.
  eapply (ProcessProposal_successful_invocation (Sample.world s) (Sample.endorser s)
            Sample.ctx Sample.signedProp [] ∅ Sample.prop Sample.hdr
            {| PayloadVisibility := []; hx_ChaincodeId := Sample.id_of "mycc" |}
            {| ChannelId := "ch1"; TxId := "tx1" |}
            {| Creator := b "alice"; Nonce := [] |}
            1%nat (errorString "no such transaction ID") 1%nat 7%nat 1%nat 8%nat
            (Some Sample.cd) (Sample.res s) (b "pub") (Some Sample.event) _ _
            Sample.endorsed {| Status := 200; Message := "OK"; Payload := [] |});
    try reflexivity; try discriminate; vm_compute; reflexivity.
Defined.

(** An invocation of "mycc" on "ch1": the chaincode answers 200, "escc"
    answers 200, and the payload of "escc" unpacks to a proposal response
    whose response has status 500.  [ProcessProposal] returns it with a
    nil error, with the payload of the execution response in it. *)
Lemma ProcessProposal_returns_endorsed_status :
  let s := Sample.invoke in
  let w := Faulty.world Faulty.EndorsedError s in
  exists pResp response evs σ' ctxt cccid args,
    ProcessProposal w (Sample.endorser s) Sample.ctx Sample.signedProp [] ∅
    = (Ret (Some pResp, None), evs, σ')
    /\ IsSysCC w "mycc" = false
    /\ first_execution evs = Some (Ok (Some (Sample.res s), Some Sample.event))
    /\ Status (Sample.res s) = 200
    /\ In (EvExecuteChaincode ctxt cccid args (Ok (Some (Sample.escc_res s), None))) evs
    /\ cc_Name cccid = "escc"
    /\ Status (Sample.escc_res s) = 200
    /\ pr_Response pResp = Some response
    /\ Payload response = Payload (Sample.res s)
    /\ Status response = 500
    /\ ~ Status response < ERRORTHRESHOLD.
Proof.
  intros s w. do 7 eexists.
  split; [vm_compute; reflexivity |].
  split; [reflexivity |]. split; [reflexivity |]. split; [reflexivity |].
  split; [do 14 right; left; reflexivity |].
  repeat (split; [reflexivity |]). discriminate.
Qed.

(** * Further properties of the endorser *)

(** ** Further properties of callChaincode *)

(** X1. An error of the execution engine is what [callChaincode] returns,
    with no response and no event, and it ends the call. *)
Theorem callChaincode_engine_error w ctxt chainID version txid signedProp prop cis cid
    txsim h σ out evs σ' ctxt' cccid args err :
  callChaincode w ctxt chainID version txid signedProp prop cis cid txsim h σ
  = (out, evs, σ') ->
  In (EvExecuteChaincode ctxt' cccid args (Err err)) evs ->
  out = Ret (None, None, Some err)
  /\ evs = [EvExecuteChaincode ctxt' cccid args (Err err)].
Proof.
  intros H Hin. unfold callChaincode in H.
  mrun H; subst; simpl in Hin; destruct_or?; simplify_eq; try contradiction; auto.
Qed.

(** What the engine is asked to run: the chaincode [cid] names, at the
    version and for the channel and transaction given, flagged as a system
    chaincode by the registry, in the caller's context with the simulator
    bound, on the arguments the decorators leave, with their decorations. *)
Lemma callChaincode_invocation w ctxt chainID version txid signedProp prop cis cid
    txsim h σ out evs σ' c ctxt' cccid args r :
  callChaincode w ctxt chainID version txid signedProp prop cis cid txsim h σ
  = (out, evs, σ') ->
  σ !! cid = Some c ->
  In (EvExecuteChaincode ctxt' cccid args r) evs ->
  ctxt' = bound_context ctxt txsim
  /\ exists spec input,
      ChaincodeSpec cis = Some spec /\ Input spec = Some input
      /\ args = Args (Apply w prop (set_Decorations input []))
      /\ cccid = set_ProposalDecorations
                   (NewCCContext chainID (Name c) version txid (IsSysCC w (Name c))
                      signedProp prop)
                   (Decorations (Apply w prop (set_Decorations input []))).
Proof.
  intros H Hc Hin. unfold callChaincode in H.
  mrun H; subst; same_lhs; simpl in Hin; destruct_or?; simplify_eq;
    try contradiction; (split; [reflexivity | eauto 10]).
Qed.

(** Every call of the engine, the second execution of a deployment
    included, is made in the caller's context with the simulator bound. *)
Lemma callChaincode_contexts w ctxt chainID version txid signedProp prop cis cid
    txsim h σ out evs σ' :
  callChaincode w ctxt chainID version txid signedProp prop cis cid txsim h σ
  = (out, evs, σ') ->
  forall ev, In ev evs -> event_context ev = Some (bound_context ctxt txsim).
Proof.
  intros H ev Hin. unfold callChaincode in H.
  mrun H; subst; simpl in Hin; destruct_or?; subst; try contradiction; reflexivity.
Qed.

(** X2. The decorations a client put into the input do not count: line 114
    replaces them by an empty map before the decorators run. *)
Theorem callChaincode_discards_client_decorations w ctxt chainID version txid signedProp
    prop cis cid txsim d h σ :
  callChaincode w ctxt chainID version txid signedProp prop (with_Decorations cis d)
    cid txsim h σ
  = callChaincode w ctxt chainID version txid signedProp prop cis cid txsim h σ.
Proof.
  unfold callChaincode, with_Decorations, bind, load, deref.
  destruct (σ !! cid); [| reflexivity].
  destruct cis as [[[ty id [input |]] |]]; reflexivity.
Qed.

(** ** Further properties of disableJavaCCInst *)

Lemma package_argument_of_switch (cmd : string) (n : nat) :
  (if String.eqb cmd "install" then Some 1%nat
   else if String.eqb cmd "deploy" || String.eqb cmd "upgrade" then Some 2%nat
        else None) = Some n ->
  package_argument cmd n.
Proof.
  unfold package_argument.
  destruct (String.eqb_spec cmd "install"); [intros [= <-]; auto |].
  destruct (String.eqb_spec cmd "deploy"); [intros [= <-]; auto |].
  destruct (String.eqb_spec cmd "upgrade"); [intros [= <-]; auto |].
  discriminate.
Qed.

(** X3. [disableJavaCCInst] objects to nothing but an "install", "deploy" or
    "upgrade" of "lscc", and then for one of three reasons: the argument
    that should hold the package is missing, the package cannot be read,
    or Java is disabled and the package is a Java chaincode. *)
Theorem disableJavaCCInst_objections w cid cis h σ evs σ' c err :
  disableJavaCCInst w cid cis h σ = (Ret (Some err), evs, σ') ->
  σ !! cid = Some c ->
  Name c = "lscc"
  /\ exists spec input argNo,
      ChaincodeSpec cis = Some spec /\ Input spec = Some input
      /\ package_argument (string_of_bytes (nth 0 (Args input) [])) argNo
      /\ ((length (Args input) <= argNo)%nat /\ err = too_few_arguments argNo
          \/ ((argNo < length (Args input))%nat
              /\ (GetCCPackage w (nth argNo (Args input) []) = Err err
                  \/ exists cds dspec,
                      GetCCPackage w (nth argNo (Args input) []) = Ok cds
                      /\ javaEnabled w = false
                      /\ cds_ChaincodeSpec cds = Some dspec
                      /\ Type_ dspec = JAVA
                      /\ err = java_disabled))).
Proof.
  intros H Hc. unfold disableJavaCCInst in H.
  mrun H; subst; same_lhs; simplify_eq; string_tests;
    (split; [assumption |]);
    repeat match goal with
           | H : (_ <=? _)%nat = true |- _ => apply Nat.leb_le in H
           | H : (_ <=? _)%nat = false |- _ => apply Nat.leb_gt in H
           | H : _ = Some ?n |- _ =>
               lazymatch type of n with nat => apply package_argument_of_switch in H end
           end;
    do 3 eexists;
    (split; [reflexivity |]); (split; [eassumption |]); (split; [eassumption |]);
    first [ left; split; [assumption | reflexivity]
          | right; split; [assumption |]; left; assumption
          | right; split; [assumption |]; right; do 2 eexists;
            repeat split; first [eassumption | reflexivity] ].
Qed.

(** X4. With Java disabled, an "install", "deploy" or "upgrade" of a Java
    package is refused by [simulateProposal] before it asks anything of
    the ledger or the engine. *)
Theorem simulateProposal_refuses_java w e ctx chainID txid signedProp prop cid txsim
    h σ c cis spec input argNo cds dspec :
  GetChaincodeInvocationSpec w prop = Ok cis ->
  σ !! cid = Some c -> Name c = "lscc" ->
  ChaincodeSpec cis = Some spec -> Input spec = Some input ->
  package_argument (string_of_bytes (nth 0 (Args input) [])) argNo ->
  (argNo < length (Args input))%nat ->
  GetCCPackage w (nth argNo (Args input) []) = Ok cds ->
  cds_ChaincodeSpec cds = Some dspec -> Type_ dspec = JAVA ->
  javaEnabled w = false ->
  simulateProposal w e ctx chainID txid signedProp prop cid txsim h σ
  = (Ret (simulate_failed java_disabled), [], σ).
Proof.
  intros Hcis Hc Hname Hspec Hinput Harg Hlen Hpkg Hdspec Hjava Hoff.
  assert (Hjavacc : disableJavaCCInst w cid cis h σ = (Ret (Some java_disabled), [], σ)).
  { unfold disableJavaCCInst, bind, load. rewrite Hc, Hname. simpl.
    rewrite Hspec, Hinput.
    assert (Hlt : (length (Args input) <? 1)%nat = false)
      by (apply Nat.ltb_ge; destruct Harg as [[_ ->] | [_ ->]]; lia).
    rewrite Hlt.
    destruct Harg as [[-> ->] | [Hcmd ->]].
    - simpl. apply Nat.leb_gt in Hlen. rewrite Hlen, Hpkg, Hoff.
      unfold deref. rewrite Hdspec. unfold ret. simpl. rewrite Hjava. reflexivity.
    - assert (Hsw : (if String.eqb (string_of_bytes (nth 0 (Args input) [])) "install"
                     then Some 1%nat
                     else if String.eqb (string_of_bytes (nth 0 (Args input) [])) "deploy"
                             || String.eqb (string_of_bytes (nth 0 (Args input) [])) "upgrade"
                          then Some 2%nat else None) = Some 2%nat)
        by (destruct Hcmd as [-> | ->]; reflexivity).
      rewrite Hsw. apply Nat.leb_gt in Hlen. rewrite Hlen, Hpkg, Hoff.
      unfold deref. rewrite Hdspec. unfold ret. simpl. rewrite Hjava. reflexivity. }
  unfold simulateProposal. rewrite Hcis. unfold bind at 1. rewrite Hjavacc.
  reflexivity.
Qed.


(** ** Further properties of simulateProposal *)

(** X5. A chaincode whose definition the ledger does not give is not run:
    [simulateProposal] returns the cause with the advice of line 246 and
    the lookup is all that happened. *)
Theorem simulateProposal_not_instantiated w e ctx chainID txid signedProp prop cid txsim
    h σ out evs σ' ctxt' txid' chainID' name cause :
  simulateProposal w e ctx chainID txid signedProp prop cid txsim h σ = (out, evs, σ') ->
  In (EvGetChaincodeDefinition ctxt' txid' chainID' name (Err cause)) evs ->
  out = Ret (simulate_failed (WithMessage cause (not_instantiated name)))
  /\ evs = [EvGetChaincodeDefinition ctxt' txid' chainID' name (Err cause)]
  /\ σ' = σ.
Proof.
  intros H Hin. unfold simulateProposal, getCDSFromLSCC, checkEsccAndVscc in H.
  mrun H; subst;
    repeat match goal with
           | Hm : disableJavaCCInst _ _ _ _ _ = _ |- _ =>
               apply disableJavaCCInst_footprint in Hm; destruct Hm as [-> ->]
           end;
    simpl in Hin; rewrite ?in_app_iff in Hin; simpl in Hin;
    destruct_or?; simplify_eq; try contradiction;
    try (match goal with
         | Hm : callChaincode _ _ _ _ _ _ _ _ _ _ _ _ = (_, ?l, _), Hi : In _ ?l |- _ =>
             apply (callChaincode_engine_only _ _ _ _ _ _ _ _ _ _ _ _ _ _ _ Hm) in Hi;
             discriminate Hi
         end);
    auto.
Qed.

(** X6. A proposal that violates the instantiation policy is not run either:
    the error of the policy check is returned as it is, after the lookup
    and the check and nothing else. *)
Theorem simulateProposal_policy_violation w e ctx chainID txid signedProp prop cid txsim
    h σ out evs σ' name version cd err :
  simulateProposal w e ctx chainID txid signedProp prop cid txsim h σ = (out, evs, σ') ->
  In (EvCheckInsantiationPolicy name version cd (Some err)) evs ->
  out = Ret (simulate_failed err)
  /\ evs = [EvGetChaincodeDefinition (bound_context ctx txsim) txid chainID name (Ok cd);
            EvCheckInsantiationPolicy name version cd (Some err)]
  /\ version = CCVersion cd
  /\ σ' = σ.
Proof.
  intros H Hin. unfold simulateProposal, getCDSFromLSCC, checkEsccAndVscc in H.
  mrun H; subst;
    repeat match goal with
           | Hm : disableJavaCCInst _ _ _ _ _ = _ |- _ =>
               apply disableJavaCCInst_footprint in Hm; destruct Hm as [-> ->]
           end;
    simpl in Hin; rewrite ?in_app_iff in Hin; simpl in Hin;
    destruct_or?; simplify_eq; try contradiction;
    try (match goal with
         | Hm : callChaincode _ _ _ _ _ _ _ _ _ _ _ _ = (_, ?l, _), Hi : In _ ?l |- _ =>
             apply (callChaincode_engine_only _ _ _ _ _ _ _ _ _ _ _ _ _ _ _ Hm) in Hi;
             discriminate Hi
         end);
    auto.
Qed.

(** The log of [simulateProposal] around the engine: before it nothing
    for a system chaincode, the lookup and the policy check, both passed,
    for any other; after it no further engine call. *)
Lemma simulateProposal_resolution w e ctx chainID txid signedProp prop cid txsim
    h σ out evs σ' c ev :
  simulateProposal w e ctx chainID txid signedProp prop cid txsim h σ = (out, evs, σ') ->
  σ !! cid = Some c ->
  In ev evs -> is_engine ev = true ->
  exists cis cd pre h0 out' l post,
    GetChaincodeInvocationSpec w prop = Ok cis
    /\ callChaincode w ctx chainID (executing_version w cd) txid signedProp prop cis cid
         txsim h0 σ = (out', l, σ)
    /\ evs = pre ++ l ++ post /\ In ev l
    /\ (forall ev', In ev' post -> is_engine ev' = false /\ is_resolution ev' = false)
    /\ if IsSysCC w (Name c)
       then cd = None /\ pre = []
       else exists d, cd = Some d
            /\ pre = [EvGetChaincodeDefinition (bound_context ctx txsim) txid chainID
                        (Name c) (Ok d);
                      EvCheckInsantiationPolicy (Name c) (CCVersion d) d None].
Proof.
  intros H Hc Hin Heng. unfold simulateProposal, getCDSFromLSCC, checkEsccAndVscc in H.
  mrun H; subst;
    repeat match goal with
           | Hm : disableJavaCCInst _ _ _ _ _ = _ |- _ =>
               apply disableJavaCCInst_footprint in Hm; destruct Hm as [-> ->]
           end;
    same_lhs; simplify_eq;
    simpl in Hin; rewrite ?in_app_iff in Hin; simpl in Hin;
    destruct_or?; simplify_eq; try contradiction; try discriminate Heng;
    string_tests;
    match goal with
    | Hm : callChaincode _ _ _ ?v _ _ _ ?cis _ _ ?h0 _ = (?o, ?l, _) |- _ =>
        pose proof (callChaincode_footprint _ _ _ _ _ _ _ _ _ _ _ _ _ _ _ Hm) as (-> & _ & _);
        lazymatch v with
        | CCVersion ?d =>
            eexists cis, (Some d), [_; _], h0, o, l, _
        | _ =>
            eexists cis, None, [], h0, o, l, _
        end
    end;
    match goal with Hs : IsSysCC _ _ = _ |- _ => rewrite Hs end;
    (split; [first [assumption | reflexivity] |]); (split; [simpl; eassumption |]);
    (split; [simpl; rewrite <- ?app_assoc; simpl;
             first [reflexivity | rewrite app_nil_r; reflexivity] |]);
    (split; [assumption |]);
    (split; [intros ev' Hin'; simpl in Hin'; destruct_or?; subst;
             try contradiction; split; reflexivity |]);
    eauto.
Qed.

(** X7. The chaincode the engine runs for [simulateProposal] is the one [cid]
    names, for the channel and the transaction given, in the caller's
    context with the simulator bound.  A system chaincode runs at the
    version of the peer with no lookup; any other runs at the version of
    its definition on the ledger, after the lookup and the policy check. *)
Theorem simulateProposal_runs_resolved_version w e ctx chainID txid signedProp prop cid
    txsim h σ out evs σ' c ctxt' cccid args r :
  simulateProposal w e ctx chainID txid signedProp prop cid txsim h σ = (out, evs, σ') ->
  σ !! cid = Some c ->
  In (EvExecuteChaincode ctxt' cccid args r) evs ->
  ctxt' = bound_context ctx txsim
  /\ ChainID cccid = chainID /\ cc_Name cccid = Name c /\ TxID cccid = txid
  /\ Syscc cccid = IsSysCC w (Name c)
  /\ if IsSysCC w (Name c)
     then cc_Version cccid = GetSysCCVersion w /\ count is_resolution evs = 0%nat
     else exists d post,
         evs = EvGetChaincodeDefinition (bound_context ctx txsim) txid chainID (Name c)
                 (Ok d)
               :: EvCheckInsantiationPolicy (Name c) (CCVersion d) d None :: post
         /\ cc_Version cccid = CCVersion d.
Proof.
  intros H Hc Hin.
  destruct (simulateProposal_resolution _ _ _ _ _ _ _ _ _ _ _ _ _ _ _ _ H Hc Hin eq_refl)
    as (cis & cd & pre & h0 & out' & l & post & _ & Hcall & -> & Hl & Hpost & Hres).
  destruct (callChaincode_invocation _ _ _ _ _ _ _ _ _ _ _ _ _ _ _ _ _ _ _ _ Hcall Hc Hl)
    as (-> & spec & input & _ & _ & _ & ->).
  pose proof (callChaincode_engine_only _ _ _ _ _ _ _ _ _ _ _ _ _ _ _ Hcall) as Hengine.
  do 5 (split; [reflexivity |]).
  destruct (IsSysCC w (Name c)).
  - destruct Hres as [-> ->]. split; [reflexivity |].
    apply count_zero. intros ev Hev. simpl in Hev. apply in_app_iff in Hev.
    destruct Hev as [Hev | Hev]; [| apply Hpost, Hev].
    apply Hengine in Hev. destruct ev; try discriminate Hev; reflexivity.
  - destruct Hres as (d & -> & ->). exists d, (l ++ post). split; reflexivity.
Qed.

(** X8. Without a simulator there are no simulation results: the bytes
    returned are empty and the log holds the resolution and the engine
    only. *)
Theorem simulateProposal_without_simulator w e ctx chainID txid signedProp prop cid
    h σ out evs σ' cdLedger res simRes ccevent err :
  simulateProposal w e ctx chainID txid signedProp prop cid None h σ = (out, evs, σ') ->
  out = Ret (cdLedger, res, simRes, ccevent, err) ->
  simRes = []
  /\ forall ev, In ev evs -> is_resolution ev || is_engine ev = true.
Proof.
  intros H ->. split.
  - unfold simulateProposal, getCDSFromLSCC, checkEsccAndVscc in H.
    mrun H; subst; simplify_eq; reflexivity.
  - intros ev Hin.
    apply simulateProposal_footprint in H. destruct H as [_ H].
    apply H in Hin. destruct ev; try discriminate Hin; reflexivity.
Qed.

(** X9. With a simulator, the bytes of a successful simulation are the public
    bytes of the results the simulator holds once the chaincode has run:
    the results are asked for after every engine call, the private part,
    if there is one, is handed to the distributor, and the bytes are
    computed last. *)
Theorem simulateProposal_public_bytes w e ctx chainID txid signedProp prop cid sim
    h σ evs σ' cdLedger res simRes ccevent :
  simulateProposal w e ctx chainID txid signedProp prop cid (Some sim) h σ
  = (Ret (cdLedger, res, simRes, ccevent, None), evs, σ') ->
  exists pre simResult,
    evs = pre ++ [EvGetTxSimulationResults sim (Ok simResult)]
              ++ match PvtSimulationResults simResult with
                 | Some pvt => [EvDistributePrivateData chainID txid pvt None]
                 | None => []
                 end
              ++ [EvGetPubSimulationBytes simResult (Ok simRes)]
    /\ GetPubSimulationBytes w simResult = Ok simRes
    /\ count is_ExecuteChaincode pre = 1%nat
    /\ forall ev, In ev pre -> is_resolution ev || is_engine ev = true.
Proof.
  intros H. unfold simulateProposal, getCDSFromLSCC, checkEsccAndVscc in H.
  mrun H; subst; simplify_eq;
    repeat match goal with
           | Hm : disableJavaCCInst _ _ _ _ _ = _ |- _ =>
               apply disableJavaCCInst_footprint in Hm; destruct Hm as [-> ->]
           end;
    match goal with
    | Hm : callChaincode _ _ _ _ _ _ _ _ _ _ _ _ = (_, ?l, _) |- _ =>
        pose proof (callChaincode_engine_only _ _ _ _ _ _ _ _ _ _ _ _ _ _ _ Hm) as Hengine;
        apply (fun H => callChaincode_returns _ _ _ _ _ _ _ _ _ _ _ _ _ _ _ _ _ _ H
                          eq_refl) in Hm;
        destruct Hm as (? & ? & ? & ? & ? & ? & _ & _ & _ & _ & Hcount & _);
        first [ exists l; eexists;
                match goal with Hp : PvtSimulationResults _ = _ |- _ => rewrite Hp end;
                split; [simpl; rewrite <- ?app_assoc; reflexivity |]
              | eexists (_ :: _ :: l); eexists;
                match goal with Hp : PvtSimulationResults _ = _ |- _ => rewrite Hp end;
                split; [simpl; rewrite <- ?app_assoc; reflexivity |] ]
    end;
    (split; [assumption |]);
    (split; [simpl; assumption |]);
    intros ev Hin; simpl in Hin; destruct_or?; subst; try reflexivity;
    apply Hengine in Hin; rewrite Hin; apply orb_true_r.
Qed.

(** ** Further properties of endorseProposal *)

(** X10. What the endorsement system chaincode is asked: the chaincode selected
    by the definition ("escc" without one), at the version of the peer, in
    the caller's context with the simulator bound, on the eight arguments
    of line 356, of which the fourth is the caller's chaincode id with the
    version written into it. *)
Theorem endorseProposal_authority_call w ctx chainID txid signedProp proposal response
    simRes event visibility ccid txsim cd h σ out evs σ' c ctxt' cccid args r :
  endorseProposal w ctx chainID txid signedProp proposal response simRes event
    visibility ccid txsim cd h σ = (out, evs, σ') ->
  σ !! ccid = Some c ->
  In (EvExecuteChaincode ctxt' cccid args r) evs ->
  exists eventBytes resBytes ccidBytes,
    match event with
    | Some ev => GetBytesChaincodeEvent w ev
    | None => Ok []
    end = Ok eventBytes
    /\ GetBytesResponse w response = Ok resBytes
    /\ Marshal w (set_Version c (executing_version w cd)) = Ok ccidBytes
    /\ let input := Apply w proposal
                      (escc_input proposal ccidBytes resBytes simRes eventBytes
                         visibility) in
       args = Args input
       /\ cccid = set_ProposalDecorations
                    (NewCCContext chainID (selected_escc cd) (GetSysCCVersion w) txid
                       (IsSysCC w (selected_escc cd)) signedProp proposal)
                    (Decorations input)
       /\ ctxt' = bound_context ctx txsim.
Proof.
  intros H Hc Hin. unfold endorseProposal in H.
  mrun H; subst; same_lhs; simplify_eq;
    simpl in Hin; rewrite ?in_app_iff in Hin; simpl in Hin;
    destruct_or?; simplify_eq; try contradiction;
    match goal with
    | Hm : callChaincode _ _ _ _ _ _ _ _ _ _ _ _ = _ |- _ =>
        eapply callChaincode_invocation in Hm;
        [| apply lookup_insert_eq | eassumption];
        destruct Hm as (-> & spec & input & Hspec & Hinput & -> & ->)
    end;
    simpl in Hspec; simplify_eq; simpl in Hinput; simplify_eq;
    do 3 eexists;
    (split; [first [eassumption | reflexivity] |]);
    (split; [first [eassumption | reflexivity] |]);
    (split; [simpl; eassumption |]);
    (split; [reflexivity | split; reflexivity]).
Qed.

(** X11. With collaborators that hand over no nil, [endorseProposal] panics in
    one case only: the chaincode definition names no endorsement system
    chaincode.  It does so at once, before anything is marshalled, written
    or executed. *)
Theorem endorseProposal_panics_without_escc w ctx chainID txid signedProp proposal
    response simRes event visibility ccid txsim cd h σ out evs σ' c :
  no_nil_results w ->
  σ !! ccid = Some c ->
  endorseProposal w ctx chainID txid signedProp proposal response simRes event
    visibility ccid txsim cd h σ = (out, evs, σ') ->
  ((exists msg, out = Panic msg) <-> (exists d, cd = Some d /\ cd_Endorsement d = ""))
  /\ ((exists msg, out = Panic msg) ->
      out = Panic "No ESCC specified in ChaincodeData" /\ evs = [] /\ σ' = σ).
Proof.
  intros Hwf Hc H. unfold endorseProposal in H.
  mrun H; subst; same_lhs; simplify_eq; string_tests;
    try (match goal with
         | Hm : callChaincode _ _ _ _ _ _ _ _ _ _ _ _ = (Panic _, _, _) |- _ =>
             exfalso;
             eapply callChaincode_no_panic in Hm;
             [destruct Hm; discriminate | exact Hwf | apply lookup_insert_eq
              | reflexivity | reflexivity]
         | Hm : callChaincode _ _ _ _ _ _ _ _ _ _ _ _ = (Ret (None, _, None), _, _) |- _ =>
             exfalso;
             apply (fun H => callChaincode_returns _ _ _ _ _ _ _ _ _ _ _ _ _ _ _ _ _ _ H
                               eq_refl) in Hm;
             destruct Hm as (? & ? & ? & ? & ? & ? & ? & _); discriminate
         end);
    (split; [split |]);
    try (intros (msg & ?); discriminate);
    try (intros (d & ? & ?); simplify_eq; congruence);
    eauto.
Qed.

(** ** Further properties of ProcessProposal *)

(** X12. A proposal that fails validation, whose channel header or signature
    header cannot be read, or that carries an empty transaction id is
    answered with status 500 and the error found; the validation is the
    only collaborator called. *)
Theorem ProcessProposal_header_fault w e ctx signedProp h σ err :
  header_fault w h signedProp err ->
  exists σ',
    ProcessProposal w e ctx signedProp h σ
    = (Ret (failure500 err),
       [EvValidateProposalMessage signedProp (ValidateProposalMessage w h signedProp)],
       σ').
Proof.
  unfold ProcessProposal, bind, call, alloc, load, ret.
  intros [Hv | (prop & hdr & hdrExt & Hv & [Hc | (chdr & Hc & [Hs | (shdr & Hs & Hn & Ht & ->)])])];
    rewrite Hv; simpl; rewrite ?Hc; simpl; rewrite ?Hs; simpl;
    rewrite ?lookup_insert_eq; simpl; rewrite ?Hn, ?Ht; simpl; eauto.
Qed.

(** X13. A denied access ends the request: the answer is status 500 with the
    error of the check, and the log holds the validation, the ledger, the
    duplicate check and the denial.  No simulator was acquired and nothing
    was looked up or executed. *)
Theorem ProcessProposal_access_denied w e ctx signedProp h σ out evs σ' chainID sp err :
  ProcessProposal w e ctx signedProp h σ = (out, evs, σ') ->
  In (EvCheckACL chainID sp (Some err)) evs ->
  out = Ret (failure500 err)
  /\ sp = signedProp
  /\ exists v lgr txid found,
      evs = [EvValidateProposalMessage signedProp v;
             EvGetLedger chainID (Some lgr);
             EvGetTransactionByID lgr txid (Some found);
             EvCheckACL chainID signedProp (Some err)].
Proof.
  intros H Hin.
  unfold ProcessProposal, getTxSimulator, getHistoryQueryExecutor, checkACL in H.
  mrun H; subst;
    try match goal with
        | Hm : ProcessProposal_simulate_and_endorse _ _ _ _ _ _ _ _ _ _ _ _ = _ |- _ =>
            pose proof (simulate_and_endorse_footprint _ _ _ _ _ _ _ _ _ _ _ _ _ _ _ Hm)
              as Hfoot; clear Hm
        end;
    simpl in Hin; rewrite ?in_app_iff in Hin; simpl in Hin;
    destruct_or?; simplify_eq; try contradiction;
    try (match goal with
         | Hi : In _ _ |- _ => apply Hfoot in Hi; discriminate Hi
         end);
    (split; [reflexivity |]); (split; [reflexivity |]);
    do 4 eexists; reflexivity.
Qed.

(** X14. On a channel nothing is looked up or executed before admission: the
    log starts with the validation, the ledger and a duplicate check that
    found the transaction id new, and, unless the chaincode is a system
    chaincode, an access check that passed. *)
Theorem ProcessProposal_admission_precedes_execution w e ctx signedProp h σ out evs σ'
    prop hdr hdrExt chdr ev :
  ProcessProposal w e ctx signedProp h σ = (out, evs, σ') ->
  ValidateProposalMessage w h signedProp = Ok (prop, hdr, hdrExt) ->
  UnmarshalChannelHeader w (ChannelHeader hdr) = Ok chdr ->
  ChannelId chdr <> "" ->
  In ev evs -> is_resolution ev || is_engine ev = true ->
  exists lgr found rest,
    evs = EvValidateProposalMessage signedProp (Ok (prop, hdr, hdrExt))
          :: EvGetLedger (ChannelId chdr) (Some lgr)
          :: EvGetTransactionByID lgr (TxId chdr) (Some found)
          :: rest
    /\ (IsSysCC w (Name (hx_ChaincodeId hdrExt)) = false ->
        exists rest', rest = EvCheckACL (ChannelId chdr) signedProp None :: rest').
Proof.
  intros H Hv Hc Hch Hin Hkind.
  unfold ProcessProposal, getTxSimulator, getHistoryQueryExecutor, checkACL in H.
  mrun H; subst; same_lhs; simplify_eq; string_tests; try congruence;
    simpl in Hin; rewrite ?in_app_iff in Hin; simpl in Hin;
    destruct_or?; simplify_eq; try contradiction; try discriminate Hkind;
    do 3 eexists; (split; [reflexivity |]);
    intros Hsys; try congruence; eexists; reflexivity.
Qed.

(** X15. Once the history query executor is acquired, the simulator is released
    exactly once and as the very last thing, whether simulation and
    endorsement return or panic. *)
Theorem ProcessProposal_releases_last w e ctx signedProp h σ out evs σ' lgr q :
  ProcessProposal w e ctx signedProp h σ = (out, evs, σ') ->
  In (EvNewHistoryQueryExecutor lgr (Ok q)) evs ->
  exists pre sim lgr' txid,
    evs = pre ++ [EvDone sim]
    /\ In (EvNewTxSimulator lgr' txid (Ok sim)) pre
    /\ count is_acquisition pre = 1%nat
    /\ count is_release pre = 0%nat.
Proof.
  intros H Hin.
  unfold ProcessProposal, getTxSimulator, getHistoryQueryExecutor, checkACL in H.
  mrun H; subst;
    try match goal with
        | Hm : ProcessProposal_simulate_and_endorse _ _ _ _ _ _ _ _ _ _ _ _ = _ |- _ =>
            pose proof (simulate_and_endorse_footprint _ _ _ _ _ _ _ _ _ _ _ _ _ _ _ Hm)
              as Hfoot;
            destruct (simulate_events_no_acquisition _ _ Hfoot) as [Hacq Hrel]; clear Hm
        end;
    simpl in Hin; rewrite ?in_app_iff in Hin; simpl in Hin;
    destruct_or?; simplify_eq; try contradiction;
    try (match goal with
         | Hi : In _ _ |- _ => apply Hfoot in Hi; discriminate Hi
         end);
    simpl;
    match goal with
    | |- exists pre sim lgr' txid, ?L = _ /\ _ =>
        match L with
        | context C [?l ++ [EvDone ?s]] =>
            let pre := context C [l] in
            exists pre, s; do 2 eexists;
            (split; [reflexivity |]);
            (split; [simpl; eauto 20 |]);
            simpl; rewrite Hacq, Hrel; split; reflexivity
        end
    end.
Qed.

(** ** Contexts *)

Lemma simulateProposal_contexts w e ctx chainID txid signedProp prop cid txsim
    h σ out evs σ' :
  simulateProposal w e ctx chainID txid signedProp prop cid txsim h σ = (out, evs, σ') ->
  forall ev ctxt', In ev evs -> event_context ev = Some ctxt' ->
                   ctxt' = bound_context ctx txsim.
Proof.
  intros H ev ctxt' Hin Hctx.
  unfold simulateProposal, getCDSFromLSCC, checkEsccAndVscc in H.
  mrun H; subst;
    repeat match goal with
           | Hm : disableJavaCCInst _ _ _ _ _ = _ |- _ =>
               apply disableJavaCCInst_footprint in Hm; destruct Hm as [-> ->]
           | Hm : callChaincode _ _ _ _ _ _ _ _ _ _ _ _ = _ |- _ =>
               pose proof (callChaincode_contexts _ _ _ _ _ _ _ _ _ _ _ _ _ _ _ Hm);
               clear Hm
           end;
    simpl in Hin; rewrite ?in_app_iff in Hin; simpl in Hin;
    destruct_or?; subst; try contradiction; simpl in Hctx; simplify_eq;
    try reflexivity;
    match goal with
    | Hc : forall ev, In ev _ -> event_context ev = _, Hi : In _ _ |- _ =>
        apply Hc in Hi; congruence
    end.
Qed.

Lemma endorseProposal_contexts w ctx chainID txid signedProp proposal response simRes
    event visibility ccid txsim cd h σ out evs σ' :
  endorseProposal w ctx chainID txid signedProp proposal response simRes event
    visibility ccid txsim cd h σ = (out, evs, σ') ->
  forall ev, In ev evs -> event_context ev = Some (bound_context ctx txsim).
Proof.
  intros H. unfold endorseProposal in H.
  mrun H; subst;
    repeat match goal with
           | Hm : callChaincode _ _ _ _ _ _ _ _ _ _ _ _ = _ |- _ =>
               pose proof (callChaincode_contexts _ _ _ _ _ _ _ _ _ _ _ _ _ _ _ Hm);
               clear Hm
           end;
    intros ev Hin; simpl in Hin; rewrite ?in_app_iff in Hin; simpl in Hin;
    destruct_or?; subst; try contradiction; auto.
Qed.

Lemma simulate_and_endorse_contexts w e ctx chainID txid signedProp prop ptr visibility
    txsim h σ out evs σ' :
  ProcessProposal_simulate_and_endorse w e ctx chainID txid signedProp prop ptr
    visibility txsim h σ = (out, evs, σ') ->
  forall ev ctxt', In ev evs -> event_context ev = Some ctxt' ->
                   ctxt' = bound_context ctx txsim.
Proof.
  intros H ev ctxt' Hin Hctx. unfold ProcessProposal_simulate_and_endorse in H.
  mrun H; subst;
    repeat match goal with
           | Hm : simulateProposal _ _ _ _ _ _ _ _ _ _ _ = _ |- _ =>
               pose proof (simulateProposal_contexts _ _ _ _ _ _ _ _ _ _ _ _ _ _ Hm);
               clear Hm
           | Hm : endorseProposal _ _ _ _ _ _ _ _ _ _ _ _ _ _ _ = _ |- _ =>
               pose proof (endorseProposal_contexts
                             _ _ _ _ _ _ _ _ _ _ _ _ _ _ _ _ _ _ Hm);
               clear Hm
           end;
    simpl in Hin; rewrite ?in_app_iff in Hin; simpl in Hin;
    destruct_or?; subst; try contradiction;
    match goal with
    | Hc : forall ev ctxt', In ev ?l -> _, Hi : In _ ?l |- _ => eapply Hc; eassumption
    | Hc : forall ev, In ev ?l -> _, Hi : In _ ?l |- _ => apply Hc in Hi; congruence
    end.
Qed.

(** X16. On a channel every definition lookup and every engine call of a
    request, the endorsement included, is made in the caller's context
    with the history query executor and the simulator the request
    acquired; for a chainless proposal, in the caller's context as it
    is. *)
Theorem ProcessProposal_engine_contexts w e ctx signedProp h σ out evs σ' ev ctxt' :
  ProcessProposal w e ctx signedProp h σ = (out, evs, σ') ->
  In ev evs -> event_context ev = Some ctxt' ->
  (exists lgr lgr' txid sim q,
      In (EvNewTxSimulator lgr txid (Ok sim)) evs
      /\ In (EvNewHistoryQueryExecutor lgr' (Ok q)) evs
      /\ ctxt' = with_TXSimulator (with_HistoryQueryExecutor ctx q) sim)
  \/ (count is_admission_or_simulator evs = 0%nat /\ ctxt' = ctx).
Proof.
  intros H Hin Hctx.
  unfold ProcessProposal, getTxSimulator, getHistoryQueryExecutor, checkACL in H.
  mrun H; subst;
    try match goal with
        | Hm : ProcessProposal_simulate_and_endorse _ _ _ _ _ _ _ _ _ _ _ _ = _ |- _ =>
            pose proof (simulate_and_endorse_footprint _ _ _ _ _ _ _ _ _ _ _ _ _ _ _ Hm)
              as Hfoot;
            pose proof (simulate_and_endorse_contexts _ _ _ _ _ _ _ _ _ _ _ _ _ _ _ Hm)
              as Hcontexts;
            clear Hm
        end;
    simpl in Hin; rewrite ?in_app_iff in Hin; simpl in Hin;
    destruct_or?; subst; try contradiction; simpl in Hctx; try discriminate Hctx;
    match goal with
    | Hi : In _ _ |- _ => apply (Hcontexts _ _ Hi) in Hctx; subst
    end;
    first [ right; split; [| reflexivity];
            simpl; rewrite (simulate_events_no_admission _ Hfoot); reflexivity
          | left; do 5 eexists; simpl;
            split; [| split; [| reflexivity]]; eauto 20 ].
Qed.

(** ** Answers *)

Lemma first_execution_app (l1 l2 : Log) :
  first_execution (l1 ++ l2)
  = match first_execution l1 with
    | Some r => Some r
    | None => first_execution l2
    end.
Proof.
  induction l1 as [| ev l1 IH]; simpl; [reflexivity |].
  destruct ev; auto.
Qed.

Lemma first_execution_none (l : Log) :
  count is_ExecuteChaincode l = 0%nat -> first_execution l = None.
Proof.
  induction l as [| ev l IH]; simpl; [reflexivity |].
  destruct ev; simpl; auto; discriminate.
Qed.

Lemma callChaincode_first_execution w ctxt chainID version txid signedProp prop cis cid
    txsim h σ evs σ' res ccevent :
  callChaincode w ctxt chainID version txid signedProp prop cis cid txsim h σ
  = (Ret (res, ccevent, None), evs, σ') ->
  exists ev, first_execution evs = Some (Ok (res, ev)).
Proof.
  intros H. unfold callChaincode in H.
  mrun H; subst; simplify_eq; simpl; eauto.
Qed.

Lemma simulateProposal_first_execution w e ctx chainID txid signedProp prop cid txsim
    h σ evs σ' cdLedger res simRes ccevent :
  simulateProposal w e ctx chainID txid signedProp prop cid txsim h σ
  = (Ret (cdLedger, res, simRes, ccevent, None), evs, σ') ->
  exists ev, first_execution evs = Some (Ok (res, ev)).
Proof.
  intros H. unfold simulateProposal, getCDSFromLSCC, checkEsccAndVscc in H.
  mrun H; subst; simplify_eq;
    repeat match goal with
           | Hm : disableJavaCCInst _ _ _ _ _ = _ |- _ =>
               apply disableJavaCCInst_footprint in Hm; destruct Hm as [-> ->]
           end;
    match goal with
    | Hm : callChaincode _ _ _ _ _ _ _ _ _ _ _ _ = _ |- _ =>
        apply callChaincode_first_execution in Hm; destruct Hm as [ev Hm];
        exists ev; simpl; rewrite ?first_execution_app, Hm; reflexivity
    end.
Qed.

(** What a successful endorsement returns: the authority was executed
    once; if it answered with a status of [ERRORTHRESHOLD] or more, its
    answer in a response of its own, else the response unpacked from the
    payload of its answer. *)
Lemma endorseProposal_result w ctx chainID txid signedProp proposal response simRes
    event visibility ccid txsim cd h σ evs σ' p :
  endorseProposal w ctx chainID txid signedProp proposal response simRes event
    visibility ccid txsim cd h σ = (Ret (Some p, None), evs, σ') ->
  count is_ExecuteChaincode evs = 1%nat
  /\ exists ctxt cccid args r ev,
      In (EvExecuteChaincode ctxt cccid args (Ok (Some r, ev))) evs
      /\ if Status r >=? ERRORTHRESHOLD then p = ProposalResponse_of (Some r)
         else GetProposalResponse w (Payload r) = Ok p.
Proof.
  intros H. unfold endorseProposal in H.
  mrun H; subst; simplify_eq;
    match goal with
    | Hm : callChaincode _ _ _ _ _ _ _ _ _ _ _ _ = _ |- _ =>
        apply (fun H => callChaincode_returns _ _ _ _ _ _ _ _ _ _ _ _ _ _ _ _ _ _ H
                          eq_refl) in Hm;
        destruct Hm as (r & ? & ctxt' & cccid & args & ev & Hr & _ & _ & Hin & Hcount & _)
    end;
    symmetry in Hr; simplify_eq; simpl; rewrite ?app_nil_r;
    (split; [assumption |]);
    do 5 eexists; (split; [eassumption |]);
    match goal with
    | Hs : (Status _ >=? ERRORTHRESHOLD) = _ |- _ => rewrite Hs
    end;
    first [reflexivity | assumption].
Qed.

Lemma simulateProposal_executes_once w e ctx chainID txid signedProp prop cid txsim
    h σ out evs σ' :
  simulateProposal w e ctx chainID txid signedProp prop cid txsim h σ = (out, evs, σ') ->
  (count is_ExecuteChaincode evs <= 1)%nat.
Proof.
  intros H. unfold simulateProposal, getCDSFromLSCC, checkEsccAndVscc in H.
  mrun H; subst;
    repeat match goal with
           | Hm : disableJavaCCInst _ _ _ _ _ = _ |- _ =>
               apply disableJavaCCInst_footprint in Hm; destruct Hm as [-> ->]
           | Hm : callChaincode _ _ _ _ _ _ _ _ _ _ _ _ = _ |- _ =>
               apply callChaincode_footprint in Hm; destruct Hm as (_ & _ & Hm)
           end;
    rewrite ?count_app; simpl; rewrite ?count_app; simpl; lia.
Qed.

(** What simulation and endorsement return, by the answer [r] of the
    chaincode invoked: a failure of status 500 with the error of a
    collaborator; for a status of [ERROR] or more the response of
    [CreateProposalResponseFailure], built on no event, with a chaincode
    error and no endorsement; for a chainless proposal the answer itself;
    else the result [p] of the endorsement, with a chaincode error from
    [ERRORTHRESHOLD] on and with the payload of [r] below it. *)
Lemma simulate_and_endorse_answers w e ctx chainID txid signedProp prop ptr visibility
    txsim h σ evs σ' pResp err c :
  ProcessProposal_simulate_and_endorse w e ctx chainID txid signedProp prop ptr
    visibility txsim h σ = (Ret (pResp, err), evs, σ') ->
  σ !! ptr = Some c ->
  (exists e0,
      (pResp, err) = failure500 e0
      /\ ((count is_ExecuteChaincode evs <= 1)%nat
          \/ exists r ev,
              first_execution evs = Some (Ok (Some r, ev))
              /\ Status r < ERROR /\ chainID <> ""))
  \/ exists r ev,
      first_execution evs = Some (Ok (Some r, ev))
      /\ ((Status r >= ERROR
           /\ count is_ExecuteChaincode evs = 1%nat
           /\ err = Some (chaincodeError (Status r) (Message r))
           /\ exists p simRes,
               CreateProposalResponseFailure w (Header prop) (prop_Payload prop) r
                 simRes [] c visibility = Ok p
               /\ pResp = Some p)
          \/ (Status r < ERROR /\ chainID = ""
              /\ count is_ExecuteChaincode evs = 1%nat
              /\ err = None /\ pResp = Some (ProposalResponse_of (Some r)))
          \/ (Status r < ERROR /\ chainID <> ""
              /\ count is_ExecuteChaincode evs = 2%nat
              /\ exists p ctxt2 cccid2 args2 r2 ev2,
                  In (EvExecuteChaincode ctxt2 cccid2 args2 (Ok (Some r2, ev2))) evs
                  /\ (if Status r2 >=? ERRORTHRESHOLD
                      then p = ProposalResponse_of (Some r2)
                      else GetProposalResponse w (Payload r2) = Ok p)
                  /\ if Status r >=? ERRORTHRESHOLD
                     then pResp = Some p
                          /\ err = Some (chaincodeError (Status r) (Message r))
                     else err = None
                          /\ exists resp,
                              pr_Response p = Some resp
                              /\ pResp = Some (set_Response p
                                                 (Some (set_Payload resp (Payload r)))))).
Proof.
  intros H Hc. unfold ProcessProposal_simulate_and_endorse in H.
  mrun H; subst; simplify_eq; same_lhs; simplify_eq;
    match goal with
    | Hm : simulateProposal _ _ _ _ _ _ _ _ _ _ _ = _ |- _ =>
        pose proof (simulateProposal_executes_once _ _ _ _ _ _ _ _ _ _ _ _ _ _ Hm)
          as Honce;
        pose proof (simulateProposal_footprint _ _ _ _ _ _ _ _ _ _ _ _ _ _ Hm) as [-> _];
        first [ pose proof (simulateProposal_first_execution
                              _ _ _ _ _ _ _ _ _ _ _ _ _ _ _ _ _ Hm) as [ev0 Hfirst];
                apply (fun H => simulateProposal_returns _ _ _ _ _ _ _ _ _ _ _ _ _ _ _ _ _
                                  _ _ H eq_refl) in Hm;
                destruct Hm as (r0 & ? & ? & ? & ? & ? & Hres & _ & _ & _ & Hcount & Hev);
                symmetry in Hres; simplify_eq; same_lhs; simplify_eq;
                try (rewrite Hev in * by status_lia; simplify_eq)
              | clear Hm ]
    end;
    string_tests;
    try (left; eexists; split; [reflexivity |];
         first [ left; rewrite ?count_app; simpl; lia
               | right; do 2 eexists;
                 split; [rewrite ?first_execution_app, Hfirst; reflexivity |];
                 split; [status_lia | assumption] ]);
    right; do 2 eexists;
    (split; [rewrite ?first_execution_app, Hfirst; reflexivity |]).
  - left. split; [status_lia |]. rewrite app_nil_r.
    split; [assumption |]. split; [reflexivity |]. eauto.
  - right. left. split; [status_lia |]. split; [assumption |].
    rewrite ?count_app; simpl. split; [lia |]. split; [reflexivity |].
    match goal with Hr : pr_Response _ = Some _ |- _ => simpl in Hr; simplify_eq end.
    unfold set_Response, ProposalResponse_of; simpl.
    rewrite set_Payload_same. reflexivity.
  - right. right. split; [status_lia |]. split; [assumption |].
    match goal with
    | Hm : endorseProposal _ _ _ _ _ _ _ _ _ _ _ _ _ _ _ = _ |- _ =>
        apply endorseProposal_result in Hm;
        destruct Hm as (Hcount2 & ctxt2 & cccid2 & args2 & r2 & ev2 & Hin2 & Hp)
    end.
    rewrite ?count_app; simpl. split; [lia |].
    do 6 eexists. split; [rewrite ?app_nil_r, in_app_iff; right; eassumption |].
    split; [exact Hp |].
    match goal with Hs : (Status _ >=? ERRORTHRESHOLD) = true |- _ => rewrite Hs end.
    split; reflexivity.
  - right. right. split; [status_lia |]. split; [assumption |].
    match goal with
    | Hm : endorseProposal _ _ _ _ _ _ _ _ _ _ _ _ _ _ _ = _ |- _ =>
        apply endorseProposal_result in Hm;
        destruct Hm as (Hcount2 & ctxt2 & cccid2 & args2 & r2 & ev2 & Hin2 & Hp)
    end.
    rewrite ?count_app; simpl. split; [lia |].
    do 6 eexists. split; [rewrite ?app_nil_r, in_app_iff; right; eassumption |].
    split; [exact Hp |].
    match goal with Hs : (Status _ >=? ERRORTHRESHOLD) = false |- _ => rewrite Hs end.
    split; [reflexivity |]. eauto.
Qed.

(** A run of [ProcessProposal] that executes anything is made of events
    of admission and acquisition, a run of simulation and endorsement on
    the header extension's chaincode id, and at most the release. *)
Lemma ProcessProposal_stages w e ctx signedProp h σ out evs σ' :
  ProcessProposal w e ctx signedProp h σ = (out, evs, σ') ->
  first_execution evs <> None \/ (exists pResp, out = Ret (pResp, None)) ->
  exists prop hdr hdrExt chdr ctx' txsim ptr h1 σ1 pre evs1 post,
    ValidateProposalMessage w h signedProp = Ok (prop, hdr, hdrExt)
    /\ UnmarshalChannelHeader w (ChannelHeader hdr) = Ok chdr
    /\ σ1 !! ptr = Some (hx_ChaincodeId hdrExt)
    /\ ProcessProposal_simulate_and_endorse w e ctx' (ChannelId chdr) (TxId chdr)
         signedProp prop ptr (PayloadVisibility hdrExt) txsim h1 σ1 = (out, evs1, σ')
    /\ evs = pre ++ evs1 ++ post
    /\ count is_ExecuteChaincode pre = 0%nat
    /\ count is_ExecuteChaincode post = 0%nat.
Proof.
  intros H Hfirst.
  unfold ProcessProposal, getTxSimulator, getHistoryQueryExecutor, checkACL in H.
  mrun H; subst;
    try (exfalso; destruct Hfirst as [Hfirst | [? [=]]]; apply Hfirst; reflexivity);
    match goal with
    | Hm : ProcessProposal_simulate_and_endorse _ _ _ _ _ _ _ _ _ _ _ _ = (_, ?l, _)
      |- _ =>
        do 10 eexists; exists l; eexists;
        (split; [reflexivity |]); (split; [eassumption |]);
        (split; [apply lookup_insert_eq |]);
        (split; [exact Hm |]);
        (split;
         [ simpl;
           match goal with
           | |- ?L = _ =>
               match L with
               | context C [l ++ ?p] =>
                   let pre := context C [@nil Event] in
                   transitivity (pre ++ l ++ p); reflexivity
               | context C [l] =>
                   let pre := context C [@nil Event] in
                   transitivity (pre ++ l ++ []);
                   [simpl; rewrite app_nil_r; reflexivity | reflexivity]
               end
           end |]);
        split; reflexivity
    end.
Qed.

Lemma first_execution_stages (pre evs1 post : Log) :
  count is_ExecuteChaincode pre = 0%nat ->
  count is_ExecuteChaincode post = 0%nat ->
  first_execution (pre ++ evs1 ++ post) = first_execution evs1
  /\ count is_ExecuteChaincode (pre ++ evs1 ++ post) = count is_ExecuteChaincode evs1.
Proof.
  intros Hpre Hpost. rewrite !first_execution_app, !count_app, Hpre, Hpost.
  rewrite (first_execution_none _ Hpre), (first_execution_none _ Hpost).
  split; [destruct (first_execution evs1); reflexivity | lia].
Qed.

Lemma first_execution_count (l : Log) r :
  first_execution l = Some r -> (1 <= count is_ExecuteChaincode l)%nat.
Proof.
  induction l as [| ev l IH]; simpl; [discriminate |].
  destruct ev; simpl; auto; lia.
Qed.

(** X17. An answer of status [ERROR] or more is never endorsed: the chaincode
    invoked is the only one executed, and the request is answered with a
    chaincode error of that status and message together with the response
    of [CreateProposalResponseFailure], built on no event, or else with
    status 500 and the error of a collaborator. *)
Theorem ProcessProposal_failed_execution w e ctx signedProp h σ evs σ' pResp err r ev :
  ProcessProposal w e ctx signedProp h σ = (Ret (pResp, err), evs, σ') ->
  first_execution evs = Some (Ok (Some r, ev)) ->
  Status r >= ERROR ->
  count is_ExecuteChaincode evs = 1%nat
  /\ ((exists e0, (pResp, err) = failure500 e0)
      \/ (err = Some (chaincodeError (Status r) (Message r))
          /\ exists prop hdr hdrExt p simRes,
              ValidateProposalMessage w h signedProp = Ok (prop, hdr, hdrExt)
              /\ CreateProposalResponseFailure w (Header prop) (prop_Payload prop) r
                   simRes [] (hx_ChaincodeId hdrExt) (PayloadVisibility hdrExt) = Ok p
              /\ pResp = Some p)).
Proof.
  intros H Hfirst Hs.
  destruct (ProcessProposal_stages _ _ _ _ _ _ _ _ _ H ltac:(left; congruence))
    as (prop & hdr & hdrExt & chdr & ctx' & txsim & ptr & h1 & σ1 & pre & evs1 & post
        & Hv & _ & Hptr & Hrun & -> & Hpre & Hpost).
  destruct (first_execution_stages pre evs1 post Hpre Hpost) as [Hf Hcnt].
  rewrite Hf in Hfirst. rewrite Hcnt.
  pose proof (first_execution_count _ _ Hfirst) as Hone.
  destruct (simulate_and_endorse_answers _ _ _ _ _ _ _ _ _ _ _ _ _ _ _ _ _ Hrun Hptr)
    as [(e0 & He0 & [Hle | (r' & ev' & Hf' & Hlt & _)])
       | (r' & ev' & Hf' & Hcases)].
  - split; [lia | left; eauto].
  - rewrite Hfirst in Hf'. injection Hf' as <- <-. unfold ERROR in *. lia.
  - rewrite Hfirst in Hf'. injection Hf' as <- <-.
    destruct Hcases as [(_ & Hcount & -> & p & simRes & Hp & ->)
                       | [(Hlt & _) | (Hlt & _)]];
      [| unfold ERROR in *; lia ..].
    split; [assumption |]. right. split; [reflexivity |].
    exists prop, hdr, hdrExt, p, simRes. auto.
Qed.



(** ** Examples *)

Lemma callChaincode_engine_error_witness :
  let s := Sample.invoke in
  let w := Faulty.world Faulty.EngineFailure s in
  exists out evs σ',
    callChaincode w Sample.ctx "ch1" "1.0" "tx1" Sample.signedProp Sample.prop
      (Sample.cis s) 0%nat (Some 7%nat) [] (Sample.store_of s) = (out, evs, σ')
    /\ out = Ret (None, None, Some Faulty.engine_down)
    /\ length evs = 1%nat.
Proof.
  intros s w. do 3 eexists. split; [vm_compute; reflexivity |].
  edestruct (callChaincode_engine_error w Sample.ctx "ch1" "1.0" "tx1" Sample.signedProp
               Sample.prop (Sample.cis s) 0%nat (Some 7%nat) [] (Sample.store_of s))
    as (Hout & Hevs); [vm_compute; reflexivity | left; reflexivity |].
  split; [exact Hout | reflexivity].
Defined.

Lemma disableJavaCCInst_objections_witness :
  let s := Faulty.deploy_without_package in
  exists err evs σ',
    disableJavaCCInst (Sample.world s) 0%nat (Sample.cis s) [] (Sample.store_of s)
    = (Ret (Some err), evs, σ')
    /\ Error err = "too few arguments passed. expected 2"
    /\ exists spec input argNo,
        ChaincodeSpec (Sample.cis s) = Some spec /\ Input spec = Some input
        /\ package_argument (string_of_bytes (nth 0 (Args input) [])) argNo.
Proof.
  intros s. do 3 eexists. split; [vm_compute; reflexivity |].
  split; [vm_compute; reflexivity |].
  edestruct (disableJavaCCInst_objections (Sample.world s) 0%nat (Sample.cis s) []
               (Sample.store_of s))
    as (_ & spec & input & argNo & Hspec & Hinput & Harg & _);
    [vm_compute; reflexivity | reflexivity |].
  exists spec, input, argNo. auto.
Defined.

Lemma simulateProposal_refuses_java_witness :
  let s := Sample.lscc "deploy" in
  simulateProposal (Faulty.world Faulty.JavaPackage s) (Sample.endorser s) Sample.ctx
    "ch1" "tx1" Sample.signedProp Sample.prop 0%nat (Some 7%nat) [] (Sample.store_of s)
  = (Ret (simulate_failed java_disabled), [], Sample.store_of s).
Proof.
  intros s.
  apply (simulateProposal_refuses_java (Faulty.world Faulty.JavaPackage s)
           (Sample.endorser s) Sample.ctx "ch1" "tx1" Sample.signedProp Sample.prop
           0%nat (Some 7%nat) [] (Sample.store_of s) (Sample.id_of "lscc") (Sample.cis s)
           {| Type_ := GOLANG; cs_ChaincodeId := Some (Sample.id_of "lscc");
              Input := Some {| Args := Sample.sc_args s; Decorations := [] |} |}
           {| Args := Sample.sc_args s; Decorations := [] |} 2%nat Faulty.java_package
           {| Type_ := JAVA;
              cs_ChaincodeId := Some {| Path := "p"; Name := "javacc"; Version := "1.0" |};
              Input := Some {| Args := [b "init"]; Decorations := [] |} |});
    try reflexivity.
  - right. split; [left; reflexivity | reflexivity].
  - simpl. lia.
Defined.

Lemma simulateProposal_not_instantiated_witness :
  let s := Sample.invoke in
  exists out evs σ',
    simulateProposal (Faulty.world Faulty.NotInstantiated s) (Sample.endorser s)
      Sample.ctx "ch1" "tx1" Sample.signedProp Sample.prop 0%nat (Some 7%nat) []
      (Sample.store_of s) = (out, evs, σ')
    /\ out = Ret (simulate_failed
                    (WithMessage Faulty.no_definition (not_instantiated "mycc")))
    /\ evs = [EvGetChaincodeDefinition (with_TXSimulator Sample.ctx 7%nat) "tx1" "ch1"
                "mycc" (Err Faulty.no_definition)]
    /\ σ' = Sample.store_of s.
Proof.
  intros s. do 3 eexists. split; [vm_compute; reflexivity |].
  apply (simulateProposal_not_instantiated (Faulty.world Faulty.NotInstantiated s)
           (Sample.endorser s) Sample.ctx "ch1" "tx1" Sample.signedProp Sample.prop
           0%nat (Some 7%nat) [] (Sample.store_of s));
    [vm_compute; reflexivity | left; reflexivity].
Defined.

Lemma simulateProposal_policy_violation_witness :
  let s := Sample.invoke in
  exists out evs σ',
    simulateProposal (Faulty.world Faulty.PolicyViolation s) (Sample.endorser s)
      Sample.ctx "ch1" "tx1" Sample.signedProp Sample.prop 0%nat (Some 7%nat) []
      (Sample.store_of s) = (out, evs, σ')
    /\ out = Ret (simulate_failed Faulty.policy_violated)
    /\ evs = [EvGetChaincodeDefinition (bound_context Sample.ctx (Some 7%nat)) "tx1" "ch1"
                "mycc" (Ok Sample.cd);
              EvCheckInsantiationPolicy "mycc" "1.0" Sample.cd
                (Some Faulty.policy_violated)]
    /\ "1.0" = CCVersion Sample.cd
    /\ σ' = Sample.store_of s.
Proof.
  intros s. do 3 eexists. split; [vm_compute; reflexivity |].
  apply (simulateProposal_policy_violation (Faulty.world Faulty.PolicyViolation s)
           (Sample.endorser s) Sample.ctx "ch1" "tx1" Sample.signedProp Sample.prop
           0%nat (Some 7%nat) [] (Sample.store_of s));
    [vm_compute; reflexivity | right; left; reflexivity].
Defined.

Lemma simulateProposal_runs_resolved_version_witness :
  let s := Sample.invoke in
  exists out evs σ' ctxt' cccid args r,
    simulateProposal (Sample.world s) (Sample.endorser s) Sample.ctx "ch1" "tx1"
      Sample.signedProp Sample.prop 0%nat (Some 7%nat) [] (Sample.store_of s)
    = (out, evs, σ')
    /\ In (EvExecuteChaincode ctxt' cccid args r) evs
    /\ cc_Name cccid = "mycc"
    /\ cc_Version cccid = "1.0"
    /\ Syscc cccid = false.
Proof.
  intros s. do 7 eexists. split; [vm_compute; reflexivity |].
  split; [do 2 right; left; reflexivity |].
  edestruct (simulateProposal_runs_resolved_version (Sample.world s) (Sample.endorser s)
               Sample.ctx "ch1" "tx1" Sample.signedProp Sample.prop 0%nat (Some 7%nat) []
               (Sample.store_of s))
    as (_ & _ & Hname & _ & Hsys & Hversion);
    [vm_compute; reflexivity | reflexivity | do 2 right; left; reflexivity |].
  split; [exact Hname |]. split; [| exact Hsys].
  destruct Hversion as (d & post & Hevs & Hv). injection Hevs as <- _. exact Hv.
Defined.

Lemma simulateProposal_without_simulator_witness :
  let s := Sample.chainless in
  exists out evs σ' cdLedger res simRes ccevent err,
    simulateProposal (Sample.world s) (Sample.endorser s) Sample.ctx "" "tx1"
      Sample.signedProp Sample.prop 0%nat None [] (Sample.store_of s) = (out, evs, σ')
    /\ out = Ret (cdLedger, res, simRes, ccevent, err)
    /\ simRes = []
    /\ forall ev, In ev evs -> is_resolution ev || is_engine ev = true.
Proof.
  intros s. do 8 eexists. split; [vm_compute; reflexivity |].
  split; [reflexivity |].
  eapply (simulateProposal_without_simulator (Sample.world s) (Sample.endorser s)
            Sample.ctx "" "tx1" Sample.signedProp Sample.prop 0%nat []
            (Sample.store_of s));
    [vm_compute; reflexivity | reflexivity].
Defined.

Lemma simulateProposal_public_bytes_witness :
  let s := Sample.invoke in
  exists evs σ' cdLedger res ccevent pre simResult,
    simulateProposal (Sample.world s) (Sample.endorser s) Sample.ctx "ch1" "tx1"
      Sample.signedProp Sample.prop 0%nat (Some 7%nat) [] (Sample.store_of s)
    = (Ret (cdLedger, res, b "pub", ccevent, None), evs, σ')
    /\ evs = pre ++ [EvGetTxSimulationResults 7%nat (Ok simResult)]
                 ++ match PvtSimulationResults simResult with
                    | Some pvt => [EvDistributePrivateData "ch1" "tx1" pvt None]
                    | None => []
                    end
                 ++ [EvGetPubSimulationBytes simResult (Ok (b "pub"))]
    /\ GetPubSimulationBytes (Sample.world s) simResult = Ok (b "pub")
    /\ count is_ExecuteChaincode pre = 1%nat.
Proof.
  intros s.
  destruct (simulateProposal_public_bytes (Sample.world s) (Sample.endorser s) Sample.ctx
              "ch1" "tx1" Sample.signedProp Sample.prop 0%nat 7%nat []
              (Sample.store_of s) _ _ _ _ (b "pub") _ ltac:(vm_compute; reflexivity))
    as (pre & simResult & Hevs & Hbytes & Hcount & _).
  do 5 eexists. exists pre, simResult.
  split; [vm_compute; reflexivity |]. split; [exact Hevs |].
  split; [exact Hbytes | exact Hcount].
Defined.

Lemma endorseProposal_authority_call_witness :
  let s := Sample.invoke in
  exists out evs σ' ctxt' cccid args r,
    endorseProposal (Sample.world s) Sample.ctx "ch1" "tx1" Sample.signedProp
      Sample.prop (Some (Sample.res s)) (b "pub") (Some Sample.event) [] 0%nat
      (Some 7%nat) (Some Sample.cd) [] (Sample.store_of s) = (out, evs, σ')
    /\ In (EvExecuteChaincode ctxt' cccid args r) evs
    /\ args = [[]; b "hdr"; b "payload"; b "mycc:1.0"; b "response"; b "pub";
               b "event"; []]
    /\ cc_Name cccid = "escc"
    /\ cc_Version cccid = "1.1.0".
Proof.
  intros s. do 7 eexists. split; [vm_compute; reflexivity |].
  split; [left; reflexivity |].
  edestruct (endorseProposal_authority_call (Sample.world s) Sample.ctx "ch1" "tx1"
               Sample.signedProp Sample.prop (Some (Sample.res s)) (b "pub")
               (Some Sample.event) [] 0%nat (Some 7%nat) (Some Sample.cd) []
               (Sample.store_of s))
    as (eventBytes & resBytes & ccidBytes & Hev & Hres & Hccid & Hargs & Hcccid & _);
    [vm_compute; reflexivity | reflexivity | left; reflexivity |].
  injection Hev as <-. injection Hres as <-. injection Hccid as <-.
  split; [exact Hargs |]. rewrite Hcccid. split; reflexivity.
Defined.

Lemma endorseProposal_panics_without_escc_witness :
  let s := Sample.invoke in
  exists out evs σ',
    endorseProposal (Sample.world s) Sample.ctx "ch1" "tx1" Sample.signedProp
      Sample.prop (Some (Sample.res s)) (b "pub") (Some Sample.event) [] 0%nat
      (Some 7%nat) (Some Faulty.cd_without_escc) [] (Sample.store_of s) = (out, evs, σ')
    /\ out = Panic "No ESCC specified in ChaincodeData" /\ evs = [] /\ σ' = Sample.store_of s.
Proof.
  intros s. do 3 eexists. split; [vm_compute; reflexivity |].
  edestruct (endorseProposal_panics_without_escc (Sample.world s) Sample.ctx "ch1" "tx1"
               Sample.signedProp Sample.prop (Some (Sample.res s)) (b "pub")
               (Some Sample.event) [] 0%nat (Some 7%nat) (Some Faulty.cd_without_escc) []
               (Sample.store_of s)) as [_ Hpanic].
  - split; [| split; [| split]].
    + intros prop cis [= <-]. do 2 eexists. split; reflexivity.
    + intros h ctxt cccid args res ev H. simpl in H.
      destruct (String.eqb (cc_Name cccid) "escc"); injection H as <- _; eauto.
    + intros raw cds [= <-]. do 2 eexists. split; reflexivity.
    + intros raw cds [= <-]. eexists. reflexivity.
  - reflexivity.
  - vm_compute. reflexivity.
  - apply Hpanic. eexists. reflexivity.
Defined.

Lemma ProcessProposal_header_fault_witness :
  let s := Sample.invoke in
  let w := Faulty.world Faulty.EmptyTxId s in
  exists σ',
    ProcessProposal w (Sample.endorser s) Sample.ctx Sample.signedProp [] ∅
    = (Ret (failure500
              (Errorf "invalid txID. It must be different from the empty string")),
       [EvValidateProposalMessage Sample.signedProp
          (ValidateProposalMessage w [] Sample.signedProp)], σ').
Proof.
  intros s w.
  apply (ProcessProposal_header_fault w (Sample.endorser s) Sample.ctx Sample.signedProp
           [] ∅).
  right. do 3 eexists. split; [reflexivity |].
  right. eexists. split; [reflexivity |].
  right. eexists. split; [reflexivity |].
  split; [reflexivity |]. split; reflexivity.
Defined.

Lemma ProcessProposal_access_denied_witness :
  let s := Sample.invoke in
  exists out evs σ',
    ProcessProposal (Faulty.world Faulty.AccessDenied s) (Sample.endorser s) Sample.ctx
      Sample.signedProp [] ∅ = (out, evs, σ')
    /\ out = Ret (failure500 Faulty.access_denied)
    /\ length evs = 4%nat
    /\ count is_acquisition evs = 0%nat.
Proof.
  intros s. do 3 eexists. split; [vm_compute; reflexivity |].
  edestruct (ProcessProposal_access_denied (Faulty.world Faulty.AccessDenied s)
               (Sample.endorser s) Sample.ctx Sample.signedProp [] ∅)
    as (Hout & _ & v & lgr & txid & found & Hevs);
    [vm_compute; reflexivity | do 3 right; left; reflexivity |].
  split; [exact Hout |]. split; reflexivity.
Defined.

Lemma ProcessProposal_admission_precedes_execution_witness :
  let s := Sample.invoke in
  let hdrExt := {| PayloadVisibility := []; hx_ChaincodeId := Sample.id_of "mycc" |} in
  exists out evs σ',
    ProcessProposal (Sample.world s) (Sample.endorser s) Sample.ctx Sample.signedProp [] ∅
    = (out, evs, σ')
    /\ exists lgr found rest,
        evs = EvValidateProposalMessage Sample.signedProp
                (Ok (Sample.prop, Sample.hdr, hdrExt))
              :: EvGetLedger "ch1" (Some lgr)
              :: EvGetTransactionByID lgr "tx1" (Some found)
              :: rest
        /\ (IsSysCC (Sample.world s) "mycc" = false ->
            exists rest', rest = EvCheckACL "ch1" Sample.signedProp None :: rest').
Proof.
  intros s hdrExt. do 3 eexists. split; [vm_compute; reflexivity |].
  eapply (ProcessProposal_admission_precedes_execution (Sample.world s)
            (Sample.endorser s) Sample.ctx Sample.signedProp [] ∅ _ _ _ Sample.prop
            Sample.hdr hdrExt {| ChannelId := "ch1"; TxId := "tx1" |});
    [vm_compute; reflexivity | reflexivity | reflexivity | discriminate
    | do 8 right; left; reflexivity | reflexivity].
Defined.

(** The definition on the ledger names no endorsement system chaincode:
    [endorseProposal] panics, and the simulator is released all the
    same. *)
Lemma ProcessProposal_releases_last_witness :
  let s := Sample.invoke in
  exists msg evs σ',
    ProcessProposal (Faulty.world Faulty.NoESCC s) (Sample.endorser s) Sample.ctx
      Sample.signedProp [] ∅ = (Panic msg, evs, σ')
    /\ exists pre sim lgr' txid,
        evs = pre ++ [EvDone sim]
        /\ In (EvNewTxSimulator lgr' txid (Ok sim)) pre
        /\ count is_acquisition pre = 1%nat
        /\ count is_release pre = 0%nat.
Proof.
  intros s. do 3 eexists. split; [vm_compute; reflexivity |].
  eapply (ProcessProposal_releases_last (Faulty.world Faulty.NoESCC s)
            (Sample.endorser s) Sample.ctx Sample.signedProp [] ∅);
    [vm_compute; reflexivity | do 7 right; left; reflexivity].
Defined.

Lemma ProcessProposal_engine_contexts_witness :
  let s := Sample.invoke in
  let ctxt := {| TXSimulatorKey := Some 7%nat; HistoryQueryExecutorKey := Some 8%nat |} in
  let ev := EvExecuteChaincode ctxt
              (NewCCContext "ch1" "mycc" "1.0" "tx1" false Sample.signedProp Sample.prop)
              (Sample.sc_args s) (Ok (Some (Sample.res s), Some Sample.event)) in
  exists out evs σ',
    ProcessProposal (Sample.world s) (Sample.endorser s) Sample.ctx Sample.signedProp [] ∅
    = (out, evs, σ')
    /\ In ev evs
    /\ ((exists lgr lgr' txid sim q,
            In (EvNewTxSimulator lgr txid (Ok sim)) evs
            /\ In (EvNewHistoryQueryExecutor lgr' (Ok q)) evs
            /\ ctxt = with_TXSimulator (with_HistoryQueryExecutor Sample.ctx q) sim)
        \/ (count is_admission_or_simulator evs = 0%nat /\ ctxt = Sample.ctx)).
Proof.
  intros s ctxt ev. do 3 eexists. split; [vm_compute; reflexivity |].
  split; [do 10 right; left; reflexivity |].
  eapply (ProcessProposal_engine_contexts (Sample.world s) (Sample.endorser s)
            Sample.ctx Sample.signedProp [] ∅ _ _ _ ev ctxt);
    [vm_compute; reflexivity | do 10 right; left; reflexivity | reflexivity].
Defined.

Lemma ProcessProposal_failed_execution_witness :
  let s := Sample.invoke_fails in
  let r := Sample.res s in
  exists pResp err evs σ',
    ProcessProposal (Sample.world s) (Sample.endorser s) Sample.ctx Sample.signedProp [] ∅
    = (Ret (pResp, err), evs, σ')
    /\ Status r = 500
    /\ count is_ExecuteChaincode evs = 1%nat
    /\ ((exists e0, (pResp, err) = failure500 e0)
        \/ (err = Some (chaincodeError (Status r) (Message r))
            /\ exists prop hdr hdrExt p simRes,
                ValidateProposalMessage (Sample.world s) [] Sample.signedProp
                = Ok (prop, hdr, hdrExt)
                /\ CreateProposalResponseFailure (Sample.world s) (Header prop)
                     (prop_Payload prop) r simRes [] (hx_ChaincodeId hdrExt)
                     (PayloadVisibility hdrExt) = Ok p
                /\ pResp = Some p)).
Proof.
  intros s r. do 4 eexists. split; [vm_compute; reflexivity |].
  split; [reflexivity |].
  eapply (ProcessProposal_failed_execution (Sample.world s) (Sample.endorser s)
            Sample.ctx Sample.signedProp [] ∅ _ _ _ _ r);
    [vm_compute; reflexivity | vm_compute; reflexivity | vm_compute; discriminate].
Defined.




(** * The HoneyBadgerBFT consenter *)

Lemma of_byte_byte_of (x : Z) : HoneyBadgerBFT.of_byte (HoneyBadgerBFT.byte_of x) = x mod 256.
Proof.
  unfold HoneyBadgerBFT.of_byte, HoneyBadgerBFT.byte_of.
  assert (Hr : 0 <= x mod 256 < 256) by (apply Z.mod_pos_bound; lia).
  destruct (Byte.of_N (Z.to_N (x mod 256))) as [c |] eqn:Hc.
  - apply Byte.to_of_N in Hc. rewrite Hc. lia.
  - apply Byte.of_N_None_iff in Hc. lia.
Qed.

Lemma of_byte_range (c : byte) : 0 <= HoneyBadgerBFT.of_byte c < 256.
Proof.
  unfold HoneyBadgerBFT.of_byte. pose proof (Byte.to_N_bounded c). lia.
Qed.

Lemma testbit_byte (v k n : Z) :
  0 <= k -> 0 <= n ->
  Z.testbit (Z.shiftl (Z.shiftr v k mod 256) k) n
  = Z.testbit v n && (k <=? n)%Z && (n <? k + 8)%Z.
Proof.
  intros Hk Hn.
  change 256 with (2 ^ 8). rewrite <- Z.land_ones by lia.
  destruct (Z.leb_spec k n) as [Hle | Hlt].
  - rewrite Z.shiftl_spec by lia. rewrite Z.land_spec, Z.shiftr_spec by lia.
    rewrite Z.testbit_ones_nonneg by lia.
    replace (n - k + k) with n by lia.
    destruct (Z.ltb_spec (n - k) 8), (Z.ltb_spec n (k + 8)); try lia;
      rewrite ?andb_true_r, ?andb_false_r; reflexivity.
  - rewrite Z.shiftl_spec_low by lia. rewrite andb_false_r. reflexivity.
Qed.

Lemma Uint64_PutUint64 (v : Z) (rest : bytes) :
  0 <= v < 2 ^ 64 ->
  HoneyBadgerBFT.Uint64 (HoneyBadgerBFT.PutUint64 v ++ rest) = Some v.
Proof.
  intros Hv. unfold HoneyBadgerBFT.PutUint64, HoneyBadgerBFT.Uint64. simpl.
  f_equal. rewrite !of_byte_byte_of.
  apply Z.bits_inj'. intros n Hn.
  rewrite <- (Z.shiftl_0_r (v mod 256)), <- (Z.shiftr_0_r v) at 1.
  rewrite !Z.lor_spec, !testbit_byte by lia.
  destruct (Z.ltb_spec n 64) as [Hlt | Hge].
  - destruct (Z.testbit v n); [| reflexivity]. simpl.
    assert (Hbyte : n < 8 \/ 8 <= n < 16 \/ 16 <= n < 24 \/ 24 <= n < 32
                    \/ 32 <= n < 40 \/ 40 <= n < 48 \/ 48 <= n < 56 \/ 56 <= n < 64)
      by lia.
    destruct_or!;
      repeat match goal with
             | |- context [(?a <=? n)%Z] =>
                 first [ replace (a <=? n)%Z with true by (symmetry; apply Z.leb_le; lia)
                       | replace (a <=? n)%Z with false by (symmetry; apply Z.leb_gt; lia) ]
             | |- context [(n <? ?a)%Z] =>
                 first [ replace (n <? a)%Z with true by (symmetry; apply Z.ltb_lt; lia)
                       | replace (n <? a)%Z with false by (symmetry; apply Z.ltb_ge; lia) ]
             end;
      reflexivity.
  - assert (Hb : Z.testbit v n = false).
    { destruct (Z.eq_dec v 0) as [-> | Hnz]; [apply Z.bits_0 |].
      apply Z.bits_above_log2; [lia |].
      assert (Z.log2 v < 64) by (apply Z.log2_lt_pow2; lia). lia. }
    rewrite Hb. reflexivity.
Qed.

Lemma length_PutUint64 (v : Z) : length (HoneyBadgerBFT.PutUint64 v) = 8%nat.
Proof. reflexivity. Qed.

Lemma int64_small (v : Z) : 0 <= v < 2 ^ 63 -> HoneyBadgerBFT.int64 v = v.
Proof.
  intros Hv. unfold HoneyBadgerBFT.int64.
  rewrite Z.mod_small by lia.
  destruct (Z.ltb_spec v (2 ^ 63)); lia.
Qed.

Lemma uint64_small (v : Z) : 0 <= v < 2 ^ 64 -> HoneyBadgerBFT.uint64 v = v.
Proof. intros Hv. unfold HoneyBadgerBFT.uint64. apply Z.mod_small. lia. Qed.

Section Framing.

Import HoneyBadgerBFT.

Variable p : Peers.

Lemma ReadFull_enough (s : State) conn n (front rest : bytes) :
  receiveConnection (ch s) = Some conn ->
  pending conn = front ++ rest ->
  length front = n ->
  ReadFull_receiveConnection n s
  = Returns (Ok front)
      (match n with
       | O => s
       | _ => receiving s (read_to conn rest)
       end).
Proof.
  intros Hconn Hpending Hlen. unfold ReadFull_receiveConnection.
  destruct n as [| n].
  - destruct front; [reflexivity | discriminate].
  - rewrite Hconn, Hpending.
    assert (Hle : (S n <=? length (front ++ rest))%nat = true)
      by (apply Nat.leb_le; rewrite length_app; lia).
    rewrite Hle. rewrite <- Hlen.
    rewrite take_app_length, drop_app_length. reflexivity.
Qed.

(** A message framed as [sendEnvToBFTProxy] frames it is read back whole
    by [recvBytes], which leaves the connection at the byte after it. *)
Lemma recvBytes_reads_frame (s : State) conn (m rest : bytes) :
  receiveConnection (ch s) = Some conn ->
  pending conn = frame m ++ rest ->
  Z.of_nat (length m) < 2 ^ 63 ->
  Z.of_nat (length m) <= maxAlloc p ->
  recvBytes p s
  = Returns (Ok m) (receiving s (read_to conn rest)).
Proof.
  intros Hconn Hpending Hsmall Hroom.
  unfold frame in Hpending. rewrite <- app_assoc in Hpending.
  unfold recvBytes, recvLength, then_.
  rewrite (ReadFull_enough s conn 8 _ _ Hconn Hpending eq_refl).
  rewrite <- (app_nil_r (PutUint64 _)), Uint64_PutUint64 by lia. unfold unit_.
  rewrite int64_small by lia.
  unfold make.
  assert (Hneg : (Z.of_nat (length m) <? 0)%Z = false) by (apply Z.ltb_ge; lia).
  assert (Hmax : (maxAlloc p <? Z.of_nat (length m))%Z = false) by (apply Z.ltb_ge; lia).
  rewrite Hneg, Hmax. simpl orb. cbv iota. rewrite Nat2Z.id.
  erewrite ReadFull_enough; [| reflexivity | reflexivity | reflexivity].
  destruct (length m) eqn:Hm.
  - destruct m; [| discriminate]. reflexivity.
  - reflexivity.
Qed.

(** X21. What [recvBytes] returns without an error is a message that was on the
    connection: eight bytes that give its length in big-endian order, and
    then that many bytes, no fewer. *)
Theorem recvBytes_returns_framed (s s' : State) (buf : bytes) :
  recvBytes p s = Returns (Ok buf) s' ->
  exists conn hdr rest v,
    receiveConnection (ch s) = Some conn
    /\ pending conn = hdr ++ buf ++ rest
    /\ length hdr = 8%nat
    /\ Uint64 hdr = Some v
    /\ int64 v = Z.of_nat (length buf)
    /\ s' = receiving s (read_to conn rest).
Proof.
  unfold recvBytes, recvLength, then_, unit_, make.
  unfold ReadFull_receiveConnection at 1.
  destruct (receiveConnection (ch s)) as [conn |] eqn:Hconn; [| discriminate].
  destruct (8 <=? length (pending conn))%nat eqn:Hlen; [| discriminate].
  apply Nat.leb_le in Hlen.
  destruct (Uint64 (take 8 (pending conn))) as [v |] eqn:Hv; [| discriminate].
  destruct ((int64 v <? 0)%Z || (maxAlloc p <? int64 v)%Z) eqn:Hsize; [discriminate |].
  apply orb_false_iff in Hsize. destruct Hsize as [Hneg%Z.ltb_ge _].
  unfold ReadFull_receiveConnection.
  destruct (Z.to_nat (int64 v)) as [| n] eqn:Hn.
  - intros [= <- <-].
    exists conn, (take 8 (pending conn)), (drop 8 (pending conn)), v.
    split; [reflexivity |]. split; [simpl; rewrite take_drop; reflexivity |].
    split; [rewrite length_take; lia |]. split; [assumption |].
    split; [simpl; lia | reflexivity].
  - simpl receiveConnection. cbv iota.
    simpl pending.
    destruct (S n <=? length (drop 8 (pending conn)))%nat eqn:Hbody; [| discriminate].
    apply Nat.leb_le in Hbody.
    intros [= <- <-].
    exists conn, (take 8 (pending conn)), (drop (S n) (drop 8 (pending conn))), v.
    split; [reflexivity |]. split; [rewrite !take_drop; reflexivity |].
    split; [rewrite length_take; lia |]. split; [assumption |].
    split; [rewrite length_take; lia | reflexivity].
Qed.

(** X22. A length that is negative as an [int64], or larger than the platform
    allocates, makes [recvBytes] panic once the eight bytes are read: the
    proxy can bring the receiving goroutine down with one header. *)
Theorem recvBytes_bad_length_panics (s : State) conn (hdr rest : bytes) v :
  receiveConnection (ch s) = Some conn ->
  pending conn = hdr ++ rest ->
  length hdr = 8%nat ->
  Uint64 hdr = Some v ->
  int64 v < 0 \/ maxAlloc p < int64 v ->
  recvBytes p s
  = Panics "runtime error: makeslice: len out of range" (receiving s (read_to conn rest)).
Proof.
  intros Hconn Hpending Hlen Hv Hbad.
  unfold recvBytes, recvLength, then_.
  rewrite (ReadFull_enough s conn 8 _ _ Hconn Hpending Hlen).
  rewrite Hv. unfold unit_, make.
  assert (Hsize : (int64 v <? 0)%Z || (maxAlloc p <? int64 v)%Z = true).
  { apply orb_true_iff. destruct Hbad; [left | right]; apply Z.ltb_lt; assumption. }
  rewrite Hsize. reflexivity.
Qed.

(** X23. [recvEnvFromBFTProxy] is [recvBytes] followed by
    [utils.UnmarshalEnvelope]. *)
Theorem recvEnvFromBFTProxy_is_recvBytes (s : State) :
  recvEnvFromBFTProxy p s
  = match recvBytes p s with
    | Returns (Ok buf) s' => Returns (UnmarshalEnvelope p buf) s'
    | Returns (Err err) s' => Returns (Err err) s'
    | Panics msg s' => Panics msg s'
    | Blocks s' => Blocks s'
    end.
Proof.
  unfold recvEnvFromBFTProxy, recvBytes, then_, unit_.
  destruct (recvLength s) as [[size [err |]] s1 | |]; try reflexivity.
  destruct (make p size s1) as [n s2 | |]; try reflexivity.
  destruct (ReadFull_receiveConnection n s2) as [[buf | err] s3 | |]; try reflexivity.
  destruct (UnmarshalEnvelope p buf); reflexivity.
Qed.

End Framing.

Section Sending.

Import HoneyBadgerBFT.

Variable p : Peers.

(** On a connection that takes every buffer whole, [sendEnvToBFTProxy]
    puts the frame of the marshalled envelope on the wire, returns its
    length and releases the lock. *)
Lemma sendEnvToBFTProxy_sends (s : State) conn env (m : bytes) :
  reliable p ->
  sendLock (ch s) = false ->
  sendConnection (ch s) = Some conn ->
  Marshal p env = Ok m ->
  Z.of_nat (length m) < 2 ^ 64 ->
  sendEnvToBFTProxy p env s
  = Returns (Z.of_nat (length m), None) (sending s (wrote conn (frame m))).
Proof.
  intros Hrel Hlock Hconn Hm Hsmall.
  unfold sendEnvToBFTProxy, then_, Lock. rewrite Hlock, Hm.
  unfold sendLength, Write_sendConnection. simpl.
  rewrite Hconn, Hrel. simpl. rewrite Hrel.
  unfold Unlock, unit_. simpl.
  rewrite !Nat2Z.id, !firstn_all. rewrite uint64_small by lia.
  unfold sending, wrote, frame, set_ch, set_sendConnection. simpl.
  rewrite <- app_assoc. destruct s as [[? ? ? ?] ? ? ? ?]; simpl in *; subst.
  reflexivity.
Qed.

(** X20. An envelope sent over a connection that takes every buffer whole is
    the envelope [recvEnvFromBFTProxy] returns at the other end, when
    unmarshalling undoes marshalling: the eight bytes of the length and
    the bytes of the envelope are read back and nothing else is used
    up. *)
Theorem envelope_round_trip (s t : State) conn rconn env (m rest : bytes) :
  reliable p ->
  sendLock (ch s) = false ->
  sendConnection (ch s) = Some conn ->
  Marshal p env = Ok m ->
  UnmarshalEnvelope p m = Ok env ->
  Z.of_nat (length m) < 2 ^ 63 ->
  Z.of_nat (length m) <= maxAlloc p ->
  receiveConnection (ch t) = Some rconn ->
  exists sent,
    sendEnvToBFTProxy p env s
    = Returns (Z.of_nat (length m), None) (sending s (wrote conn sent))
    /\ (pending rconn = sent ++ rest ->
        recvEnvFromBFTProxy p t = Returns (Ok env) (receiving t (read_to rconn rest))).
Proof.
  intros Hrel Hlock Hconn Hm Hum Hsmall Hroom Hrconn.
  exists (frame m). split.
  - apply sendEnvToBFTProxy_sends; auto. lia.
  - intros Hpending.
    pose proof (recvBytes_reads_frame p t rconn m rest Hrconn Hpending Hsmall Hroom)
      as Hrecv.
    unfold recvEnvFromBFTProxy, then_, unit_.
    unfold recvBytes, then_, unit_ in Hrecv.
    destruct (recvLength t) as [[size [err |]] s1 | |]; try discriminate.
    destruct (make p size s1) as [n s2 | |]; try discriminate.
    destruct (ReadFull_receiveConnection n s2) as [[buf | err] s3 | |];
      try discriminate.
    injection Hrecv as -> ->. rewrite Hum. reflexivity.
Qed.

Lemma Lock_held_blocks (s : State) env configSeq :
  sendLock (ch s) = true ->
  sendEnvToBFTProxy p env s = Blocks s /\ Order p env configSeq s = Blocks s.
Proof.
  intros Hheld. unfold Order, sendEnvToBFTProxy, then_, Lock. rewrite Hheld.
  split; reflexivity.
Qed.

(** X24. When [sendEnvToBFTProxy] returns an error, the lock is released only
    if the error is that of the last write.  After a failure to marshal
    the envelope or to write the length the function has returned with
    the lock held, and every later call of it and of [Order] blocks. *)
Theorem sendEnvToBFTProxy_error_keeps_lock (s s' : State) env n err :
  sendEnvToBFTProxy p env s = Returns (n, Some err) s' ->
  (sendLock (ch s') = true
   /\ (Marshal p env = Err err /\ n = -1 /\ sendConnection (ch s') = sendConnection (ch s)
       \/ exists m conn,
           Marshal p env = Ok m /\ sendConnection (ch s) = Some conn
           /\ Write p conn (PutUint64 (uint64 (Z.of_nat (length m)))) = (n, Some err))
   /\ forall env' configSeq,
       sendEnvToBFTProxy p env' s' = Blocks s'
       /\ Order p env' configSeq s' = Blocks s')
  \/ (sendLock (ch s') = false
      /\ exists m conn k,
          Marshal p env = Ok m /\ sendConnection (ch s) = Some conn
          /\ Write p conn (PutUint64 (uint64 (Z.of_nat (length m)))) = (k, None)
          /\ Write p (wrote conn (take (Z.to_nat k)
                                     (PutUint64 (uint64 (Z.of_nat (length m)))))) m
             = (n, Some err)).
Proof.
  unfold sendEnvToBFTProxy, then_, Lock.
  destruct (sendLock (ch s)) eqn:Hlock; [discriminate |].
  destruct (Marshal p env) as [m | merr] eqn:Hm.
  - unfold sendLength, Write_sendConnection. simpl.
    destruct (sendConnection (ch s)) as [conn |] eqn:Hconn; [| discriminate].
    destruct (Write p conn (PutUint64 (uint64 (Z.of_nat (length m)))))
      as [k [kerr |]] eqn:Hk.
    + unfold unit_. intros [= <- <- <-]. left.
      split; [reflexivity |]. split; [right; eauto |].
      intros env' configSeq. apply Lock_held_blocks. reflexivity.
    + simpl.
      match goal with
      | |- context [Write p ?c m] => destruct (Write p c m) as [n' err'] eqn:Hw
      end.
      unfold Unlock, unit_. simpl. intros [= <- <- <-]. right.
      split; [reflexivity |]. exists m, conn, k. auto.
  - unfold unit_. intros [= <- <- <-]. left.
    split; [reflexivity |]. split; [left; auto |].
    intros env' configSeq. apply Lock_held_blocks. reflexivity.
Qed.

(** [sendEnvToBFTProxy] touches the send connection and the lock and
    nothing else. *)
Lemma sendEnvToBFTProxy_footprint (s s' : State) env r :
  sendEnvToBFTProxy p env s = Returns r s' ->
  exitChan (ch s') = exitChan (ch s)
  /\ receiveConnection (ch s') = receiveConnection (ch s)
  /\ envelopeMeasurementStartTime s' = envelopeMeasurementStartTime s
  /\ countEnvelopes s' = countEnvelopes s
  /\ readings s' = readings s
  /\ printed s' = printed s.
Proof.
  unfold sendEnvToBFTProxy, then_, Lock.
  destruct (sendLock (ch s)) eqn:Hlock; [discriminate |].
  destruct (Marshal p env) as [m | merr].
  - unfold sendLength, Write_sendConnection. simpl.
    destruct (sendConnection (ch s)) as [conn |]; [| discriminate].
    destruct (Write p conn _) as [k [kerr |]].
    + unfold unit_. intros [= <- <-]. repeat split.
    + simpl. destruct (Write p _ m) as [n' err'].
      unfold Unlock, unit_. simpl. intros [= <- <-]. repeat split.
  - unfold unit_. intros [= <- <-]. repeat split.
Qed.

(** What [Order] does once the envelope is sent: the count goes up by
    one, and the answer is the error "exiting" if the exit channel is
    closed and nil if not. *)
Lemma Order_sent (s s1 : State) env configSeq n :
  sendEnvToBFTProxy p env s = Returns (n, None) s1 ->
  exists s2,
    Order p env configSeq s
    = Returns (if exitChan (ch s) then Some (Errorf "exiting") else None) s2
    /\ ch s2 = ch s1
    /\ countEnvelopes s2 = int64 (countEnvelopes s + 1)
    /\ length (printed s2)
       = (length (printed s)
          + if (Z.rem (int64 (countEnvelopes s + 1)) interval =? 0)%Z then 1 else 0)%nat.
Proof.
  intros Hsend.
  destruct (sendEnvToBFTProxy_footprint _ _ _ _ Hsend)
    as (Hexit & _ & Hstart & Hcount & _ & Hprinted).
  unfold Order, then_. rewrite Hsend. unfold get, unit_.
  rewrite <- Hexit, <- Hcount, <- Hprinted.
  destruct (envelopeMeasurementStartTime s1 =? -1)%Z; simpl;
    destruct (Z.rem (int64 (countEnvelopes s1 + 1)) interval =? 0)%Z; simpl;
    destruct (exitChan (ch s1)); eexists; (split; [reflexivity |]); simpl;
    rewrite ?length_app; simpl; repeat split; lia.
Qed.

(** X25. [Order] hands the envelope to the proxy before it looks at the exit
    channel: after [Halt] an envelope that can be sent is sent and
    counted all the same, and [Order] returns the error "exiting". *)
Theorem Order_after_Halt (s s1 s2 : State) env configSeq n :
  Halt s = Returns tt s1 ->
  sendEnvToBFTProxy p env s1 = Returns (n, None) s2 ->
  exists s3,
    Order p env configSeq s1 = Returns (Some (Errorf "exiting")) s3
    /\ ch s3 = ch s2
    /\ countEnvelopes s3 = int64 (countEnvelopes s + 1).
Proof.
  intros Hhalt Hsend.
  destruct (Order_sent _ _ _ configSeq _ Hsend) as (s3 & Horder & Hch & Hcount & _).
  assert (Hclosed : exitChan (ch s1) = true /\ countEnvelopes s1 = countEnvelopes s).
  { unfold Halt in Hhalt. destruct (exitChan (ch s)) eqn:Hexit;
      injection Hhalt as <-; auto. }
  destruct Hclosed as [Hclosed Hsame].
  rewrite Hclosed in Horder. rewrite Hsame in Hcount. eauto.
Qed.

(** X26. Envelopes ordered one after the other over a connection that takes
    every buffer whole reach the wire as their frames, in the order of
    the calls; each call returns nil, leaves the lock free and counts
    one. *)
Theorem Orders_frames_in_order (envs : list Envelope) :
  reliable p ->
  forall (ms : list bytes) (s : State) conn,
    Forall2 (fun env m => Marshal p env = Ok m /\ Z.of_nat (length m) < 2 ^ 64) envs ms ->
    sendLock (ch s) = false ->
    exitChan (ch s) = false ->
    sendConnection (ch s) = Some conn ->
    0 <= countEnvelopes s ->
    countEnvelopes s + Z.of_nat (length envs) < 2 ^ 63 ->
    exists s',
      Orders p envs s = Returns (map (fun _ => None) envs) s'
      /\ ch s' = ch (sending s (wrote conn (concat (map frame ms))))
      /\ countEnvelopes s' = countEnvelopes s + Z.of_nat (length envs).
Proof.
  intros Hrel. induction envs as [| env envs IH]; intros ms s conn Hms Hlock Hexit Hconn
    Hpos Hroom.
  - inversion Hms; subst. exists s. simpl. unfold unit_.
    split; [reflexivity |]. split; [| lia].
    unfold sending, wrote, set_ch, set_sendConnection. simpl.
    rewrite app_nil_r. destruct s as [[? ? ? ?] ? ? ? ?]; simpl in *; subst.
    destruct conn; reflexivity.
  - inversion Hms as [| ? m ? ms' [Hm Hlen] Hrest]; subst.
    pose proof (sendEnvToBFTProxy_sends s conn env m Hrel Hlock Hconn Hm Hlen) as Hsend.
    destruct (Order_sent _ _ _ 0 _ Hsend) as (s2 & Horder & Hch & Hcount & _).
    rewrite Hexit in Horder.
    simpl length in Hroom. rewrite int64_small in Hcount by lia.
    destruct (IH ms' s2 (wrote conn (frame m)) Hrest) as (s' & Hrun & Hch' & Hcount');
      try (rewrite Hch; reflexivity); try (rewrite Hch; simpl; assumption); try lia.
    exists s'. simpl. unfold then_. rewrite Horder, Hrun. unfold unit_.
    split; [reflexivity |]. split; [| lia].
    rewrite Hch'. unfold sending, wrote, set_ch, set_sendConnection. simpl.
    rewrite Hch. simpl. rewrite <- app_assoc. reflexivity.
Qed.

End Sending.

(** ** Examples *)

Lemma recvBytes_returns_framed_witness :
  let p := HoneyBadgerBFT.loopback in
  let conn := HoneyBadgerBFT.incoming (HoneyBadgerBFT.frame (b "block") ++ b "next") in
  let s := HoneyBadgerBFT.initial (HoneyBadgerBFT.connected HoneyBadgerBFT.idle conn) in
  exists buf s',
    HoneyBadgerBFT.recvBytes p s = HoneyBadgerBFT.Returns (Ok buf) s'
    /\ buf = b "block"
    /\ exists conn hdr rest v,
        HoneyBadgerBFT.receiveConnection (HoneyBadgerBFT.ch s) = Some conn
        /\ HoneyBadgerBFT.pending conn = hdr ++ buf ++ rest
        /\ length hdr = 8%nat
        /\ HoneyBadgerBFT.Uint64 hdr = Some v
        /\ HoneyBadgerBFT.int64 v = Z.of_nat (length buf)
        /\ s' = HoneyBadgerBFT.receiving s (HoneyBadgerBFT.read_to conn rest).
Proof.
  intros p conn s. do 2 eexists. split; [vm_compute; reflexivity |].
  split; [reflexivity |].
  apply (recvBytes_returns_framed p s). vm_compute. reflexivity.
Defined.

(** A header of eight bytes 255 announces the length -1. *)
Lemma recvBytes_bad_length_panics_witness :
  let p := HoneyBadgerBFT.loopback in
  let hdr := repeat "255"%byte 8 in
  let conn := HoneyBadgerBFT.incoming (hdr ++ b "block") in
  let s := HoneyBadgerBFT.initial (HoneyBadgerBFT.connected HoneyBadgerBFT.idle conn) in
  HoneyBadgerBFT.recvBytes p s
  = HoneyBadgerBFT.Panics "runtime error: makeslice: len out of range"
      (HoneyBadgerBFT.receiving s (HoneyBadgerBFT.read_to conn (b "block"))).
Proof.
  intros p hdr conn s.
  apply (recvBytes_bad_length_panics p s conn hdr (b "block") (2 ^ 64 - 1));
    [reflexivity | reflexivity | reflexivity | vm_compute; reflexivity
    | left; vm_compute; reflexivity].
Defined.

Lemma envelope_round_trip_witness :
  let p := HoneyBadgerBFT.loopback in
  let env := HoneyBadgerBFT.hello in
  let s := HoneyBadgerBFT.initial
             (HoneyBadgerBFT.connected HoneyBadgerBFT.idle HoneyBadgerBFT.idle) in
  exists sent,
    HoneyBadgerBFT.sendEnvToBFTProxy p env s
    = HoneyBadgerBFT.Returns (9, None)
        (HoneyBadgerBFT.sending s (HoneyBadgerBFT.wrote HoneyBadgerBFT.idle sent))
    /\ length sent = 17%nat
    /\ let rconn := HoneyBadgerBFT.incoming (sent ++ b "next") in
       let t := HoneyBadgerBFT.initial
                  (HoneyBadgerBFT.connected HoneyBadgerBFT.idle rconn) in
       HoneyBadgerBFT.recvEnvFromBFTProxy p t
       = HoneyBadgerBFT.Returns (Ok env)
           (HoneyBadgerBFT.receiving t (HoneyBadgerBFT.read_to rconn (b "next"))).
Proof.
  intros p env s.
  exists (HoneyBadgerBFT.frame (("005"%byte :: b "hellosig"))).
  split; [vm_compute; reflexivity |]. split; [reflexivity |].
  intros rconn t.
  destruct (envelope_round_trip p s t HoneyBadgerBFT.idle rconn env
              (("005"%byte :: b "hellosig")) (b "next"))
    as (sent & Hsend & Hrecv);
    [intros c buf; reflexivity | reflexivity | reflexivity | reflexivity | reflexivity
    | vm_compute; reflexivity | vm_compute; discriminate | reflexivity |].
  apply Hrecv.
  assert (Hsent : sent = HoneyBadgerBFT.frame (("005"%byte :: b "hellosig"))).
  { vm_compute in Hsend. injection Hsend as Hw.
    apply (f_equal (fun l => l)) in Hw. symmetry. exact Hw. }
  rewrite Hsent. reflexivity.
Defined.

(** The socket of the proxy is closed: the first call returns the error
    of the write with the lock held, and the next call blocks. *)
Lemma sendEnvToBFTProxy_error_keeps_lock_witness :
  let p := HoneyBadgerBFT.broken_pipe in
  let s := HoneyBadgerBFT.initial
             (HoneyBadgerBFT.connected HoneyBadgerBFT.idle HoneyBadgerBFT.idle) in
  exists n err s',
    HoneyBadgerBFT.sendEnvToBFTProxy p HoneyBadgerBFT.hello s
    = HoneyBadgerBFT.Returns (n, Some err) s'
    /\ HoneyBadgerBFT.sendLock (HoneyBadgerBFT.ch s') = true
    /\ HoneyBadgerBFT.Order p HoneyBadgerBFT.again 0 s' = HoneyBadgerBFT.Blocks s'.
Proof.
  intros p s. do 3 eexists. split; [vm_compute; reflexivity |].
  destruct (sendEnvToBFTProxy_error_keeps_lock p s _ HoneyBadgerBFT.hello _ _
              ltac:(vm_compute; reflexivity))
    as [(Hheld & _ & Hblocks) | (Hfree & _)]; [| discriminate Hfree].
  split; [exact Hheld |]. apply Hblocks.
Defined.

Lemma Order_after_Halt_witness :
  let p := HoneyBadgerBFT.loopback in
  let s := HoneyBadgerBFT.initial
             (HoneyBadgerBFT.connected HoneyBadgerBFT.idle HoneyBadgerBFT.idle) in
  exists s1 s3,
    HoneyBadgerBFT.Halt s = HoneyBadgerBFT.Returns tt s1
    /\ HoneyBadgerBFT.Order p HoneyBadgerBFT.hello 0 s1
       = HoneyBadgerBFT.Returns (Some (Errorf "exiting")) s3
    /\ HoneyBadgerBFT.sendConnection (HoneyBadgerBFT.ch s3)
       = Some (HoneyBadgerBFT.wrote HoneyBadgerBFT.idle
                 (HoneyBadgerBFT.frame (("005"%byte :: b "hellosig"))))
    /\ HoneyBadgerBFT.countEnvelopes s3 = 1.
Proof.
  intros p s. eexists. 
  destruct (Order_after_Halt p s _ _ HoneyBadgerBFT.hello 0 _
              ltac:(vm_compute; reflexivity) ltac:(vm_compute; reflexivity))
    as (s3 & Horder & Hch & Hcount).
  exists s3. split; [vm_compute; reflexivity |]. split; [exact Horder |].
  split; [rewrite Hch; reflexivity | rewrite Hcount; reflexivity].
Defined.

Lemma Orders_frames_in_order_witness :
  let p := HoneyBadgerBFT.loopback in
  let s := HoneyBadgerBFT.initial
             (HoneyBadgerBFT.connected HoneyBadgerBFT.idle HoneyBadgerBFT.idle) in
  let ms := [("005"%byte :: b "hellosig"); ("005"%byte :: b "again")] in
  exists s',
    HoneyBadgerBFT.Orders p [HoneyBadgerBFT.hello; HoneyBadgerBFT.again] s
    = HoneyBadgerBFT.Returns [None; None] s'
    /\ HoneyBadgerBFT.ch s'
       = HoneyBadgerBFT.ch
           (HoneyBadgerBFT.sending s
              (HoneyBadgerBFT.wrote HoneyBadgerBFT.idle
                 (concat (map HoneyBadgerBFT.frame ms))))
    /\ HoneyBadgerBFT.countEnvelopes s' = 2.
Proof.
  intros p s ms.
  apply (Orders_frames_in_order p [HoneyBadgerBFT.hello; HoneyBadgerBFT.again]
           ltac:(intros c buf; reflexivity) ms s HoneyBadgerBFT.idle);
    try reflexivity.
  repeat constructor.
Defined.
